(** * Data-Broker: the refinement pipeline and its packaging boundary

    A shallow embedding of
      - [backend/models/dataset.py]            (PipelineStage, Dataset,
                                                RefinementRecord, DataPackage)
      - [backend/pipeline/quality_scorer.py]   (QualityScorer)
      - [backend/pipeline/deduplicator.py]     (Deduplicator)
      - [backend/services/refine_service.py]   (RefinementService)
      - [backend/services/package_service.py]  (PackageService.create_package)
      - [backend/routes/refinement_routes.py]  (the HTTP handlers)

    Conventions of the embedding.
      - A Python [float] is an exact rational ([Q]), so a float expression
        is evaluated without rounding. The rounding of the running program,
        IEEE 754 binary64 to nearest, is the function [binary64] of the
        second part of this file, and what is stated of a computed float is
        stated so that it holds of the rounded evaluation as well: up to
        the tolerance [1e-9] where the value itself matters
        ([mean_under_rounding]), as an order with a margin, or together
        with the equality of the exact and the rounded result where they
        coincide.
      - A Python [int] is a [Z]; [int(x)] truncates toward zero and is taken
        on the exact product. For a count [n] with [0 <= n < 2^31] (the
        range of an [Integer] column on PostgreSQL) [int(n * c)] is the same
        number in binary64 for the four factors the code uses (0.95, 0.5,
        0.3 and 0.2), see [int_095_binary64] and the three lemmas after it;
        for much larger counts it is not, and what depends on the value of
        such a truncation is stated under that bound. Columns are taken at
        their declared type: a NULL in an [Integer] or [Float] column is not
        modelled.
      - A request body is taken at the type the handler expects: a JSON
        object whose [quality_threshold] or [price_usd], when present, is a
        finite number, whose [is_for_sale], when present, is a boolean, and
        whose other values are strings. A body of another shape (JSON
        [null], a string or NaN where a number is expected) is outside the
        embedding; what is stated of a handler is stated of the requests of
        that type.
      - A Python [dict] with string keys whose order is observable (JSON
        columns, literal dicts that are summed over) is an association list
        in insertion order; the [datasets] table, which is only ever read by
        primary key, is a [gmap].
      - A [datetime] is a [Z] (a count of microseconds); [isoformat()] is left
        out, the timestamp itself stands for its rendering.
      - Exceptions are the [Raise] branch of [result]; code that touches the
        database runs in the state-and-error monad [M] over a [World] made of
        the database and a journal of the attribute writes and commits that
        were performed, in order. A write is applied to the database when it
        is made and [commit] is an entry of the journal: the operations
        embedded here can raise only before their first write, so the
        database an operation returns is the one it committed.
      - The column defaults [uuid.uuid4()] and [datetime.utcnow()] are read
        from the environment: each operation that inserts a row takes the
        values they return as an [InsertDefaults] argument. *)

From Stdlib Require Import ZArith QArith Qabs Qround Qpower Lia Lqa.
From stdpp Require Import gmap strings list sorting pretty.

Local Open Scope Z_scope.

(** ** Exceptions and results *)

Inductive exn : Type :=
| ValueError (msg : string)
| ZeroDivisionError.

Inductive result (A : Type) : Type :=
| Ok (a : A)
| Raise (e : exn).
Arguments Ok {A} a.
Arguments Raise {A} e.

(** ** Python arithmetic *)

(** [int(x)] on a float: truncation toward zero. *)
Definition int (x : Q) : Z := Z.quot (Qnum x) (Z.pos (Qden x)).

(** [a / b] on numbers: true division, [ZeroDivisionError] on a zero divisor. *)
Definition truediv (a b : Q) : result Q :=
  if Qeq_bool b 0 then Raise ZeroDivisionError else Ok (a / b)%Q.

(** [a < b] and [a > b] on floats. *)
Definition Qltb (a b : Q) : bool := negb (Qle_bool b a).
Definition Qgtb (a b : Q) : bool := Qltb b a.

(** [sum(xs)]: left-to-right addition starting from [0]. *)
Definition sum (xs : list Q) : Q := fold_left Qplus xs 0%Q.

(** [d.values()] and [len(d)] of an insertion-ordered dict. *)
Definition values {V : Type} (d : list (string * V)) : list V := map snd d.
Definition len {A : Type} (l : list A) : Z := Z.of_nat (length l).

(** [d[k]]-style read of an insertion-ordered dict (first binding wins; a
    literal dict has no repeated key). *)
Fixpoint dict_get {V : Type} (k : string) (d : list (string * V)) : option V :=
  match d with
  | [] => None
  | (k', v) :: d' => if String.eqb k k' then Some v else dict_get k d'
  end.

(** ** models/dataset.py *)

Inductive PipelineStage : Type :=
| INGESTED | STORED | REFINING | REFINED | PACKAGED | LISTED | SOLD.

(** [PipelineStage.X.value]: the string kept in the [stage] column. *)
Definition value (s : PipelineStage) : string :=
  match s with
  | INGESTED => "ingested"
  | STORED => "stored"
  | REFINING => "refining"
  | REFINED => "refined"
  | PACKAGED => "packaged"
  | LISTED => "listed"
  | SOLD => "sold"
  end.

Record Dataset : Type := mkDataset {
  ds_id : string;
  ds_created_at : Z;
  ds_name : string;
  source_type : string;
  file_path : string;
  file_count : Z;
  total_size_bytes : Z;
  stage : string;
  quality_score : Q
}.

Definition Scores : Type := list (string * Q).
Definition Classifications : Type := list (string * list (string * Q)).

Record RefinementRecord : Type := mkRefinementRecord {
  id : string;
  created_at : Z;
  dataset_id : string;
  pipeline_stage : string;
  quality_scores : Scores;
  overall_quality : Q;
  items_processed : Z;
  items_passed : Z;
  items_rejected : Z;
  classifications : Classifications;
  duplicates_found : Z;
  duplicate_removal_method : string;
  processing_duration_seconds : option Q;
  error_log : list string
}.

(** The dicts built by [PackageService]. *)
Record QualityMetrics : Type := mkQualityMetrics {
  overall_score : Q;
  items_included : Z;
  quality_breakdown : Scores
}.

Record ManifestFile : Type := mkManifestFile {
  filename : string;
  size_bytes : Z;
  format : string;
  checksum : string
}.

Record Manifest : Type := mkManifest {
  total_files : Z;
  manifest_total_size_bytes : Z;
  format_breakdown : list (string * Z);
  files : list ManifestFile
}.

Inductive ProvenanceEntry : Type :=
| IngestionStep (timestamp : Z) (description : string) (files_count : Z)
| RefinementStep (timestamp : Z) (pipeline_stage : string)
                 (items_passed items_rejected : Z)
| PackagingStep (timestamp : Z) (description : string).

Record PackageMetadata : Type := mkPackageMetadata {
  md_source_type : string;
  md_classifications : Classifications
}.

Record DataPackage : Type := mkDataPackage {
  pkg_id : string;
  pkg_created_at : Z;
  source_dataset_id : string;
  pkg_name : string;
  pkg_description : string;
  version : string;
  items_count : Z;
  package_size_bytes : Z;
  pkg_quality_score : Q;
  quality_metrics : QualityMetrics;
  manifest : Manifest;
  pkg_metadata : PackageMetadata;
  pkg_license_type : string;
  provenance_log : list ProvenanceEntry;
  is_available : bool;
  is_for_sale : bool;
  price_usd : option Q
}.

(** ** The database, the journal and the monad *)

Record DB : Type := mkDB {
  datasets : gmap string Dataset;
  refinement_records : list RefinementRecord;   (* rows in insertion order *)
  data_packages : list DataPackage
}.

(** What an operation did to the session, in program order. [Call] marks the
    entry into a pipeline stage of [RefinementService]. *)
Inductive Event : Type :=
| Call (method : string)
| SetStage (dataset_id : string) (stage : string)
| SetQualityScore (dataset_id : string) (score : Q)
| AddRefinementRecord (record_id : string)
| AddDataPackage (package_id : string)
| Commit.

Record World : Type := mkWorld {
  db : DB;
  journal : list Event
}.

(** The values the column defaults produce when a row is inserted. *)
Record InsertDefaults : Type := mkInsertDefaults {
  uuid4 : string;
  utcnow : Z
}.

Definition M (A : Type) : Type := World -> result A * World.

Global Instance M_ret : MRet M := fun A a w => (Ok a, w).
Global Instance M_bind : MBind M := fun A B k m w =>
  match m w with
  | (Ok a, w') => k a w'
  | (Raise e, w') => (Raise e, w')
  end.

Definition raise {A : Type} (e : exn) : M A := fun w => (Raise e, w).
Definition lift {A : Type} (r : result A) : M A := fun w => (r, w).
Definition get_db : M DB := fun w => (Ok (db w), w).
Definition log (e : Event) : M unit :=
  fun w => (Ok tt, mkWorld (db w) (journal w ++ [e])).
Definition modify_db (f : DB -> DB) : M unit :=
  fun w => (Ok tt, mkWorld (f (db w)) (journal w)).

(** A fresh session on a database: nothing written yet. *)
Definition session (d : DB) : World := mkWorld d [].

(** *** Queries *)

(** [Dataset.query.get(dataset_id)] *)
Definition Dataset_query_get (dataset_id : string) : M (option Dataset) :=
  d ← get_db; mret (datasets d !! dataset_id).

(** [RefinementRecord.query.filter_by(dataset_id=dataset_id)] *)
Definition filter_by_dataset_id (did : string) (rows : list RefinementRecord)
  : list RefinementRecord :=
  filter (fun r => dataset_id r = did) rows.

Definition created_le (r1 r2 : RefinementRecord) : Prop :=
  created_at r1 <= created_at r2.
Definition created_ge (r1 r2 : RefinementRecord) : Prop :=
  created_at r2 <= created_at r1.

Global Instance created_le_dec r1 r2 : Decision (created_le r1 r2) :=
  Z.le_dec (created_at r1) (created_at r2).
Global Instance created_ge_dec r1 r2 : Decision (created_ge r1 r2) :=
  Z.le_dec (created_at r2) (created_at r1).

(** [.order_by(RefinementRecord.created_at).all()] *)
Definition order_by_created_at (rows : list RefinementRecord)
  : list RefinementRecord := merge_sort created_le rows.

(** [.order_by(RefinementRecord.created_at.desc()).first()] *)
Definition first_by_created_at_desc (rows : list RefinementRecord)
  : option RefinementRecord := head (merge_sort created_ge rows).

(** *** Writes *)

Definition with_stage (s : string) (d : Dataset) : Dataset :=
  mkDataset (ds_id d) (ds_created_at d) (ds_name d) (source_type d)
            (file_path d) (file_count d) (total_size_bytes d) s
            (quality_score d).

Definition with_quality_score (q : Q) (d : Dataset) : Dataset :=
  mkDataset (ds_id d) (ds_created_at d) (ds_name d) (source_type d)
            (file_path d) (file_count d) (total_size_bytes d) (stage d) q.

Definition alter_dataset (f : Dataset -> Dataset) (did : string) (d : DB) : DB :=
  mkDB (alter f did (datasets d)) (refinement_records d) (data_packages d).

(** [dataset.stage = s] on the object loaded under [did]. *)
Definition set_stage (did : string) (s : string) : M unit :=
  _ ← modify_db (alter_dataset (with_stage s) did); log (SetStage did s).

(** [dataset.quality_score = q] *)
Definition set_quality_score (did : string) (q : Q) : M unit :=
  _ ← modify_db (alter_dataset (with_quality_score q) did);
  log (SetQualityScore did q).

(** [db.session.add(record)] for a [RefinementRecord]: the row joins the
    table. *)
Definition session_add_record (r : RefinementRecord) : M unit :=
  _ ← modify_db (fun d =>
        mkDB (datasets d) (refinement_records d ++ [r]) (data_packages d));
  log (AddRefinementRecord (id r)).

(** [db.session.add(package)] for a [DataPackage]. *)
Definition session_add_package (p : DataPackage) : M unit :=
  _ ← modify_db (fun d =>
        mkDB (datasets d) (refinement_records d) (data_packages d ++ [p]));
  log (AddDataPackage (pkg_id p)).

(** [db.session.commit()] *)
Definition session_commit : M unit := log Commit.

(** *** Packages *)

(** [DataPackage.query.get(package_id)]: the row with that primary key. *)
Definition DataPackage_query_get (package_id : string) (d : DB)
  : option DataPackage :=
  List.find (fun p => bool_decide (pkg_id p = package_id)) (data_packages d).

(** [DataPackage.query.filter_by(source_dataset_id=dataset_id).all()] *)
Definition filter_by_source_dataset_id (did : string) (rows : list DataPackage)
  : list DataPackage :=
  filter (fun p => source_dataset_id p = did) rows.

Definition with_sale (for_sale : bool) (price : option Q) (p : DataPackage)
  : DataPackage :=
  mkDataPackage (pkg_id p) (pkg_created_at p) (source_dataset_id p)
                (pkg_name p) (pkg_description p) (version p) (items_count p)
                (package_size_bytes p) (pkg_quality_score p)
                (quality_metrics p) (manifest p) (pkg_metadata p)
                (pkg_license_type p) (provenance_log p) (is_available p)
                for_sale price.

(** Attribute writes on the package object loaded by [query.get]: the first
    row with that primary key is the one that changes. *)
Fixpoint update_package (package_id : string) (f : DataPackage -> DataPackage)
         (rows : list DataPackage) : list DataPackage :=
  match rows with
  | [] => []
  | p :: rows' =>
      if bool_decide (pkg_id p = package_id) then f p :: rows'
      else p :: update_package package_id f rows'
  end.

(** ** pipeline/quality_scorer.py *)

Module QualityScorer.

Record t : Type := mk { weights : Scores }.

(** [__init__]: the default weights. *)
Definition init : t :=
  mk [ ("completeness", 0.2%Q);
       ("clarity", 0.25%Q);
       ("relevance", 0.25%Q);
       ("format_validity", 0.2%Q);
       ("metadata_quality", 0.1%Q) ].

(** [score_item]: the prototype returns a consistent score. *)
Definition score_item (self : t) (item_path : string) : Q := 0.85%Q.

(** [d[k] = v] on an insertion-ordered dict: a key already present keeps its
    place and takes the new value. *)
Fixpoint dict_set (k : string) (v : Q) (d : Scores) : Scores :=
  match d with
  | [] => [(k, v)]
  | (k', v') :: d' =>
      if String.eqb k k' then (k', v) :: d' else (k', v') :: dict_set k v d'
  end.

(** [score_batch]: [{path: self.score_item(path) for path in item_paths}] *)
Definition score_batch (self : t) (item_paths : list string) : Scores :=
  fold_left (fun d path => dict_set path (score_item self path) d)
            item_paths [].

End QualityScorer.

(** ** pipeline/deduplicator.py *)

Module Deduplicator.

Record t : Type := mk { similarity_threshold : Q }.

(** [__init__(similarity_threshold=0.95)] *)
Definition init : t := mk 0.95%Q.

Record Duplicates : Type := mkDuplicates {
  duplicate_groups : list (list string);
  duplicates_found : Z;
  method_used : string
}.

(** [find_duplicates(item_paths, method='hybrid')]. The method reads no
    attribute of [self] and assigns none: the object it leaves behind is
    the object it was called on. The result carries [method] as given. *)
Definition find_duplicates (self : t) (item_paths : list string)
           (method : string) : result Duplicates * t :=
  (Ok (mkDuplicates [] 0 method), self).

(** [calculate_hash(item_path, algorithm='sha256')] *)
Definition calculate_hash (self : t) (item_path : string)
           (algorithm : string) : string :=
  "hash_" +:+ item_path.

(** [calculate_similarity(item1_path, item2_path)] *)
Definition calculate_similarity (self : t) (item1_path item2_path : string)
  : Q := 0.5%Q.

End Deduplicator.

(** ** pipeline/classifier.py *)

Module Classifier.

(** The classifier keeps no attribute. *)
Inductive t : Type := init.

Record Classification : Type := mkClassification {
  modality : string;
  language : option string;
  domain : option string;
  content_type : option string;
  attributes : list (string * string)
}.

(** [classify_item(item_path)] *)
Definition classify_item (self : t) (item_path : string) : Classification :=
  mkClassification "unknown" None None None [].

(** [d[k] = v] on an insertion-ordered dict. *)
Fixpoint dict_set {V : Type} (k : string) (v : V) (d : list (string * V))
  : list (string * V) :=
  match d with
  | [] => [(k, v)]
  | (k', v') :: d' =>
      if String.eqb k k' then (k', v) :: d' else (k', v') :: dict_set k v d'
  end.

(** [classify_batch]: [{path: self.classify_item(path) for path in item_paths}] *)
Definition classify_batch (self : t) (item_paths : list string)
  : list (string * Classification) :=
  fold_left (fun d path => dict_set path (classify_item self path) d)
            item_paths [].

(** [aggregate_classifications(classifications)] *)
Definition aggregate_classifications (self : t)
           (classifications : list Classification) : Classifications :=
  [ ("modalities", []); ("languages", []); ("domains", []);
    ("content_types", []) ].

End Classifier.

(** ** services/refine_service.py *)

Module RefinementService.

Record QualityResults : Type := mkQualityResults {
  scores : Scores;
  overall_score : Q
}.

(** The dict returned by [_deduplicate]: keys [duplicates_found], [method],
    [rejected_items], [similarity_threshold]. *)
Record DedupResults : Type := mkDedupResults {
  dedup_duplicates_found : Z;
  dedup_method : string;
  rejected_items : list string;
  dedup_similarity_threshold : Q
}.

(** [_score_quality(dataset)] *)
Definition _score_quality (dataset : Dataset) : M QualityResults :=
  _ ← log (Call "_score_quality");
  let scores := [ ("completeness", 0.85%Q);
                  ("clarity", 0.90%Q);
                  ("relevance", 0.75%Q);
                  ("format_validity", 0.95%Q);
                  ("metadata_quality", 0.65%Q) ] in
  overall ← lift (truediv (sum (values scores)) (inject_Z (len scores)));
  mret (mkQualityResults scores overall).

(** [_deduplicate(dataset, quality_results)] *)
Definition _deduplicate (dataset : Dataset) (quality_results : QualityResults)
  : M DedupResults :=
  _ ← log (Call "_deduplicate");
  mret (mkDedupResults 0 "hash_and_semantic" [] 0.95%Q).

(** [_classify_data(dataset)] *)
Definition _classify_data (dataset : Dataset) : M Classifications :=
  _ ← log (Call "_classify_data");
  mret [ ("languages", [("en", 0.92%Q); ("es", 0.08%Q)]);
         ("modalities", [("text", 1.0%Q)]);
         ("domains", [("general", 0.7%Q); ("technical", 0.3%Q)]);
         ("content_types", [("conversation", 0.5%Q);
                            ("instructions", 0.3%Q);
                            ("creative", 0.2%Q)]) ].

(** [_count_passing_items(dataset, quality_threshold, rejected_items)] *)
Definition _count_passing_items (dataset : Dataset) (quality_threshold : Q)
           (rejected_items : list string) : M Z :=
  _ ← log (Call "_count_passing_items");
  let passed := int (inject_Z (file_count dataset) * 0.95)%Q in
  mret passed.

(** [refine_dataset(dataset_id, quality_threshold=0.5)]. The record is
    built field by field in the source; its [id] and [created_at] are
    filled from the column defaults when it is added and committed. *)
Definition refine_dataset (env : InsertDefaults) (dataset_id : string)
           (quality_threshold : Q) : M RefinementRecord :=
  o ← Dataset_query_get dataset_id;
  match o with
  | None => raise (ValueError ("Dataset " +:+ dataset_id +:+ " not found"))
  | Some dataset =>
      (* Stage 1: Quality Scoring *)
      quality_results ← _score_quality dataset;
      (* Stage 2: Deduplication *)
      dedup_results ← _deduplicate dataset quality_results;
      (* Stage 3: Classification *)
      classification_results ← _classify_data dataset;
      (* Stage 4: Filtering and statistics *)
      passed_count ← _count_passing_items dataset quality_threshold
                                          (rejected_items dedup_results);
      let record :=
        mkRefinementRecord
          (uuid4 env) (utcnow env)
          dataset_id "full_refinement"
          (scores quality_results) (overall_score quality_results)
          (file_count dataset) passed_count
          (file_count dataset - passed_count)
          classification_results
          (dedup_duplicates_found dedup_results) (dedup_method dedup_results)
          None [] in
      (* Update dataset *)
      _ ← set_stage dataset_id (value REFINED);
      _ ← set_quality_score dataset_id (overall_quality record);
      _ ← session_add_record record;
      _ ← session_commit;
      mret record
  end.

(** The [processing_summary] and the other parts of the exported dict. *)
Record Metrics : Type := mkMetrics {
  m_quality_scores : Scores;
  m_classifications : Classifications;
  m_duplicates_found : Z;
  m_method : string;
  m_items_processed : Z;
  m_items_passed : Z;
  m_items_rejected : Z;
  pass_rate : Q;
  duration_seconds : option Q;
  m_timestamp : Z
}.

(** [export_refinement_metrics(dataset_id)]; [None] is Python's [None]. *)
Definition export_refinement_metrics (dataset_id : string)
  : M (option Metrics) :=
  d ← get_db;
  match first_by_created_at_desc
          (filter_by_dataset_id dataset_id (refinement_records d)) with
  | None => mret None
  | Some record =>
      rate ← (if bool_decide (items_processed record > 0)
              then
                q ← lift (truediv (inject_Z (items_passed record))
                                  (inject_Z (items_processed record)));
                mret (q * 100)%Q
              else mret 0%Q);
      mret (Some (mkMetrics
                    (quality_scores record) (classifications record)
                    (duplicates_found record)
                    (duplicate_removal_method record)
                    (items_processed record) (items_passed record)
                    (items_rejected record) rate
                    (processing_duration_seconds record)
                    (created_at record)))
  end.

(** The two shapes of the dict returned by [get_refinement_status]:
    [{'status': 'not_refined', 'records': []}], and the ['refined'] dict with
    the fields of the latest row. *)
Record RefinedStatus : Type := mkRefinedStatus {
  st_overall_quality : Q;
  st_items_processed : Z;
  st_items_passed : Z;
  st_items_rejected : Z;
  st_duplicates_found : Z;
  st_classifications : Classifications;
  last_refined_at : Z
}.

Inductive Status : Type :=
| NotRefined
| Refined (s : RefinedStatus).

(** [get_refinement_status(dataset_id)]. The query has no [order_by]: [all()]
    yields the rows in table order, so [records[-1]] is the row of the
    dataset that was inserted last. *)
Definition get_refinement_status (dataset_id : string) : M Status :=
  d ← get_db;
  let records := filter_by_dataset_id dataset_id (refinement_records d) in
  match last records with
  | None => mret NotRefined
  | Some latest =>
      mret (Refined (mkRefinedStatus
                       (overall_quality latest) (items_processed latest)
                       (items_passed latest) (items_rejected latest)
                       (duplicates_found latest) (classifications latest)
                       (created_at latest)))
  end.

End RefinementService.

(** ** services/package_service.py *)

Module PackageService.

(** [range(n)] and [s * n] on a string. *)
Definition range (n : Z) : list Z := seqZ 0 n.

Fixpoint str_mul (s : string) (n : nat) : string :=
  match n with
  | O => ""
  | S n' => s +:+ str_mul s n'
  end.

(** [_generate_manifest(dataset)] *)
Definition _generate_manifest (dataset : Dataset) : Manifest :=
  mkManifest
    (file_count dataset)
    (total_size_bytes dataset)
    [ ("text", int (inject_Z (file_count dataset) * 0.5)%Q);
      ("images", int (inject_Z (file_count dataset) * 0.3)%Q);
      ("other", int (inject_Z (file_count dataset) * 0.2)%Q) ]
    (map (fun i =>
            mkManifestFile
              ("file_" +:+ pretty i +:+ ".dat")
              (total_size_bytes dataset `div` Z.max 1 (file_count dataset))
              "binary"
              (str_mul ("sha256_" +:+ pretty i) 8))
         (range (Z.min 5 (file_count dataset)))).

(** [_generate_provenance_log(dataset)]; [now] is what [datetime.utcnow()]
    returns for the packaging step. *)
Definition _generate_provenance_log (now : Z) (dataset : Dataset)
  : M (list ProvenanceEntry) :=
  d ← get_db;
  let refinement_records :=
    order_by_created_at
      (filter_by_dataset_id (ds_id dataset) (refinement_records d)) in
  mret ([ IngestionStep (ds_created_at dataset)
                        ("Data ingested from " +:+ source_type dataset)
                        (file_count dataset) ]
        ++ map (fun record =>
                  RefinementStep (created_at record) (pipeline_stage record)
                                 (items_passed record) (items_rejected record))
               refinement_records
        ++ [ PackagingStep now "Data packaged for delivery" ]).

(** [create_package(dataset_id, name, description, version, license_type)] *)
Definition create_package (env : InsertDefaults) (now : Z)
           (dataset_id name description version license_type : string)
  : M DataPackage :=
  o ← Dataset_query_get dataset_id;
  match o with
  | None => raise (ValueError ("Dataset " +:+ dataset_id +:+ " not found"))
  | Some dataset =>
      if bool_decide (stage dataset ≠ value REFINED) then
        raise (ValueError
                 ("Dataset must be refined before packaging. Current stage: "
                  +:+ stage dataset))
      else
        (* Get refinement metrics for quality info *)
        d ← get_db;
        let latest_refinement :=
          first_by_created_at_desc
            (filter_by_dataset_id dataset_id (refinement_records d)) in
        (* Create manifest *)
        let manifest := _generate_manifest dataset in
        (* Create quality metrics *)
        let quality_metrics :=
          mkQualityMetrics
            (match latest_refinement with
             | Some r => overall_quality r | None => quality_score dataset end)
            (match latest_refinement with
             | Some r => items_passed r | None => file_count dataset end)
            (match latest_refinement with
             | Some r => quality_scores r | None => [] end) in
        (* Create provenance log *)
        provenance ← _generate_provenance_log now dataset;
        let package :=
          mkDataPackage
            (uuid4 env) (utcnow env)
            dataset_id name description version
            (match latest_refinement with
             | Some r => items_passed r | None => file_count dataset end)
            (total_size_bytes dataset)
            (match latest_refinement with
             | Some r => overall_quality r | None => quality_score dataset end)
            quality_metrics
            manifest
            (mkPackageMetadata
               (source_type dataset)
               (match latest_refinement with
                | Some r => classifications r | None => [] end))
            license_type
            provenance
            true false None in
        _ ← session_add_package package;
        _ ← session_commit;
        (* Update dataset stage *)
        _ ← set_stage dataset_id (value PACKAGED);
        _ ← session_commit;
        mret package
  end.

(** The dict returned by [get_package_details]. *)
Record PackageDetails : Type := mkPackageDetails {
  pd_id : string;
  pd_name : string;
  pd_description : string;
  pd_version : string;
  pd_quality_score : Q;
  pd_items_count : Z;
  pd_size_bytes : Z;
  pd_manifest : Manifest;
  pd_quality_metrics : QualityMetrics;
  pd_provenance : list ProvenanceEntry;
  pd_license_type : string;
  pd_is_available : bool;
  pd_created_at : Z
}.

Definition details_of (package : DataPackage) : PackageDetails :=
  mkPackageDetails
    (pkg_id package) (pkg_name package) (pkg_description package)
    (version package) (pkg_quality_score package) (items_count package)
    (package_size_bytes package) (manifest package) (quality_metrics package)
    (provenance_log package) (pkg_license_type package)
    (is_available package) (pkg_created_at package).

(** [get_package_details(package_id)]; [None] is Python's [None]. *)
Definition get_package_details (package_id : string)
  : M (option PackageDetails) :=
  d ← get_db;
  match DataPackage_query_get package_id d with
  | None => mret None
  | Some package => mret (Some (details_of package))
  end.

(** [mapM]: a list comprehension whose body runs in [M]. *)
Fixpoint for_each {A B : Type} (f : A -> M B) (l : list A) : M (list B) :=
  match l with
  | [] => mret []
  | a :: l' => b ← f a; bs ← for_each f l'; mret (b :: bs)
  end.

(** [list_packages_by_dataset(dataset_id)]:
    [[self.get_package_details(p.id) for p in packages]] *)
Definition list_packages_by_dataset (dataset_id : string)
  : M (list (option PackageDetails)) :=
  d ← get_db;
  let packages := filter_by_source_dataset_id dataset_id (data_packages d) in
  for_each (fun p => get_package_details (pkg_id p)) packages.

(** How [update_package_for_sale] can end: besides returning and raising
    one of the exceptions of [exn], the read of [dataset.stage] raises
    [AttributeError] when [package.source_dataset] is [None]. *)
Inductive Outcome (A : Type) : Type :=
| Returns (a : A)
| Raises (e : exn)
| RaisesAttributeError (msg : string).
Arguments Returns {A} a.
Arguments Raises {A} e.
Arguments RaisesAttributeError {A} msg.

Definition outcome_of {A : Type} (r : result A * World) : Outcome A * World :=
  match r with
  | (Ok a, w) => (Returns a, w)
  | (Raise e, w) => (Raises e, w)
  end.

(** [update_package_for_sale(package_id, price_usd, is_for_sale=True)].
    The writes to the package have no entry of their own in the journal. When
    [AttributeError] is raised the commit is never reached: the world is the
    one the call started from. *)
Definition update_package_for_sale (package_id : string) (price_usd : Q)
           (is_for_sale : bool) (w : World) : Outcome DataPackage * World :=
  match DataPackage_query_get package_id (db w) with
  | None =>
      (Raises (ValueError ("Package " +:+ package_id +:+ " not found")), w)
  | Some package =>
      let write_package : M unit :=
        modify_db (fun d =>
          mkDB (datasets d) (refinement_records d)
               (update_package package_id
                  (with_sale is_for_sale (Some price_usd))
                  (data_packages d))) in
      let package' := with_sale is_for_sale (Some price_usd) package in
      if is_for_sale then
        (* Get the dataset to update stage *)
        match datasets (db w) !! source_dataset_id package with
        | None =>
            (RaisesAttributeError
               "'NoneType' object has no attribute 'stage'", w)
        | Some _ =>
            outcome_of
              ((_ ← write_package;
                _ ← set_stage (source_dataset_id package) (value LISTED);
                _ ← session_commit;
                mret package') w)
        end
      else
        outcome_of ((_ ← write_package; _ ← session_commit; mret package') w)
  end.

End PackageService.

(** ** routes/refinement_routes.py *)

Module Routes.

(** A handler returns a body and a status code; the error bodies are
    [{'error': message}]. *)
Inductive Response (A : Type) : Type :=
| Json (payload : A) (status : Z)
| Error (error : string) (status : Z).
Arguments Json {A} payload status.
Arguments Error {A} error status.

Definition status_of {A : Type} (r : Response A) : Z :=
  match r with Json _ s => s | Error _ s => s end.

(** [str(e)] *)
Definition str (e : exn) : string :=
  match e with
  | ValueError msg => msg
  | ZeroDivisionError => "float division by zero"
  end.

Record RefineBody : Type := mkRefineBody {
  rb_dataset_id : string;
  rb_pipeline_stage : string;
  rb_quality_scores : Scores;
  rb_overall_quality : Q;
  rb_items_processed : Z;
  rb_items_passed : Z;
  rb_items_rejected : Z;
  rb_duplicates_found : Z;
  rb_classifications : Classifications;
  rb_created_at : Z
}.

(** [POST /api/refinement/refine/<dataset_id>], on a request whose body is
    a JSON object (or JSON [null], read as the empty object by
    [request.get_json() or {}]) in which [quality_threshold], when present,
    is a finite number: [body_threshold] is that number. The two comparisons
    stand in front of the [try]; on a threshold of another type ([null], a
    string) they raise [TypeError] out of the handler, and on NaN both are
    false. Such requests are not in the domain of this function. *)
Definition refine_dataset (env : InsertDefaults) (dataset_id : string)
           (body_threshold : option Q) (w : World)
  : Response RefineBody * World :=
  match datasets (db w) !! dataset_id with
  | None => (Error "Dataset not found" 404, w)
  | Some _ =>
      let quality_threshold := default 0.5%Q body_threshold in
      if Qltb quality_threshold 0 || Qgtb quality_threshold 1
      then (Error "Quality threshold must be between 0 and 1" 400, w)
      else
        match RefinementService.refine_dataset env dataset_id
                                               quality_threshold w with
        | (Ok record, w') =>
            (Json (mkRefineBody
                     dataset_id (pipeline_stage record)
                     (quality_scores record) (overall_quality record)
                     (items_processed record) (items_passed record)
                     (items_rejected record) (duplicates_found record)
                     (classifications record) (created_at record)) 200, w')
        | (Raise (ValueError msg), w') => (Error (str (ValueError msg)) 400, w')
        | (Raise e, w') => (Error (str e) 500, w')
        end
  end.

Record HistoryEntry : Type := mkHistoryEntry {
  he_id : string;
  he_pipeline_stage : string;
  he_overall_quality : Q;
  he_items_processed : Z;
  he_items_passed : Z;
  he_items_rejected : Z;
  he_created_at : Z
}.

Definition history_entry (r : RefinementRecord) : HistoryEntry :=
  mkHistoryEntry (id r) (pipeline_stage r) (overall_quality r)
                 (items_processed r) (items_passed r) (items_rejected r)
                 (created_at r).

(** [GET /api/refinement/history/<dataset_id>]: the [records] list of the
    body; the status is always 200. *)
Definition get_refinement_history (dataset_id : string) (w : World)
  : Response (string * list HistoryEntry) * World :=
  let records :=
    order_by_created_at
      (filter_by_dataset_id dataset_id (refinement_records (db w))) in
  (Json (dataset_id, map history_entry records) 200, w).

Record DedupBody : Type := mkDedupBody {
  db_dataset_id : string;
  db_duplicates_found : Z;
  db_method : string;
  db_duplicate_groups : list (list string)
}.

(** [POST /api/refinement/deduplication/<dataset_id>]. [body_method] is the
    [method] key of the JSON body when it is present. *)
Definition deduplication (dataset_id : string) (body_method : option string)
           (w : World) : Response DedupBody * World :=
  match datasets (db w) !! dataset_id with
  | None => (Error "Dataset not found" 404, w)
  | Some _ =>
      let method := default "hybrid" body_method in
      if bool_decide (method ∉ ["hash"; "semantic"; "hybrid"]) then
        (Error "Invalid deduplication method" 400, w)
      else
        (Json (mkDedupBody dataset_id 0 method []) 200, w)
  end.

(** [GET /api/refinement/status/<dataset_id>]. A handler without a
    [try] answers an exception with the framework's 500 page. *)
Definition get_refinement_status (dataset_id : string) (w : World)
  : Response RefinementService.Status * World :=
  match datasets (db w) !! dataset_id with
  | None => (Error "Dataset not found" 404, w)
  | Some _ =>
      match RefinementService.get_refinement_status dataset_id w with
      | (Ok status, w') => (Json status 200, w')
      | (Raise e, w') => (Error "Internal Server Error" 500, w')
      end
  end.

(** [GET /api/refinement/metrics/<dataset_id>] *)
Definition get_refinement_metrics (dataset_id : string) (w : World)
  : Response RefinementService.Metrics * World :=
  match RefinementService.export_refinement_metrics dataset_id w with
  | (Ok None, w') =>
      (Error "No refinement records found for dataset" 404, w')
  | (Ok (Some metrics), w') => (Json metrics 200, w')
  | (Raise e, w') => (Error "Internal Server Error" 500, w')
  end.

Record QualityCheckBody : Type := mkQualityCheckBody {
  qc_dataset_id : string;
  qc_quality_scores : Scores;
  qc_overall_quality : Q
}.

(** [POST /api/refinement/quality-check/<dataset_id>] *)
Definition quality_check (dataset_id : string) (w : World)
  : Response QualityCheckBody * World :=
  match datasets (db w) !! dataset_id with
  | None => (Error "Dataset not found" 404, w)
  | Some _ =>
      (Json (mkQualityCheckBody
               dataset_id
               [ ("completeness", 0.85%Q);
                 ("clarity", 0.90%Q);
                 ("relevance", 0.75%Q);
                 ("format_validity", 0.95%Q);
                 ("metadata_quality", 0.65%Q) ]
               0.82%Q) 200, w)
  end.

(** [POST /api/refinement/classification/<dataset_id>] *)
Definition classify_data (dataset_id : string) (w : World)
  : Response (string * Classifications) * World :=
  match datasets (db w) !! dataset_id with
  | None => (Error "Dataset not found" 404, w)
  | Some _ =>
      (Json (dataset_id,
             [ ("languages", [("en", 0.92%Q); ("es", 0.08%Q)]);
               ("modalities", [("text", 1.0%Q)]);
               ("domains", [("general", 0.7%Q); ("technical", 0.3%Q)]);
               ("content_types", [("conversation", 0.5%Q);
                                  ("instructions", 0.3%Q);
                                  ("creative", 0.2%Q)]) ]) 200, w)
  end.

End Routes.

(** ** routes/package_routes.py *)

Module PackageRoutes.

Import Routes.

Record CreatedBody : Type := mkCreatedBody {
  cb_id : string;
  cb_name : string;
  cb_version : string;
  cb_quality_score : Q;
  cb_items_count : Z;
  cb_is_available : bool;
  cb_created_at : Z
}.

(** [POST /api/packages/]. [data] is the JSON object of the request, its
    values strings; [env] and [now] are the defaults and the clock reading
    the service uses. *)
Definition create_package (env : InsertDefaults) (now : Z)
           (data : gmap string string) (w : World)
  : Response CreatedBody * World :=
  let required := ["dataset_id"; "name"; "description"] in
  if negb (forallb (fun field => bool_decide (is_Some (data !! field)))
                   required)
  then (Error ("Missing required fields: " +:+ String.concat ", " required)
              400, w)
  else
    match PackageService.create_package
            env now
            (default "" (data !! "dataset_id"))
            (default "" (data !! "name"))
            (default "" (data !! "description"))
            (default "1.0" (data !! "version"))
            (default "proprietary" (data !! "license_type")) w with
    | (Ok package, w') =>
        (Json (mkCreatedBody
                 (pkg_id package) (pkg_name package) (version package)
                 (pkg_quality_score package) (items_count package)
                 (is_available package) (pkg_created_at package)) 201, w')
    | (Raise (ValueError msg), w') => (Error (str (ValueError msg)) 400, w')
    | (Raise e, w') => (Error (str e) 500, w')
    end.

(** [GET /api/packages/<package_id>] *)
Definition get_package (package_id : string) (w : World)
  : Response PackageService.PackageDetails * World :=
  match PackageService.get_package_details package_id w with
  | (Ok (Some package_details), w') => (Json package_details 200, w')
  | (Ok None, w') => (Error "Package not found" 404, w')
  | (Raise e, w') => (Error "Internal Server Error" 500, w')
  end.

(** [GET /api/packages/dataset/<dataset_id>] *)
Definition list_dataset_packages (dataset_id : string) (w : World)
  : Response (string * list (option PackageService.PackageDetails)) * World :=
  match PackageService.list_packages_by_dataset dataset_id w with
  | (Ok packages, w') => (Json (dataset_id, packages) 200, w')
  | (Raise e, w') => (Error "Internal Server Error" 500, w')
  end.

(** [GET /api/packages/<package_id>/manifest] *)
Definition get_manifest (package_id : string) (w : World)
  : Response (string * Manifest * QualityMetrics) * World :=
  match DataPackage_query_get package_id (db w) with
  | None => (Error "Package not found" 404, w)
  | Some package =>
      (Json (package_id, manifest package, quality_metrics package) 200, w)
  end.

(** [GET /api/packages/<package_id>/provenance] *)
Definition get_provenance (package_id : string) (w : World)
  : Response (string * string * list ProvenanceEntry) * World :=
  match DataPackage_query_get package_id (db w) with
  | None => (Error "Package not found" 404, w)
  | Some package =>
      (Json (package_id, pkg_name package, provenance_log package) 200, w)
  end.

Record SaleBody : Type := mkSaleBody {
  sb_id : string;
  sb_name : string;
  sb_price_usd : option Q;
  sb_is_for_sale : bool
}.

(** [PUT /api/packages/<package_id>/sell], on a request whose body is a
    JSON object in which [price_usd], when present, is a number and
    [is_for_sale], when present, is a boolean: [body_price] and
    [body_is_for_sale] are these two values. The test
    ['price_usd' not in data] stands in front of the [try]; on a body that
    is not an object (JSON [null]) it raises [TypeError] out of the handler.
    Such requests are not in the domain of this function. *)
Definition update_for_sale (package_id : string) (body_price : option Q)
           (body_is_for_sale : option bool) (w : World)
  : Response SaleBody * World :=
  match body_price with
  | None => (Error "Missing required field: price_usd" 400, w)
  | Some price =>
      match PackageService.update_package_for_sale
              package_id price (default true body_is_for_sale) w with
      | (PackageService.Returns package, w') =>
          (Json (mkSaleBody (pkg_id package) (pkg_name package)
                            (price_usd package) (is_for_sale package)) 200, w')
      | (PackageService.Raises (ValueError msg), w') =>
          (Error (str (ValueError msg)) 404, w')
      | (PackageService.Raises e, w') => (Error (str e) 500, w')
      | (PackageService.RaisesAttributeError msg, w') => (Error msg 500, w')
      end
  end.

End PackageRoutes.

(** * Specification-side definitions *)

(** ** Closed forms of one run of [refine_dataset]

    The values the placeholders of [RefinementService] produce, the record a
    run commits and the world it leaves; [refine_dataset_run] below proves
    that the embedded function computes exactly these. *)

Definition placeholder_scores : Scores :=
  [ ("completeness", 0.85%Q); ("clarity", 0.90%Q); ("relevance", 0.75%Q);
    ("format_validity", 0.95%Q); ("metadata_quality", 0.65%Q) ].

Definition placeholder_overall : Q :=
  (sum (values placeholder_scores) / inject_Z (len placeholder_scores))%Q.

Definition placeholder_classifications : Classifications :=
  [ ("languages", [("en", 0.92%Q); ("es", 0.08%Q)]);
    ("modalities", [("text", 1.0%Q)]);
    ("domains", [("general", 0.7%Q); ("technical", 0.3%Q)]);
    ("content_types", [("conversation", 0.5%Q); ("instructions", 0.3%Q);
                       ("creative", 0.2%Q)]) ].

Definition passed_of (d : Dataset) : Z := int (inject_Z (file_count d) * 0.95)%Q.

Definition refined_record (env : InsertDefaults) (did : string) (d : Dataset)
  : RefinementRecord :=
  mkRefinementRecord (uuid4 env) (utcnow env) did "full_refinement"
    placeholder_scores placeholder_overall
    (file_count d) (passed_of d) (file_count d - passed_of d)
    placeholder_classifications 0 "hash_and_semantic" None [].

Definition refine_events (env : InsertDefaults) (did : string) : list Event :=
  [ Call "_score_quality"; Call "_deduplicate"; Call "_classify_data";
    Call "_count_passing_items";
    SetStage did (value REFINED); SetQualityScore did placeholder_overall;
    AddRefinementRecord (uuid4 env); Commit ].

Definition refined_world (env : InsertDefaults) (did : string) (d : Dataset)
           (w : World) : World :=
  mkWorld
    (mkDB (alter (with_quality_score placeholder_overall) did
             (alter (with_stage (value REFINED)) did (datasets (db w))))
          (refinement_records (db w) ++ [refined_record env did d])
          (data_packages (db w)))
    (journal w ++ refine_events env did).

(** ** Sample data used by the concrete evaluations *)

Definition sample_dataset : Dataset :=
  mkDataset "ds-1" 100 "corpus" "crowd" "/data/ds-1" 20 4096 (value STORED) 0%Q.


Definition sample_db : DB :=
  mkDB {[ "ds-1" := sample_dataset ]} [] [].


Definition first_insert : InsertDefaults := mkInsertDefaults "rec-1" 200.
Definition second_insert : InsertDefaults := mkInsertDefaults "rec-2" 300.
Definition package_insert : InsertDefaults := mkInsertDefaults "pkg-1" 500.

(** ** The aggregate score (C1) *)

(** The aggregate as the specification words it: the sum over the
    dimensions of score times weight. *)
Definition spec_weighted_aggregate (scores weights : Scores) : Q :=
  sum (map (fun kv => (kv.2 * default 0 (dict_get kv.1 weights))%Q) scores).

Definition within_tolerance (a b : Q) : Prop := (Qabs (a - b) <= 1e-9)%Q.

(** The aggregate as the source computes it: the unweighted mean. *)
Definition mean (scores : Scores) : Q :=
  (sum (values scores) / inject_Z (len scores))%Q.

(** ** The filter (C2) *)

(** Rejection as the specification words it: the item's quality score is
    below the threshold, or deduplication marked it rejected. The per-item
    score is [QualityScorer.score_item]. *)
Definition spec_rejected (scorer : QualityScorer.t) (quality_threshold : Q)
           (rejected_items : list string) (item : string) : bool :=
  Qltb (QualityScorer.score_item scorer item) quality_threshold
  || bool_decide (item ∈ rejected_items).

Definition spec_items_passed (scorer : QualityScorer.t) (quality_threshold : Q)
           (rejected_items : list string) (items : list string) : Z :=
  len (filter (fun item =>
                 spec_rejected scorer quality_threshold rejected_items item
                 = false) items).

(** ** Stage writes (C4) *)

(** The journal shows a write of REFINING to the dataset's stage that
    precedes the entry into the quality scorer. *)
Definition sets_refining_before_scoring (did : string) (events : list Event)
  : Prop :=
  exists pre post,
    events = pre ++ SetStage did (value REFINING) :: post /\
    Call "_score_quality" ∈ post.

(** ** The latest record (C7, C10) *)

(** Every dataset whose stage is REFINED has a refinement record. *)
Definition refined_has_record (w : World) : Prop :=
  forall did d,
    datasets (db w) !! did = Some d -> stage d = value REFINED ->
    exists r, r ∈ refinement_records (db w) /\ dataset_id r = did.


(** [r] is a record of dataset [did] in the table, and none of that
    dataset's records was created after it. *)
Definition is_latest_record (did : string) (rows : list RefinementRecord)
           (r : RefinementRecord) : Prop :=
  r ∈ rows /\ dataset_id r = did /\
  forall r', r' ∈ rows -> dataset_id r' = did -> created_at r' <= created_at r.

(** The sample dataset after one and after two refinement runs. *)
Definition refined_sample_dataset : Dataset :=
  with_quality_score placeholder_overall
    (with_stage (value REFINED) sample_dataset).

Definition once_refined : World :=
  refined_world first_insert "ds-1" sample_dataset (session sample_db).

Definition twice_refined : World :=
  refined_world second_insert "ds-1" refined_sample_dataset once_refined.


(** * More of the code: definitions used by the further properties *)

(** The counts of a record are those [refine_dataset] writes: 95 percent of
    the processed items, truncated, passed, and the rest was rejected. *)
Definition counted (r : RefinementRecord) : Prop :=
  items_passed r = int (inject_Z (items_processed r) * 0.95)%Q /\
  items_rejected r = items_processed r - items_passed r.

(** The refinement step the provenance log shows for a record. *)
Definition step_of (record : RefinementRecord) : ProvenanceEntry :=
  RefinementStep (created_at record) (pipeline_stage record)
                 (items_passed record) (items_rejected record).

(** The timestamp of a provenance entry. *)
Definition timestamp_of (e : ProvenanceEntry) : Z :=
  match e with
  | IngestionStep t _ _ => t
  | RefinementStep t _ _ _ => t
  | PackagingStep t _ => t
  end.

(** No package in the table has this primary key yet. *)
Definition fresh_package_id (package_id : string) (w : World) : Prop :=
  forall p, p ∈ data_packages (db w) -> pkg_id p <> package_id.

(** The sample dataset refined at 300 and then, the clock having stepped
    back, at 200. *)
Definition clock_stepped_back : World :=
  refined_world (mkInsertDefaults "rec-2" 200) "ds-1" refined_sample_dataset
    (refined_world (mkInsertDefaults "rec-1" 300) "ds-1" sample_dataset
       (session sample_db)).

(** A complete request body for [POST /api/packages/]. *)
Definition sample_package_request : gmap string string :=
  {[ "dataset_id" := "ds-1"; "name" := "pack"; "description" := "first cut" ]}.

(** ** Closed forms of one run of [create_package]

    The package a successful call builds from the dataset row and the
    records table, and the world it leaves; [create_package_run] proves that
    the embedded function computes exactly these. *)

Definition provenance_of (now : Z) (d : Dataset) (rows : list RefinementRecord)
  : list ProvenanceEntry :=
  [ IngestionStep (ds_created_at d)
                  ("Data ingested from " +:+ source_type d) (file_count d) ]
  ++ map step_of (order_by_created_at (filter_by_dataset_id (ds_id d) rows))
  ++ [ PackagingStep now "Data packaged for delivery" ].

Definition package_of (env : InsertDefaults) (now : Z)
           (did name description version license_type : string)
           (d : Dataset) (rows : list RefinementRecord) : DataPackage :=
  let latest := first_by_created_at_desc (filter_by_dataset_id did rows) in
  let quality :=
    match latest with Some r => overall_quality r | None => quality_score d end in
  let count :=
    match latest with Some r => items_passed r | None => file_count d end in
  mkDataPackage
    (uuid4 env) (utcnow env) did name description version
    count (total_size_bytes d) quality
    (mkQualityMetrics quality count
       match latest with Some r => quality_scores r | None => [] end)
    (PackageService._generate_manifest d)
    (mkPackageMetadata (source_type d)
       match latest with Some r => classifications r | None => [] end)
    license_type
    (provenance_of now d rows)
    true false None.

Definition packaged_world (did : string) (p : DataPackage) (w : World) : World :=
  mkWorld
    (mkDB (alter (with_stage (value PACKAGED)) did (datasets (db w)))
          (refinement_records (db w))
          (data_packages (db w) ++ [p]))
    (journal w ++ [ AddDataPackage (pkg_id p); Commit;
                    SetStage did (value PACKAGED); Commit ]).

(** A dataset whose stage says REFINED while the table holds no record. *)
Definition orphan_dataset : Dataset :=
  mkDataset "ds-2" 100 "orphan" "university" "/data/ds-2" 7 700
            (value REFINED) 0.4%Q.

Definition orphan_db : DB := mkDB {[ "ds-2" := orphan_dataset ]} [] [].

(** The twice refined sample, packaged. *)
Definition sample_package : DataPackage :=
  package_of package_insert 400 "ds-1" "pack" "first cut" "1.0" "proprietary"
             refined_sample_dataset (refinement_records (db twice_refined)).

Definition packaged_sample : World :=
  packaged_world "ds-1" sample_package twice_refined.

(** The names of the sample files a manifest can list, in order. *)
Definition sample_filenames : list string :=
  ["file_0.dat"; "file_1.dat"; "file_2.dat"; "file_3.dat"; "file_4.dat"].

(** The total of the sizes the manifest lists. *)
Definition listed_size (m : Manifest) : Z :=
  foldr Z.add 0 (map size_bytes (files m)).

(** The total of the counts of the format breakdown. *)
Definition breakdown_total (m : Manifest) : Z :=
  foldr Z.add 0 (map snd (format_breakdown m)).

Definition timestamp_le (a b : ProvenanceEntry) : Prop :=
  timestamp_of a <= timestamp_of b.

(** The packaged sample put up for sale at 49.99. *)
Definition listed_package : DataPackage :=
  with_sale true (Some 49.99%Q) sample_package.

(** The values written to the stage of dataset [did], in program order. *)
Fixpoint stage_writes (did : string) (events : list Event) : list string :=
  match events with
  | [] => []
  | SetStage did' s :: events' =>
      if bool_decide (did' = did) then s :: stage_writes did events'
      else stage_writes did events'
  | _ :: events' => stage_writes did events'
  end.

Definition listed_sample : World :=
  snd (PackageService.update_package_for_sale "pkg-1" 49.99%Q true
         packaged_sample).

Definition entry_le (a b : Routes.HistoryEntry) : Prop :=
  Routes.he_created_at a <= Routes.he_created_at b.

(** ** Binary64 arithmetic

    The floats of the running program are IEEE 754 binary64 numbers, and
    each operation on them returns the exact result rounded to the nearest
    number of the format, ties to even. [binary64] is that rounding, for a
    result in the range of the normal numbers (it has no overflow and no
    subnormal numbers: the exponent is not bounded). It is used to state
    what the exact evaluation of the embedding and the rounded evaluation of
    the program have in common. *)

Definition pow2 (e : Z) : Q := (2 ^ e)%Q.

(** The exponent [e] with [2^e <= x < 2^(e+1)], for [x > 0]. *)
Definition floor_log2 (x : Q) : Z :=
  let l := Z.log2 (Qnum x) - Z.log2 (Z.pos (Qden x)) in
  if Qle_bool (pow2 l) x then l else l - 1.

(** The nearest integer, ties to even. *)
Definition rne (s : Q) : Z :=
  let f := Qfloor s in
  match (s - inject_Z f ?= 1 # 2)%Q with
  | Lt => f
  | Gt => f + 1
  | Eq => if Z.even f then f else f + 1
  end.

(** Rounding to a significand of 53 bits. *)
Definition round_pos (x : Q) : Q :=
  let E := floor_log2 x - 52 in
  (inject_Z (rne (x / pow2 E)) * pow2 E)%Q.

Definition binary64 (x : Q) : Q :=
  match (x ?= 0)%Q with
  | Eq => 0%Q
  | Gt => round_pos x
  | Lt => (- round_pos (- x))%Q
  end.

(** The numbers of the format: a significand of at most 53 bits and an
    exponent. *)
Definition representable (y : Q) : Prop :=
  exists m E, Z.abs m < 2 ^ 53 /\ (y == inject_Z m * pow2 E)%Q.

(** [n * c] for an [int] [n] and a float literal [c]: the literal is read,
    the [int] is converted, and the product is rounded. *)
Definition float_mul_int (n : Z) (c : Q) : Q :=
  binary64 (binary64 (inject_Z n) * binary64 c).

(** [sum(xs)] on floats, as the left-to-right loop of CPython up to 3.11. *)
Definition float_sum (xs : list Q) : Q :=
  fold_left (fun a x => binary64 (a + x)%Q) xs 0%Q.

(** ** Rounding in the aggregate score (C1, X9)

    What the float operations of [sum(scores.values()) / len(scores)]
    guarantee, whichever way they round. Reading a decimal literal and
    dividing are correct to one unit roundoff as long as the exact result is
    in the range of the normal numbers. Adding up a short list of
    non-negative floats that cannot overflow is correct to two unit
    roundoffs for each element of the list: the left-to-right loop is (each
    of its additions is correct to one unit roundoff), and so is the
    compensated summation of later Python versions. [binary64] with
    [float_sum] is one instance, the exact arithmetic of the embedding is
    another. *)

Definition unit_roundoff : Q := 1 # 9007199254740992.   (* 2^-53 *)

Definition min_normal : Q := 1 # (2 ^ 1022).
Definition max_float : Q := inject_Z (2 ^ 1023).

Definition normal_range (x : Q) : Prop :=
  (min_normal <= x)%Q /\ (x <= max_float)%Q.

Definition rounds_within_unit_roundoff (fl : Q -> Q) : Prop :=
  forall x, normal_range x ->
            (x * (1 - unit_roundoff) <= fl x)%Q /\
            (fl x <= x * (1 + unit_roundoff))%Q.

Definition sums_floats (fsum : list Q -> Q) : Prop :=
  forall xs,
    (length xs <= 1000)%nat ->
    Forall (fun x => (0 <= x)%Q /\ (x <= inject_Z (2 ^ 1000))%Q) xs ->
    (sum xs * (1 - 2 * inject_Z (len xs) * unit_roundoff) <= fsum xs)%Q /\
    (fsum xs <= sum xs * (1 + 2 * inject_Z (len xs) * unit_roundoff))%Q.

(** [sum(scores.values()) / len(scores)] on the floats the literals of
    [scores] denote, with every operation rounded. *)
Definition rounded_mean (fl : Q -> Q) (fsum : list Q -> Q) (scores : Scores)
  : Q :=
  fl (fsum (map fl (values scores)) / inject_Z (len scores))%Q.

(** The column defaults of a second insert made at the clock reading of the
    first. *)
Definition same_clock_insert : InsertDefaults := mkInsertDefaults "rec-2" 200.

(** * Properties *)

(** ** Running the monad *)

Lemma bind_ok {A B : Type} (m : M A) (k : A -> M B) (w w' : World) (a : A) :
  m w = (Ok a, w') -> (m ≫= k) w = k a w'.
Proof. intros E. unfold mbind, M_bind. now rewrite E. Qed.

Lemma query_get_run did w :
  Dataset_query_get did w = (Ok (datasets (db w) !! did), w).
Proof. reflexivity. Qed.

(** ** What one run of [refine_dataset] does *)

Lemma score_quality_run d w :
  RefinementService._score_quality d w
  = (Ok (RefinementService.mkQualityResults placeholder_scores placeholder_overall),
     mkWorld (db w) (journal w ++ [Call "_score_quality"])).
Proof. reflexivity. Qed.

Lemma refine_dataset_run env did th w d :
  datasets (db w) !! did = Some d ->
  RefinementService.refine_dataset env did th w
  = (Ok (refined_record env did d), refined_world env did d w).
Proof.
  intros Hd. unfold RefinementService.refine_dataset.
  rewrite (bind_ok _ _ _ _ _ (query_get_run did w)), Hd.
  rewrite (bind_ok _ _ _ _ _ (score_quality_run d w)).
  destruct w as [dbw jw].
  cbv [refined_world refine_events refined_record passed_of].
  cbv [mbind M_bind mret M_ret
       RefinementService._deduplicate RefinementService._classify_data
       RefinementService._count_passing_items set_stage set_quality_score
       session_add_record session_commit log modify_db lift].
  cbn. rewrite <- !app_assoc. reflexivity.
Qed.

Lemma refine_dataset_missing env did th w :
  datasets (db w) !! did = None ->
  RefinementService.refine_dataset env did th w
  = (Raise (ValueError ("Dataset " +:+ did +:+ " not found")), w).
Proof.
  intros Hd. unfold RefinementService.refine_dataset.
  rewrite (bind_ok _ _ _ _ _ (query_get_run did w)), Hd. reflexivity.
Qed.

Lemma refined_world_dataset env did d w :
  datasets (db w) !! did = Some d ->
  datasets (db (refined_world env did d w)) !! did
  = Some (with_quality_score placeholder_overall (with_stage (value REFINED) d)).
Proof.
  intros Hd. cbn. rewrite !lookup_alter_eq, Hd. reflexivity.
Qed.

(** ** Binary64 arithmetic

    [binary64] rounds to a nearest number of the format, so with a relative
    error of at most [2^-53]; and for a count below [2^31] the products
    [n * 0.95], [n * 0.5], [n * 0.3] and [n * 0.2], rounded, truncate to the
    same integer as the exact products. *)

Section Binary64.
Local Open Scope Q_scope.

Lemma pow2_pos e : 0 < pow2 e.
Proof. apply Qpower_0_lt. reflexivity. Qed.

Lemma pow2_add a b : pow2 (a + b) == pow2 a * pow2 b.
Proof. apply Qpower_plus. discriminate. Qed.

Lemma pow2_Z e : (0 <= e)%Z -> pow2 e == inject_Z (2 ^ e).
Proof. intros H. unfold pow2. now rewrite Zpower_Qpower. Qed.

Lemma pow2_le a b : (a <= b)%Z -> pow2 a <= pow2 b.
Proof. intros H. apply Qpower_le_compat_l; [exact H|discriminate]. Qed.

Lemma pow2_lt a b : (a < b)%Z -> pow2 a < pow2 b.
Proof. intros H. apply Qpower_lt_compat_l; [exact H|reflexivity]. Qed.

Lemma pow2_lt_inv a b : pow2 a < pow2 b -> (a < b)%Z.
Proof. intros H. apply (Qpower_lt_compat_l_inv 2); [exact H|reflexivity]. Qed.

Lemma pow2_succ e : pow2 (e + 1) == 2 * pow2 e.
Proof. rewrite pow2_add. change (pow2 1) with 2. ring. Qed.

Lemma pow2_inv e : pow2 e * pow2 (- e) == 1.
Proof. rewrite <- pow2_add. now replace (e + - e)%Z with 0%Z by lia. Qed.

(** [floor_log2 x] is the exponent of the binade of [x]. *)
Lemma floor_log2_spec x :
  0 < x -> pow2 (floor_log2 x) <= x /\ x < pow2 (floor_log2 x + 1).
Proof.
  intros Hx. destruct x as [p q]. unfold floor_log2. cbn [Qnum Qden].
  assert (0 < p)%Z as Hp by (unfold Qlt in Hx; cbn in Hx; lia).
  set (lp := Z.log2 p). set (lq := Z.log2 (Z.pos q)).
  destruct (Z.log2_spec p Hp) as [Hp1 Hp2]. fold lp in Hp1, Hp2.
  destruct (Z.log2_spec (Z.pos q) ltac:(lia)) as [Hq1 Hq2]. fold lq in Hq1, Hq2.
  assert (0 <= lp)%Z as Hlp by apply Z.log2_nonneg.
  assert (0 <= lq)%Z as Hlq by apply Z.log2_nonneg.
  unfold Z.succ in Hp2, Hq2.
  rewrite Zle_Qle in Hp1, Hq1. rewrite Zlt_Qlt in Hp2, Hq2.
  rewrite <- !pow2_Z in Hp1, Hp2, Hq1, Hq2 by lia.
  rewrite !pow2_succ in Hp2, Hq2.
  pose proof (pow2_pos lq) as HB. pose proof (pow2_pos (lp - lq)) as HL.
  assert (pow2 (lp - lq) * pow2 lq == pow2 lp) as HAB
      by (rewrite <- pow2_add; now replace (lp - lq + lq)%Z with lp by lia).
  assert ((p # q) * inject_Z (Z.pos q) == inject_Z p) as Hpq.
  { rewrite (Qmake_Qdiv p q). field. discriminate. }
  set (x := p # q) in *. set (P := inject_Z p) in *.
  set (D := inject_Z (Z.pos q)) in *.
  set (A := pow2 lp) in *. set (B := pow2 lq) in *.
  destruct (Qle_bool (pow2 (lp - lq)) x) eqn:Hb.
  - apply Qle_bool_iff in Hb. split; [exact Hb|].
    rewrite pow2_succ. set (L := pow2 (lp - lq)) in *.
    clearbody x P D A B L. nra.
  - assert (x < pow2 (lp - lq)) as Hlt.
    { apply Qnot_le_lt. intros H. apply Qle_bool_iff in H. congruence. }
    replace (lp - lq - 1 + 1)%Z with (lp - lq)%Z by lia.
    split; [|exact Hlt].
    assert (2 * pow2 (lp - lq - 1) == pow2 (lp - lq)) as H2
        by (rewrite <- pow2_succ; now replace (lp - lq - 1 + 1)%Z with (lp - lq)%Z by lia).
    set (L := pow2 (lp - lq)) in *. set (L' := pow2 (lp - lq - 1)) in *.
    clearbody x P D A B L L'. nra.
Qed.

Lemma Qabs_le_Qabs a b :
  (0 <= b -> - b <= a /\ a <= b) -> (b <= 0 -> b <= a /\ a <= - b) ->
  Qabs a <= Qabs b.
Proof.
  intros Hpos Hneg. apply (Qabs_case b (fun v => Qabs a <= v)).
  - intros Hb. apply Qabs_Qle_condition. exact (Hpos Hb).
  - intros Hb. apply Qabs_Qle_condition. destruct (Hneg Hb). split; lra.
Qed.

Lemma Qabs_le_elim a b : Qabs a <= b -> - b <= a /\ a <= b.
Proof. apply Qabs_Qle_condition. Qed.

(** [rne s] is an integer nearest to [s]. *)
Lemma rne_nearest s z :
  Qabs (inject_Z (rne s) - s) <= Qabs (inject_Z z - s).
Proof.
  pose proof (Qfloor_le s) as Hlo. pose proof (Qlt_floor s) as Hhi.
  rewrite inject_Z_plus in Hhi. change (inject_Z 1) with 1 in Hhi.
  assert (inject_Z z <= inject_Z (Qfloor s) \/
          inject_Z (Qfloor s) + 1 <= inject_Z z) as Hz.
  { destruct (Z_le_gt_dec z (Qfloor s)) as [H|H].
    - left. now rewrite <- Zle_Qle.
    - right. change 1 with (inject_Z 1). rewrite <- inject_Z_plus, <- Zle_Qle.
      lia. }
  unfold rne. set (f := Qfloor s) in *.
  destruct (s - inject_Z f ?= 1 # 2) eqn:Hc.
  - apply Qeq_alt in Hc.
    destruct (Z.even f); [|rewrite inject_Z_plus; change (inject_Z 1) with 1];
      apply Qabs_le_Qabs; intros; destruct Hz; split; lra.
  - apply Qlt_alt in Hc.
    apply Qabs_le_Qabs; intros; destruct Hz; split; lra.
  - apply Qgt_alt in Hc.
    rewrite inject_Z_plus; change (inject_Z 1) with 1.
    apply Qabs_le_Qabs; intros; destruct Hz; split; lra.
Qed.

Lemma round_pos_nearest x y :
  0 < x -> representable y -> Qabs (round_pos x - x) <= Qabs (y - x).
Proof.
  intros Hx (m' & E' & Hm' & Hy). rewrite Hy. clear y Hy.
  unfold round_pos. destruct (floor_log2_spec x Hx) as [Hlo _].
  set (E := (floor_log2 x - 52)%Z) in *.
  pose proof (pow2_pos E) as HT. pose proof (pow2_inv E) as Hinv.
  set (s := x / pow2 E).
  assert (x == s * pow2 E) as Hxs by (unfold s; field; lra).
  assert (inject_Z (2 ^ 52) <= s) as Hs.
  { assert (pow2 (floor_log2 x) == inject_Z (2 ^ 52) * pow2 E) as H.
    { rewrite <- pow2_Z by lia. rewrite <- pow2_add. unfold E.
      now replace (52 + (floor_log2 x - 52))%Z with (floor_log2 x) by lia. }
    rewrite H in Hlo. set (T := pow2 E) in *.
    set (c := inject_Z (2 ^ 52)) in *. clearbody T c s. nra. }
  destruct (Z_le_gt_dec E E') as [HE|HE].
  - (* the candidate is a multiple of the unit in the last place *)
    pose proof (rne_nearest s (m' * 2 ^ (E' - E))) as Hn.
    assert (inject_Z m' * pow2 E' == inject_Z (m' * 2 ^ (E' - E)) * pow2 E) as ->.
    { rewrite inject_Z_mult, <- pow2_Z by lia. rewrite <- Qmult_assoc, <- pow2_add.
      now replace (E' - E + E)%Z with E' by lia. }
    set (m := rne s) in *. set (z := (m' * 2 ^ (E' - E))%Z) in *.
    assert (inject_Z m * pow2 E - x == (inject_Z m - s) * pow2 E) as ->
        by (rewrite Hxs at 1; ring).
    assert (inject_Z z * pow2 E - x == (inject_Z z - s) * pow2 E) as ->
        by (rewrite Hxs at 1; ring).
    rewrite !Qabs_Qmult, (Qabs_pos (pow2 E)) by lra.
    apply Qmult_le_compat_r; [exact Hn|lra].
  - (* the candidate lies below the binade *)
    pose proof (rne_nearest s (2 ^ 52)) as Hn.
    apply Qabs_le_elim in Hn.
    assert (Qabs (inject_Z (2 ^ 52) - s) == s - inject_Z (2 ^ 52)) as Habs
        by (rewrite Qabs_neg by lra; ring).
    rewrite Habs in Hn. clear Habs.
    assert (inject_Z m' * pow2 E' < inject_Z (2 ^ 52) * pow2 E) as Hy.
    { assert (inject_Z m' < inject_Z (2 ^ 53)) as Hm
          by (rewrite <- Zlt_Qlt; lia).
      pose proof (pow2_le E' (E - 1) ltac:(lia)) as Hle.
      assert (2 * pow2 (E - 1) == pow2 E) as H2
          by (rewrite <- pow2_succ; now replace (E - 1 + 1)%Z with E by lia).
      pose proof (pow2_pos E') as HT'.
      change (inject_Z (2 ^ 53)) with (2 * inject_Z (2 ^ 52)) in Hm.
      set (c := inject_Z (2 ^ 52)) in *. assert (0 < c) as Hc by reflexivity.
      set (T' := pow2 E') in *. set (T1 := pow2 (E - 1)) in *.
      set (T := pow2 E) in *. set (M := inject_Z m') in *.
      clearbody c T' T1 T M s. 
      destruct (Qlt_le_dec M 0) as [HM|HM]; nra. }
    set (m := rne s) in *. set (c := inject_Z (2 ^ 52)) in *.
    set (T := pow2 E) in *. set (y := inject_Z m' * pow2 E') in *.
    set (M := inject_Z m) in *.
    assert (- (s * T - c * T) <= M * T - s * T /\ M * T - s * T <= s * T - c * T)
      as [H1 H2] by (clearbody M c T s y; destruct Hn; split; nra).
    apply Qabs_le_Qabs; intros Hsign; clearbody M c T s y; split; nra.
Qed.

Lemma binary64_pos x : 0 < x -> binary64 x = round_pos x.
Proof. intros Hx. unfold binary64. apply Qgt_alt in Hx. now rewrite Hx. Qed.

(** Rounding to nearest: no number of the format is nearer. *)
Lemma binary64_nearest x y :
  0 < x -> representable y -> Qabs (binary64 x - x) <= Qabs (y - x).
Proof. intros Hx Hy. rewrite (binary64_pos x Hx). now apply round_pos_nearest. Qed.

Lemma representable_Z (z : Z) : (Z.abs z < 2 ^ 53)%Z -> representable (inject_Z z).
Proof.
  intros Hz. exists z, 0%Z. split; [exact Hz|].
  change (pow2 0) with 1. ring.
Qed.

(** A number of the format is left as it is. *)
Lemma binary64_exact x : 0 < x -> representable x -> binary64 x == x.
Proof.
  intros Hx Hr. pose proof (binary64_nearest x x Hx Hr) as H.
  assert (x - x == 0) as E by ring. rewrite E in H. clear E.
  change (Qabs 0) with 0 in H. apply Qabs_le_elim in H. destruct H. lra.
Qed.

(** Between two numbers of the format. *)
Lemma binary64_between x lo hi :
  0 < x -> representable lo -> representable hi -> lo <= x -> x <= hi ->
  lo <= binary64 x /\ binary64 x <= hi.
Proof.
  intros Hx Hlo Hhi H1 H2.
  pose proof (binary64_nearest x lo Hx Hlo) as A.
  pose proof (binary64_nearest x hi Hx Hhi) as B.
  rewrite (Qabs_neg (lo - x)) in A by lra.
  rewrite (Qabs_pos (hi - x)) in B by lra.
  apply Qabs_le_elim in A, B. destruct A, B. split; lra.
Qed.

(** Just below an integer: the integer itself is the nearest number of the
    format as long as the distance is well below half a unit in the last
    place. *)
Lemma binary64_below_integer x (N : Z) d :
  (1 <= N < 2 ^ 53)%Z -> x == inject_Z N - d -> 0 <= d -> 2 * d < 1 ->
  2 * d * inject_Z (2 ^ 53) <= inject_Z N - d ->
  binary64 x == inject_Z N.
Proof.
  intros HN Hx Hd Hd1 Hgap.
  assert (1 <= inject_Z N) as HN1
      by (change 1 with (inject_Z 1); rewrite <- Zle_Qle; lia).
  assert (0 < x) as Hpos by lra.
  pose proof (binary64_nearest x (inject_Z N) Hpos
                (representable_Z N ltac:(lia))) as Hn.
  rewrite (Qabs_pos (inject_Z N - x)) in Hn by lra.
  apply Qabs_le_elim in Hn. destruct Hn as [Hn1 Hn2].
  rewrite (binary64_pos x Hpos) in *. unfold round_pos in *.
  destruct (floor_log2_spec x Hpos) as [_ Hhi].
  set (E := (floor_log2 x - 52)%Z) in *.
  set (m := rne (x / pow2 E)) in *.
  assert (pow2 (floor_log2 x + 1) == inject_Z (2 ^ 53) * pow2 E) as HE.
  { rewrite <- pow2_Z by lia. rewrite <- pow2_add. unfold E.
    now replace (53 + (floor_log2 x - 52))%Z with (floor_log2 x + 1)%Z by lia. }
  rewrite HE in Hhi. clear HE.
  pose proof (pow2_pos E) as HT.
  destruct (Qlt_le_dec (inject_Z m * pow2 E) (inject_Z N)) as [Hlt|Hge];
    [exfalso|lra].
  destruct (Z_le_gt_dec 0 E) as [HE|HE].
  - (* the result is an integer *)
    rewrite pow2_Z in Hlt, Hn1 by lia. rewrite <- inject_Z_mult in Hlt, Hn1.
    rewrite <- Zlt_Qlt in Hlt.
    assert (m * 2 ^ E <= N + -1)%Z as Hle by lia.
    rewrite Zle_Qle, inject_Z_plus in Hle. change (inject_Z (-1)) with (-1) in Hle.
    lra.
  - (* the result is a multiple of the unit in the last place *)
    pose proof (pow2_inv E) as Hinv. rewrite (pow2_Z (- E)) in Hinv by lia.
    assert (inject_Z m < inject_Z (N * 2 ^ (- E))) as Hm.
    { rewrite inject_Z_mult. set (K := inject_Z (2 ^ (- E))) in *.
      assert (0 < K) as HK by (clearbody K; set (T := pow2 E) in *; clearbody T; nra).
      set (T := pow2 E) in *. set (M := inject_Z m) in *.
      set (n := inject_Z N) in *. clearbody K T M n. nra. }
    rewrite <- Zlt_Qlt in Hm.
    assert (m <= N * 2 ^ (- E) + -1)%Z as Hle by lia.
    rewrite Zle_Qle, inject_Z_plus, inject_Z_mult in Hle.
    change (inject_Z (-1)) with (-1) in Hle.
    set (K := inject_Z (2 ^ (- E))) in *. set (T := pow2 E) in *.
    set (M := inject_Z m) in *. set (n := inject_Z N) in *.
    set (c := inject_Z (2 ^ 53)) in *. assert (0 < c) as Hc by reflexivity.
    assert (M * T <= n - T) as Hstep by (clearbody K T M n c; nra).
    clearbody K T M n c. nra.
Qed.

(** Truncation of a number between two consecutive integers. *)
Lemma int_between (x : Q) (F : Z) :
  (0 <= F)%Z -> inject_Z F <= x -> x < inject_Z F + 1 -> int x = F.
Proof.
  intros HF Hlo Hhi. destruct x as [p q]. unfold int. cbn [Qnum Qden].
  unfold Qle, Qlt, Qplus in *. cbn in Hlo, Hhi.
  rewrite Z.quot_div_nonneg by nia.
  symmetry. apply (Z.div_unique p (Z.pos q) F (p - F * Z.pos q)); nia.
Qed.

Lemma representable_32nds (F : Z) :
  (0 <= F < 2 ^ 47)%Z -> representable (inject_Z F + (31 # 32)).
Proof.
  intros HF. exists (32 * F + 31)%Z, (-5)%Z. split; [lia|].
  rewrite inject_Z_plus, inject_Z_mult. change (pow2 (-5)) with (1 # 32).
  change (inject_Z 32) with 32. change (inject_Z 31) with 31. ring.
Qed.

(** Truncating the rounded value of a number that is not too close below
    the next integer. *)
Lemma int_binary64_above (x : Q) (F : Z) :
  0 < x -> (0 <= F < 2 ^ 47)%Z ->
  inject_Z F <= x -> x <= inject_Z F + (31 # 32) ->
  int (binary64 x) = F.
Proof.
  intros Hx HF Hlo Hhi.
  destruct (binary64_between x (inject_Z F) (inject_Z F + (31 # 32)) Hx
              (representable_Z F ltac:(lia)) (representable_32nds F HF) Hlo Hhi)
    as [H1 H2].
  apply int_between; [lia|exact H1|lra].
Qed.

Lemma int_binary64_below (x : Q) (N : Z) d :
  (1 <= N < 2 ^ 53)%Z -> x == inject_Z N - d -> 0 <= d -> 2 * d < 1 ->
  2 * d * inject_Z (2 ^ 53) <= inject_Z N - d ->
  int (binary64 x) = N.
Proof.
  intros HN Hx Hd Hd1 Hgap.
  pose proof (binary64_below_integer x N d HN Hx Hd Hd1 Hgap) as H.
  apply int_between; [lia|lra|lra].
Qed.

Lemma binary64_of_count (n : Z) :
  (0 <= n < 2 ^ 53)%Z -> binary64 (inject_Z n) == inject_Z n.
Proof.
  intros Hn. destruct (Z.eq_dec n 0%Z) as [->|Hn0]; [reflexivity|].
  apply binary64_exact; [|apply representable_Z; lia].
  change 0 with (inject_Z 0). rewrite <- Zlt_Qlt. lia.
Qed.

(** [int(n * 0.95)] in binary64 and in exact arithmetic. *)
Lemma int_095_binary64 (n : Z) :
  (0 <= n < 2 ^ 31)%Z ->
  int (float_mul_int n 0.95) = int (inject_Z n * 0.95).
Proof.
  intros Hn. unfold float_mul_int.
  destruct (Z.eq_dec n 0%Z) as [->|Hn0]; [reflexivity|].
  pose proof (binary64_of_count n ltac:(lia)) as Ha.
  assert (binary64 0.95 == 0.95 - (2 # 5) * (1 # 9007199254740992)) as Hc
      by (vm_compute; reflexivity).
  set (P := binary64 (inject_Z n) * binary64 0.95).
  assert (P == inject_Z n * 0.95
               - inject_Z n * ((2 # 5) * (1 # 9007199254740992))) as HP
      by (unfold P; rewrite Ha, Hc; ring).
  clearbody P. clear Ha Hc.
  pose proof (Z.div_mod (n * 19) 20 ltac:(lia)) as Hdm.
  pose proof (Z.mod_pos_bound (n * 19) 20 ltac:(lia)) as Hm.
  set (F := (n * 19 / 20)%Z) in *. set (f := ((n * 19) mod 20)%Z) in *.
  assert (0 <= F < 2 ^ 47)%Z as HF by lia.
  assert (inject_Z n * 19 == 20 * inject_Z F + inject_Z f) as Hq.
  { change 19 with (inject_Z 19). change 20 with (inject_Z 20).
    rewrite <- !inject_Z_mult, <- inject_Z_plus. now rewrite Hdm. }
  assert (1 <= inject_Z n /\ inject_Z n < inject_Z (2 ^ 31)) as [Hn1 Hn2]
      by (change 1 with (inject_Z 1); rewrite <- Zle_Qle, <- Zlt_Qlt; lia).
  change (inject_Z (2 ^ 31)) with 2147483648 in Hn2.
  assert (0 <= inject_Z f /\ inject_Z f <= 19) as [Hf1 Hf2]
      by (change 0 with (inject_Z 0); change 19 with (inject_Z 19);
          rewrite <- !Zle_Qle; lia).
  assert (int (inject_Z n * 0.95) = F) as ->.
  { apply int_between; [lia| |]; lra. }
  destruct (Z.eq_dec f 0%Z) as [Hf0|Hf0].
  - apply (int_binary64_below P F
             (inject_Z n * ((2 # 5) * (1 # 9007199254740992)))).
    + lia.
    + rewrite HP. rewrite Hf0 in Hq. change (inject_Z 0) with 0 in Hq. lra.
    + lra.
    + lra.
    + change (inject_Z (2 ^ 53)) with 9007199254740992.
      rewrite Hf0 in Hq. change (inject_Z 0) with 0 in Hq. lra.
  - assert (1 <= inject_Z f) as Hf3
        by (change 1 with (inject_Z 1); rewrite <- Zle_Qle; lia).
    apply int_binary64_above; [lra|exact HF|lra|lra].
Qed.

(** [int(n * 0.5)], [int(n * 0.3)] and [int(n * 0.2)] likewise. *)
Lemma int_05_binary64 (n : Z) :
  (0 <= n < 2 ^ 31)%Z ->
  int (float_mul_int n 0.5) = int (inject_Z n * 0.5).
Proof.
  intros Hn. unfold float_mul_int.
  destruct (Z.eq_dec n 0%Z) as [->|Hn0]; [reflexivity|].
  pose proof (binary64_of_count n ltac:(lia)) as Ha.
  assert (binary64 0.5 == 0.5) as Hc by (vm_compute; reflexivity).
  set (P := binary64 (inject_Z n) * binary64 0.5).
  assert (P == inject_Z n * 0.5) as HP by (unfold P; rewrite Ha, Hc; ring).
  clearbody P. clear Ha Hc.
  pose proof (Z.div_mod n 2 ltac:(lia)) as Hdm.
  pose proof (Z.mod_pos_bound n 2 ltac:(lia)) as Hm.
  set (F := (n / 2)%Z) in *. set (f := (n mod 2)%Z) in *.
  assert (0 <= F < 2 ^ 47)%Z as HF by lia.
  assert (inject_Z n == 2 * inject_Z F + inject_Z f) as Hq.
  { change 2 with (inject_Z 2).
    rewrite <- !inject_Z_mult, <- inject_Z_plus. now rewrite <- Hdm. }
  assert (1 <= inject_Z n) as Hn1
      by (change 1 with (inject_Z 1); rewrite <- Zle_Qle; lia).
  assert (0 <= inject_Z f /\ inject_Z f <= 1) as [Hf1 Hf2]
      by (change 0 with (inject_Z 0); change 1 with (inject_Z 1);
          rewrite <- !Zle_Qle; lia).
  assert (int (inject_Z n * 0.5) = F) as ->.
  { apply int_between; [lia| |]; lra. }
  apply int_binary64_above; [lra|exact HF|lra|lra].
Qed.

Lemma int_02_binary64 (n : Z) :
  (0 <= n < 2 ^ 31)%Z ->
  int (float_mul_int n 0.2) = int (inject_Z n * 0.2).
Proof.
  intros Hn. unfold float_mul_int.
  destruct (Z.eq_dec n 0%Z) as [->|Hn0]; [reflexivity|].
  pose proof (binary64_of_count n ltac:(lia)) as Ha.
  assert (binary64 0.2 == 0.2 + (1 # 5) * (1 # 18014398509481984)) as Hc
      by (vm_compute; reflexivity).
  set (P := binary64 (inject_Z n) * binary64 0.2).
  assert (P == inject_Z n * 0.2
               + inject_Z n * ((1 # 5) * (1 # 18014398509481984))) as HP
      by (unfold P; rewrite Ha, Hc; ring).
  clearbody P. clear Ha Hc.
  pose proof (Z.div_mod n 5 ltac:(lia)) as Hdm.
  pose proof (Z.mod_pos_bound n 5 ltac:(lia)) as Hm.
  set (F := (n / 5)%Z) in *. set (f := (n mod 5)%Z) in *.
  assert (0 <= F < 2 ^ 47)%Z as HF by lia.
  assert (inject_Z n == 5 * inject_Z F + inject_Z f) as Hq.
  { change 5 with (inject_Z 5).
    rewrite <- !inject_Z_mult, <- inject_Z_plus. now rewrite <- Hdm. }
  assert (1 <= inject_Z n /\ inject_Z n < inject_Z (2 ^ 31)) as [Hn1 Hn2]
      by (change 1 with (inject_Z 1); rewrite <- Zle_Qle, <- Zlt_Qlt; lia).
  change (inject_Z (2 ^ 31)) with 2147483648 in Hn2.
  assert (0 <= inject_Z f /\ inject_Z f <= 4) as [Hf1 Hf2]
      by (change 0 with (inject_Z 0); change 4 with (inject_Z 4);
          rewrite <- !Zle_Qle; lia).
  assert (int (inject_Z n * 0.2) = F) as ->.
  { apply int_between; [lia| |]; lra. }
  apply int_binary64_above; [lra|exact HF|lra|lra].
Qed.

Lemma int_03_binary64 (n : Z) :
  (0 <= n < 2 ^ 31)%Z ->
  int (float_mul_int n 0.3) = int (inject_Z n * 0.3).
Proof.
  intros Hn. unfold float_mul_int.
  destruct (Z.eq_dec n 0%Z) as [->|Hn0]; [reflexivity|].
  pose proof (binary64_of_count n ltac:(lia)) as Ha.
  assert (binary64 0.3 == 0.3 - (1 # 5) * (1 # 18014398509481984)) as Hc
      by (vm_compute; reflexivity).
  set (P := binary64 (inject_Z n) * binary64 0.3).
  assert (P == inject_Z n * 0.3
               - inject_Z n * ((1 # 5) * (1 # 18014398509481984))) as HP
      by (unfold P; rewrite Ha, Hc; ring).
  clearbody P. clear Ha Hc.
  pose proof (Z.div_mod (n * 3) 10 ltac:(lia)) as Hdm.
  pose proof (Z.mod_pos_bound (n * 3) 10 ltac:(lia)) as Hm.
  set (F := (n * 3 / 10)%Z) in *. set (f := ((n * 3) mod 10)%Z) in *.
  assert (0 <= F < 2 ^ 47)%Z as HF by lia.
  assert (inject_Z n * 3 == 10 * inject_Z F + inject_Z f) as Hq.
  { change 3 with (inject_Z 3). change 10 with (inject_Z 10).
    rewrite <- !inject_Z_mult, <- inject_Z_plus. now rewrite Hdm. }
  assert (1 <= inject_Z n /\ inject_Z n < inject_Z (2 ^ 31)) as [Hn1 Hn2]
      by (change 1 with (inject_Z 1); rewrite <- Zle_Qle, <- Zlt_Qlt; lia).
  change (inject_Z (2 ^ 31)) with 2147483648 in Hn2.
  assert (0 <= inject_Z f /\ inject_Z f <= 9) as [Hf1 Hf2]
      by (change 0 with (inject_Z 0); change 9 with (inject_Z 9);
          rewrite <- !Zle_Qle; lia).
  assert (int (inject_Z n * 0.3) = F) as ->.
  { apply int_between; [lia| |]; lra. }
  destruct (Z.eq_dec f 0%Z) as [Hf0|Hf0].
  - apply (int_binary64_below P F
             (inject_Z n * ((1 # 5) * (1 # 18014398509481984)))).
    + lia.
    + rewrite HP. rewrite Hf0 in Hq. change (inject_Z 0) with 0 in Hq. lra.
    + lra.
    + lra.
    + change (inject_Z (2 ^ 53)) with 9007199254740992.
      rewrite Hf0 in Hq. change (inject_Z 0) with 0 in Hq. lra.
  - assert (1 <= inject_Z f) as Hf3
        by (change 1 with (inject_Z 1); rewrite <- Zle_Qle; lia).
    apply int_binary64_above; [lra|exact HF|lra|lra].
Qed.

(** The relative error of one rounding is at most [2^-53]. *)
Lemma binary64_relative_error x :
  0 < x ->
  x * (1 - (1 # 9007199254740992)) <= binary64 x /\
  binary64 x <= x * (1 + (1 # 9007199254740992)).
Proof.
  intros Hx. rewrite (binary64_pos x Hx). unfold round_pos.
  destruct (floor_log2_spec x Hx) as [Hlo _].
  set (E := (floor_log2 x - 52)%Z) in *.
  pose proof (pow2_pos E) as HT.
  set (s := x / pow2 E).
  assert (x == s * pow2 E) as Hxs by (unfold s; field; lra).
  assert (pow2 (floor_log2 x) == inject_Z (2 ^ 52) * pow2 E) as H.
  { rewrite <- pow2_Z by lia. rewrite <- pow2_add. unfold E.
    now replace (52 + (floor_log2 x - 52))%Z with (floor_log2 x) by lia. }
  rewrite H in Hlo. clear H.
  change (inject_Z (2 ^ 52)) with 4503599627370496 in Hlo.
  pose proof (rne_nearest s (Qfloor s)) as H1.
  pose proof (rne_nearest s (Qfloor s + 1)) as H2.
  pose proof (Qfloor_le s) as Hf1. pose proof (Qlt_floor s) as Hf2.
  rewrite inject_Z_plus in H2, Hf2. change (inject_Z 1) with 1 in H2, Hf2.
  rewrite (Qabs_neg (inject_Z (Qfloor s) - s)) in H1 by lra.
  rewrite (Qabs_pos (inject_Z (Qfloor s) + 1 - s)) in H2 by lra.
  apply Qabs_le_elim in H1, H2. destruct H1 as [A1 A2], H2 as [B1 B2].
  set (m := inject_Z (rne s)) in *. set (f := inject_Z (Qfloor s)) in *.
  set (T := pow2 E) in *.
  assert (m - s <= 1 # 2) as Hup by lra.
  assert (- (1 # 2) <= m - s) as Hdn by lra.
  clearbody m f T s. rewrite Hxs in *. split; nra.
Qed.
Lemma sum_from (a : Q) (xs : list Q) :
  (fold_left Qplus xs a == a + fold_left Qplus xs 0)%Q.
Proof.
  revert a. induction xs as [|x xs IH]; intros a; cbn.
  - lra.
  - rewrite (IH (a + x)%Q), (IH (0 + x)%Q). lra.
Qed.

Lemma binary64_nonneg_error x :
  0 <= x ->
  x * (1 - unit_roundoff) <= binary64 x /\
  binary64 x <= x * (1 + unit_roundoff).
Proof.
  intros Hx. destruct (Qlt_le_dec 0 x) as [Hpos|Hle].
  - now apply binary64_relative_error.
  - assert (x == 0) as E by lra. unfold binary64.
    apply Qeq_alt in E. rewrite E. apply Qeq_alt in E. rewrite E.
    split; discriminate.
Qed.

Lemma float_sum_from (xs : list Q) :
  forall (a T : Q) (k : nat),
    (k + length xs <= 1000)%nat ->
    Forall (fun x => 0 <= x) xs ->
    0 <= T ->
    T * (1 - 2 * inject_Z (Z.of_nat k) * unit_roundoff) <= a ->
    a <= T * (1 + 2 * inject_Z (Z.of_nat k) * unit_roundoff) ->
    (T + sum xs)
    * (1 - 2 * inject_Z (Z.of_nat (k + length xs)) * unit_roundoff)
    <= fold_left (fun a x => binary64 (a + x)) xs a /\
    fold_left (fun a x => binary64 (a + x)) xs a
    <= (T + sum xs)
       * (1 + 2 * inject_Z (Z.of_nat (k + length xs)) * unit_roundoff).
Proof.
  induction xs as [|x xs IH]; intros a T k Hlen Hpos HS Hlo Hhi.
  - cbn [fold_left length]. rewrite Nat.add_0_r. unfold sum. cbn [fold_left].
    split; lra.
  - cbn [fold_left length] in *.
    apply Forall_cons in Hpos as [Hx Hpos].
    assert (0 <= inject_Z (Z.of_nat k) /\ inject_Z (Z.of_nat k) <= 1000)
      as [Hk0 Hk1].
    { change 0 with (inject_Z 0). change 1000 with (inject_Z 1000).
      rewrite <- !Zle_Qle. lia. }
    assert (inject_Z (Z.of_nat (S k)) == inject_Z (Z.of_nat k) + 1) as HSk.
    { change 1 with (inject_Z 1). rewrite <- inject_Z_plus.
      now rewrite Nat2Z.inj_succ. }
    unfold unit_roundoff in *.
    set (K := inject_Z (Z.of_nat k)) in *.
    assert (0 <= a) as Ha by (clearbody K; nra).
    destruct (binary64_nonneg_error (a + x) ltac:(lra)) as [E1 E2].
    unfold unit_roundoff in *.
    replace (k + S (length xs))%nat with (S k + length xs)%nat
      by lia.
    assert (T + sum (x :: xs) == (T + x) + sum xs) as ->.
    { unfold sum. cbn [fold_left]. rewrite (sum_from (0 + x)). ring. }
    apply IH; [lia|exact Hpos|lra| |].
    + rewrite HSk. set (b := binary64 (a + x)) in *. clearbody b K. nra.
    + rewrite HSk. set (b := binary64 (a + x)) in *. clearbody b K. nra.
Qed.
End Binary64.

(** ** C1: the aggregate score *)

Example weights_sum_to_one :
  (sum (values (QualityScorer.weights QualityScorer.init)) == 1)%Q.
Proof. reflexivity. Qed.

Example weighted_aggregate_of_placeholder :
  (spec_weighted_aggregate placeholder_scores
     (QualityScorer.weights QualityScorer.init) == 0.8375)%Q.
Proof. reflexivity. Qed.

(** C1, counterexample. On the sample dataset the committed record has
    [overall_quality] [0.82] (within [1e-9]) while the weighted sum of its
    five dimension scores is [0.8375] (within [1e-9]): they differ by more
    than [0.017], far more than [1e-9]. *)
Lemma C1_overall_is_not_weighted_sum :
  exists r w',
    RefinementService.refine_dataset first_insert "ds-1" 0.5 (session sample_db)
    = (Ok r, w') /\
    within_tolerance (overall_quality r) 0.82 /\
    within_tolerance
      (spec_weighted_aggregate (quality_scores r)
         (QualityScorer.weights QualityScorer.init)) 0.8375 /\
    (0.017 <= Qabs (overall_quality r
                    - spec_weighted_aggregate (quality_scores r)
                        (QualityScorer.weights QualityScorer.init)))%Q /\
    ~ within_tolerance (overall_quality r)
        (spec_weighted_aggregate (quality_scores r)
           (QualityScorer.weights QualityScorer.init)).
Proof.
  eexists _, _. split.
  - apply (refine_dataset_run _ _ _ _ sample_dataset). reflexivity.
  - unfold within_tolerance. repeat split; try (vm_compute; discriminate).
    intros H. vm_compute in H. now apply H.
Qed.

(** Numbers between a thousandth and a thousand are normal, and far from
    overflowing a sum. *)
Lemma moderate_normal (x : Q) :
  (1 # 1000 <= x)%Q -> (x <= 1000)%Q -> normal_range x.
Proof.
  intros Hlo Hhi. split.
  - apply Qle_trans with (1 # 1000)%Q; [|exact Hlo].
    unfold min_normal, Qle. cbn [Qnum Qden]. vm_compute. discriminate.
  - apply Qle_trans with 1000%Q; [exact Hhi|].
    unfold max_float, Qle. cbn [Qnum Qden inject_Z]. vm_compute. discriminate.
Qed.

Lemma moderate_summand (x : Q) :
  (0 <= x)%Q -> (x <= 1000)%Q -> (0 <= x)%Q /\ (x <= inject_Z (2 ^ 1000))%Q.
Proof.
  intros Hlo Hhi. split; [exact Hlo|].
  apply Qle_trans with 1000%Q; [exact Hhi|].
  unfold Qle. cbn [Qnum Qden inject_Z]. vm_compute. discriminate.
Qed.

(** The aggregate under rounding: whatever the float operations round to
    within their guarantees, the mean computed from the five placeholder
    scores stays within [1e-9] of the exact mean. *)
Lemma mean_under_rounding fl fsum :
  rounds_within_unit_roundoff fl -> sums_floats fsum ->
  within_tolerance (rounded_mean fl fsum placeholder_scores)
                   (mean placeholder_scores).
Proof.
  intros Hfl Hsum. unfold within_tolerance, rounded_mean, mean.
  cbn [values placeholder_scores map snd].
  destruct (Hfl 0.85%Q (moderate_normal 0.85 ltac:(discriminate)
                          ltac:(discriminate))) as [A1 B1].
  destruct (Hfl 0.90%Q (moderate_normal 0.90 ltac:(discriminate)
                          ltac:(discriminate))) as [A2 B2].
  destruct (Hfl 0.75%Q (moderate_normal 0.75 ltac:(discriminate)
                          ltac:(discriminate))) as [A3 B3].
  destruct (Hfl 0.95%Q (moderate_normal 0.95 ltac:(discriminate)
                          ltac:(discriminate))) as [A4 B4].
  destruct (Hfl 0.65%Q (moderate_normal 0.65 ltac:(discriminate)
                          ltac:(discriminate))) as [A5 B5].
  set (l1 := fl 0.85%Q) in *. set (l2 := fl 0.90%Q) in *.
  set (l3 := fl 0.75%Q) in *. set (l4 := fl 0.95%Q) in *.
  set (l5 := fl 0.65%Q) in *.
  clearbody l1 l2 l3 l4 l5. unfold unit_roundoff in *.
  assert (Forall (fun x => (0 <= x)%Q /\ (x <= inject_Z (2 ^ 1000))%Q)
                 [l1; l2; l3; l4; l5]) as Hpos
      by (repeat (apply Forall_cons; split;
                  [apply moderate_summand; lra|]);
          apply Forall_nil; exact I).
  destruct (Hsum [l1; l2; l3; l4; l5] ltac:(cbn; lia) Hpos) as [AS BS].
  clear Hpos.
  set (s := fsum [l1; l2; l3; l4; l5]) in *. clearbody s.
  change (sum [l1; l2; l3; l4; l5]) with (0 + l1 + l2 + l3 + l4 + l5)%Q in *.
  change (inject_Z (len [l1; l2; l3; l4; l5])) with (5 # 1)%Q in *.
  unfold unit_roundoff in *.
  (* one part in 10^12 is room enough for every step *)
  set (e := (1 # 1000000000000)%Q) in *.
  assert (0.85 - e <= l1 /\ l1 <= 0.85 + e)%Q as [A1' B1']
      by (unfold e in *; split; lra).
  assert (0.90 - e <= l2 /\ l2 <= 0.90 + e)%Q as [A2' B2']
      by (unfold e in *; split; lra).
  assert (0.75 - e <= l3 /\ l3 <= 0.75 + e)%Q as [A3' B3']
      by (unfold e in *; split; lra).
  assert (0.95 - e <= l4 /\ l4 <= 0.95 + e)%Q as [A4' B4']
      by (unfold e in *; split; lra).
  assert (0.65 - e <= l5 /\ l5 <= 0.65 + e)%Q as [A5' B5']
      by (unfold e in *; split; lra).
  clear A1 B1 A2 B2 A3 B3 A4 B4 A5 B5.
  set (t := (0 + l1 + l2 + l3 + l4 + l5)%Q) in *.
  assert (4.1 - 5 * e <= t /\ t <= 4.1 + 5 * e)%Q as [AT BT]
      by (unfold t, e in *; split; lra).
  clearbody t. clear A1' B1' A2' B2' A3' B3' A4' B4' A5' B5'.
  assert (4.1 - 6 * e <= s /\ s <= 4.1 + 6 * e)%Q as [AS' BS']
      by (unfold e in *; split; lra).
  clear AS BS AT BT.
  assert (normal_range (s * (1 # 5))%Q) as Hq
      by (apply moderate_normal; unfold e in *; lra).
  destruct (Hfl _ Hq) as [AO BO]. clear Hq.
  change (fl (s / inject_Z (len placeholder_scores))%Q)
    with (fl (s * (1 # 5))%Q).
  set (o := fl (s * (1 # 5))%Q) in *. clearbody o.
  unfold unit_roundoff in *.
  assert (0.82 - 2 * e <= o /\ o <= 0.82 + 2 * e)%Q as [AO' BO']
      by (unfold e in *; split; lra).
  apply Qabs_Qle_condition.
  change (sum [0.85; 0.90; 0.75; 0.95; 0.65]
          / inject_Z (len placeholder_scores))%Q
    with ((0 + 0.85 + 0.90 + 0.75 + 0.95 + 0.65) * (1 # 5))%Q.
  change (1e-9)%Q with (1 # 1000000000)%Q.
  unfold e in *. split; lra.
Qed.

Lemma sum_nonneg (xs : list Q) :
  Forall (fun x => (0 <= x)%Q /\ (x <= inject_Z (2 ^ 1000))%Q) xs ->
  (0 <= sum xs)%Q.
Proof.
  unfold sum. induction 1 as [|x xs [Hx _] _ IH]; cbn; [lra|].
  rewrite sum_from. lra.
Qed.

(** Exact arithmetic is within the guarantees. *)
Lemma exact_rounds : rounds_within_unit_roundoff (fun x => x).
Proof.
  intros x [Hx _].
  assert (0 <= x)%Q as H0
      by (apply Qle_trans with min_normal; [discriminate|exact Hx]).
  clear Hx. unfold unit_roundoff. split; nra.
Qed.

Lemma exact_sums : sums_floats sum.
Proof.
  intros xs _ Hpos. pose proof (sum_nonneg xs Hpos) as Hs.
  assert (0 <= 2 * inject_Z (len xs) * unit_roundoff)%Q as Hu.
  { apply Qmult_le_0_compat; [|discriminate].
    apply Qmult_le_0_compat; [discriminate|].
    unfold len. change 0%Q with (inject_Z 0). rewrite <- Zle_Qle. lia. }
  set (c := (2 * inject_Z (len xs) * unit_roundoff)%Q) in *. clearbody c.
  split; nra.
Qed.

(** So is binary64 arithmetic with the left-to-right sum. *)
Lemma binary64_rounds : rounds_within_unit_roundoff binary64.
Proof.
  intros x [Hx _]. apply binary64_relative_error.
  apply Qlt_le_trans with min_normal; [reflexivity|exact Hx].
Qed.

Lemma float_sum_sums : sums_floats float_sum.
Proof.
  intros xs Hlen Hpos. unfold float_sum.
  destruct (float_sum_from xs 0 0 0%nat) as [H1 H2].
  - exact Hlen.
  - eapply Forall_impl; [exact Hpos|]. intros x [Hx _]. exact Hx.
  - discriminate.
  - discriminate.
  - discriminate.
  - cbn [Nat.add] in H1, H2. unfold len.
    set (c := (2 * inject_Z (Z.of_nat (length xs)) * unit_roundoff)%Q) in *.
    set (s := sum xs) in *.
    set (f := fold_left (fun a x => binary64 (a + x)%Q) xs 0%Q) in *.
    clearbody c s f. split; lra.
Qed.

(** C1, as amended. Every run of [refine_dataset] on an existing dataset
    succeeds and stores, as [overall_quality], the unweighted arithmetic mean
    of the five dimension scores it stores in [quality_scores] (completeness
    0.85, clarity 0.90, relevance 0.75, format validity 0.95, metadata quality
    0.65), within floating tolerance 1e-9; the weights of [QualityScorer] are
    not read. The stored value is [sum(scores.values()) / len(scores)]. The
    embedding evaluates it without rounding; the same holds of its
    evaluation in binary64 arithmetic with the left-to-right sum, and of
    every evaluation that rounds within the guarantees of binary64
    arithmetic. *)
Theorem C1_overall_is_unweighted_mean env did th w d :
  datasets (db w) !! did = Some d ->
  exists r w',
    RefinementService.refine_dataset env did th w = (Ok r, w') /\
    r ∈ refinement_records (db w') /\
    quality_scores r
    = [ ("completeness", 0.85%Q); ("clarity", 0.90%Q); ("relevance", 0.75%Q);
        ("format_validity", 0.95%Q); ("metadata_quality", 0.65%Q) ] /\
    within_tolerance (overall_quality r) (mean (quality_scores r)) /\
    within_tolerance (rounded_mean binary64 float_sum (quality_scores r))
                     (mean (quality_scores r)) /\
    (forall fl fsum,
        rounds_within_unit_roundoff fl -> sums_floats fsum ->
        within_tolerance (rounded_mean fl fsum (quality_scores r))
                         (mean (quality_scores r))).
Proof.
  intros Hd. eexists _, _. split; [apply (refine_dataset_run _ _ _ _ d Hd)|].
  split.
  { cbn. apply elem_of_app. right. apply list_elem_of_singleton. reflexivity. }
  split; [reflexivity|]. split.
  { unfold within_tolerance. vm_compute. discriminate. }
  split.
  { exact (mean_under_rounding _ _ binary64_rounds float_sum_sums). }
  intros fl fsum Hfl Hsum. exact (mean_under_rounding fl fsum Hfl Hsum).
Qed.

Lemma C1_overall_is_unweighted_mean_witness :
  exists r w',
    RefinementService.refine_dataset first_insert "ds-1" 0.5 (session sample_db)
    = (Ok r, w') /\
    within_tolerance (overall_quality r) (mean (quality_scores r)) /\
    within_tolerance (rounded_mean binary64 float_sum (quality_scores r))
                     (mean (quality_scores r)) /\
    within_tolerance (rounded_mean (fun x => x) sum (quality_scores r))
                     (mean (quality_scores r)).
Proof.
  destruct (C1_overall_is_unweighted_mean first_insert "ds-1" 0.5
              (session sample_db) sample_dataset)
    as (r & w' & Hrun & _ & _ & Htol & Hfloat & Hround); [reflexivity|].
  exists r, w'. split; [exact Hrun|]. split; [exact Htol|].
  split; [exact Hfloat|].
  apply Hround; [exact exact_rounds|exact exact_sums].
Defined.

(** With the left-to-right sum the float that is stored is
    [0.8200000000000001], the float next above the one the literal [0.82]
    denotes. *)
Example stored_aggregate_in_binary64 :
  (rounded_mean binary64 float_sum placeholder_scores
   == 7385903388887614 # 9007199254740992)%Q /\
  (binary64 0.82 == 7385903388887613 # 9007199254740992)%Q /\
  within_tolerance (rounded_mean binary64 float_sum placeholder_scores)
                   (binary64 0.82).
Proof.
  split; [vm_compute; reflexivity|]. split; [vm_compute; reflexivity|].
  unfold within_tolerance. vm_compute. discriminate.
Qed.

(** ** C2: the filter *)

Lemma Qltb_lt (a b : Q) : Qltb a b = true <-> (a < b)%Q.
Proof.
  unfold Qltb. rewrite negb_true_iff. split.
  - intros H. apply Qnot_le_lt. intros Hle.
    apply Qle_bool_iff in Hle. congruence.
  - intros H. destruct (Qle_bool b a) eqn:E; [|reflexivity].
    apply Qle_bool_iff in E. exfalso. exact (Qlt_not_le _ _ H E).
Qed.

(** The count does not look at the threshold or at the rejected items. *)
Lemma count_passing_items_run d th rejected w :
  RefinementService._count_passing_items d th rejected w
  = (Ok (int (inject_Z (file_count d) * 0.95)%Q),
     mkWorld (db w) (journal w ++ [Call "_count_passing_items"])).
Proof. reflexivity. Qed.

(** Hence two runs that differ in the threshold only return the same record
    and leave the same world. *)
Lemma refine_dataset_ignores_threshold env did th1 th2 w :
  RefinementService.refine_dataset env did th1 w
  = RefinementService.refine_dataset env did th2 w.
Proof.
  destruct (datasets (db w) !! did) as [d|] eqn:Hd.
  - now rewrite !(refine_dataset_run _ _ _ _ d Hd).
  - now rewrite !(refine_dataset_missing _ _ _ _ Hd).
Qed.

Lemma spec_all_pass_at_half (items : list string) :
  spec_items_passed QualityScorer.init 0.5 [] items = len items.
Proof.
  unfold spec_items_passed, len. f_equal. f_equal.
  induction items as [|item items IH]; [reflexivity|].
  rewrite filter_cons_True by reflexivity. now rewrite IH.
Qed.

Lemma spec_none_pass_at_nine_tenths (items : list string) :
  spec_items_passed QualityScorer.init 0.9 [] items = 0.
Proof.
  unfold spec_items_passed, len.
  induction items as [|item items IH]; [reflexivity|].
  rewrite filter_cons_False by discriminate. exact IH.
Qed.

(** C2, the code at the failing input. The sample dataset has 20 items and
    the threshold is 0.5. Every item scores 0.85 and deduplication rejects
    nothing, so by the claim all 20 items pass; the record says 19 passed and
    1 rejected. With the threshold at 0.9 no item passes by the claim, and
    the record still says 19. *)
Theorem C2_passed_count_ignores_the_filter :
  (forall items : list string,
      spec_items_passed QualityScorer.init 0.5 [] items = len items) /\
  (forall items : list string,
      spec_items_passed QualityScorer.init 0.9 [] items = 0) /\
  (exists r w',
      RefinementService.refine_dataset first_insert "ds-1" 0.5
                                       (session sample_db) = (Ok r, w') /\
      items_processed r = 20 /\ items_passed r = 19 /\ items_rejected r = 1) /\
  (exists r w',
      RefinementService.refine_dataset first_insert "ds-1" 0.9
                                       (session sample_db) = (Ok r, w') /\
      items_processed r = 20 /\ items_passed r = 19 /\ items_rejected r = 1).
Proof.
  split; [exact spec_all_pass_at_half|].
  split; [exact spec_none_pass_at_nine_tenths|].
  split; eexists _, _;
    (split; [apply (refine_dataset_run _ _ _ _ sample_dataset); reflexivity|]);
    repeat split; reflexivity.
Qed.

(** ** C3: failures of [refine_dataset] *)

(** C3, counterexample. The service accepts [quality_threshold = 1.5] on an
    existing dataset: it raises nothing, commits a record and moves the
    dataset to REFINED. *)
Lemma C3_service_accepts_threshold_out_of_range :
  exists r w' d',
    RefinementService.refine_dataset first_insert "ds-1" 1.5 (session sample_db)
    = (Ok r, w') /\
    refinement_records (db w') = [r] /\
    datasets (db w') !! "ds-1" = Some d' /\
    stage d' = value REFINED /\
    stage sample_dataset = value STORED.
Proof.
  eexists _, _, _. split.
  - apply (refine_dataset_run _ _ _ _ sample_dataset). reflexivity.
  - repeat split; reflexivity.
Qed.

(** C3, as amended. [RefinementService.refine_dataset] raises [ValueError]
    whenever [dataset_id] does not refer to an existing dataset, and leaves
    the database and the journal as they were; it does not check
    [quality_threshold]. The HTTP handler [refine_dataset] in front of it
    answers 404 for a missing dataset and 400 whenever the dataset exists
    and the threshold is below 0 or above 1; in both cases it returns
    before the service is called, so no record is committed and the dataset
    is unchanged. *)
Theorem C3_failures_leave_no_trace env did body w :
  datasets (db w) !! did = None \/
  (default 0.5 body < 0)%Q \/ (1 < default 0.5 body)%Q ->
  (datasets (db w) !! did = None ->
     RefinementService.refine_dataset env did (default 0.5%Q body) w
     = (Raise (ValueError ("Dataset " +:+ did +:+ " not found")), w) /\
     Routes.refine_dataset env did body w
     = (Routes.Error "Dataset not found" 404, w)) /\
  (is_Some (datasets (db w) !! did) ->
     Routes.refine_dataset env did body w
     = (Routes.Error "Quality threshold must be between 0 and 1" 400, w)).
Proof.
  intros H. split.
  - intros Hnone. split; [now apply refine_dataset_missing|].
    unfold Routes.refine_dataset. now rewrite Hnone.
  - intros [d Hd]. destruct H as [H|H]; [congruence|].
    unfold Routes.refine_dataset. rewrite Hd.
    assert (Qltb (default 0.5%Q body) 0 || Qgtb (default 0.5%Q body) 1 = true)
      as ->; [|reflexivity].
    apply orb_true_iff. unfold Qgtb.
    destruct H as [H|H]; [left|right]; now apply Qltb_lt.
Qed.

Lemma C3_failures_leave_no_trace_witness :
  (Routes.refine_dataset first_insert "ds-1" (Some 1.5%Q) (session sample_db)
   = (Routes.Error "Quality threshold must be between 0 and 1" 400,
      session sample_db)) /\
  (RefinementService.refine_dataset first_insert "ds-9" 0.5 (session sample_db)
   = (Raise (ValueError "Dataset ds-9 not found"), session sample_db) /\
   Routes.refine_dataset first_insert "ds-9" None (session sample_db)
   = (Routes.Error "Dataset not found" 404, session sample_db)).
Proof.
  split.
  - apply (C3_failures_leave_no_trace first_insert "ds-1" (Some 1.5%Q)
             (session sample_db)).
    + right. right. reflexivity.
    + exists sample_dataset. reflexivity.
  - apply (C3_failures_leave_no_trace first_insert "ds-9" None
             (session sample_db)).
    + left. reflexivity.
    + reflexivity.
Defined.

(** ** C4: stage transitions *)

(** C4, counterexample. The journal of a run on the sample dataset (stage
    STORED) holds exactly one stage write, of REFINED, made after the four
    pipeline stages have run: no write of REFINING precedes the scorer, and
    none occurs at all. *)
Lemma C4_refining_is_never_written :
  exists r w',
    RefinementService.refine_dataset first_insert "ds-1" 0.5 (session sample_db)
    = (Ok r, w') /\
    ~ sets_refining_before_scoring "ds-1" (journal w') /\
    (forall s, SetStage "ds-1" s ∈ journal w' -> s = value REFINED).
Proof.
  eexists _, _. split.
  - apply (refine_dataset_run _ _ _ _ sample_dataset). reflexivity.
  - assert (forall s, SetStage "ds-1" s
                      ∈ journal (refined_world first_insert "ds-1"
                                   sample_dataset (session sample_db)) ->
                      s = value REFINED) as Hw.
    { intros s Hin. cbn in Hin.
      repeat (apply elem_of_cons in Hin as [Hin|Hin];
              [try discriminate Hin; try (now inversion Hin)|]).
      now apply elem_of_nil in Hin. }
    split; [|exact Hw].
    intros (pre & post & Hj & _).
    assert (value REFINING = value REFINED) as Habs; [|discriminate Habs].
    apply Hw. rewrite Hj. apply elem_of_app. right. apply elem_of_cons. now left.
Qed.

(** C4, as amended. Every execution of [refine_dataset] on an existing
    dataset succeeds; it writes the stage once, to REFINED, after the quality
    scorer, the deduplicator, the classifier and the filter have run (it
    never writes REFINING), then sets [dataset.quality_score] to the
    [overall_quality] of the record and commits that record. *)
Theorem C4_refined_on_completion env did th w d :
  datasets (db w) !! did = Some d ->
  exists r w' d',
    RefinementService.refine_dataset env did th w = (Ok r, w') /\
    journal w'
    = journal w ++
      [ Call "_score_quality"; Call "_deduplicate"; Call "_classify_data";
        Call "_count_passing_items";
        SetStage did (value REFINED);
        SetQualityScore did (overall_quality r);
        AddRefinementRecord (id r); Commit ] /\
    refinement_records (db w') = refinement_records (db w) ++ [r] /\
    datasets (db w') !! did = Some d' /\
    stage d' = value REFINED /\
    quality_score d' = overall_quality r.
Proof.
  intros Hd. eexists _, _, _.
  split; [apply (refine_dataset_run _ _ _ _ d Hd)|].
  split; [reflexivity|]. split; [reflexivity|].
  split; [apply (refined_world_dataset _ _ _ _ Hd)|].
  split; reflexivity.
Qed.

Lemma C4_refined_on_completion_witness :
  exists r w' d',
    RefinementService.refine_dataset first_insert "ds-1" 0.5 (session sample_db)
    = (Ok r, w') /\
    journal w'
    = journal (session sample_db) ++
      [ Call "_score_quality"; Call "_deduplicate"; Call "_classify_data";
        Call "_count_passing_items";
        SetStage "ds-1" (value REFINED);
        SetQualityScore "ds-1" (overall_quality r);
        AddRefinementRecord (id r); Commit ] /\
    refinement_records (db w') = refinement_records (db (session sample_db)) ++ [r] /\
    datasets (db w') !! "ds-1" = Some d' /\
    stage d' = value REFINED /\
    quality_score d' = overall_quality r.
Proof.
  apply (C4_refined_on_completion first_insert "ds-1" 0.5 (session sample_db)
           sample_dataset).
  reflexivity.
Defined.

(** ** C5: the counts add up *)

(** C5. Every run of [refine_dataset] on an existing dataset succeeds, and
    the record it commits satisfies
    [items_passed + items_rejected = items_processed], where
    [items_processed] is the dataset's [file_count] when the run started. *)
Theorem C5_counts_add_up env did th w d :
  datasets (db w) !! did = Some d ->
  exists r w',
    RefinementService.refine_dataset env did th w = (Ok r, w') /\
    r ∈ refinement_records (db w') /\
    items_passed r + items_rejected r = items_processed r /\
    items_processed r = file_count d.
Proof.
  intros Hd. eexists _, _.
  split; [apply (refine_dataset_run _ _ _ _ d Hd)|].
  split; [|split].
  - cbn. apply elem_of_app. right. now apply list_elem_of_singleton.
  - cbn. lia.
  - reflexivity.
Qed.

Lemma C5_counts_add_up_witness :
  exists r w',
    RefinementService.refine_dataset first_insert "ds-1" 0.5 (session sample_db)
    = (Ok r, w') /\
    r ∈ refinement_records (db w') /\
    items_passed r + items_rejected r = items_processed r /\
    items_processed r = file_count sample_dataset.
Proof.
  apply (C5_counts_add_up first_insert "ds-1" 0.5 (session sample_db)
           sample_dataset).
  reflexivity.
Defined.

(** ** Ordering by creation time *)

Local Instance created_le_trans : Transitive created_le.
Proof. unfold created_le. intros x y z. lia. Qed.
Local Instance created_le_total : Total created_le.
Proof. unfold created_le. intros x y. lia. Qed.
Local Instance created_ge_trans : Transitive created_ge.
Proof. unfold created_ge. intros x y z. lia. Qed.
Local Instance created_ge_total : Total created_ge.
Proof. unfold created_ge. intros x y. lia. Qed.

Lemma StronglySorted_lookup {A : Type} (R : relation A) (l : list A)
      (i j : nat) (x y : A) :
  StronglySorted R l -> l !! i = Some x -> l !! j = Some y -> (i < j)%nat ->
  R x y.
Proof.
  intros Hs. revert i j. induction Hs as [|a l Hs IH Hall]; intros i j Hi Hj Hlt.
  - now rewrite lookup_nil in Hi.
  - destruct j as [|j]; [lia|]. destruct i as [|i].
    + cbn in Hi, Hj. injection Hi as <-.
      rewrite Forall_forall in Hall. apply Hall.
      eapply list_elem_of_lookup_2. exact Hj.
    + cbn in Hi, Hj. apply (IH i j Hi Hj). lia.
Qed.

Lemma elem_of_order_by_created_at r rows :
  r ∈ order_by_created_at rows <-> r ∈ rows.
Proof. unfold order_by_created_at. now rewrite merge_sort_Permutation. Qed.

Lemma order_by_created_at_sorted rows :
  StronglySorted created_le (order_by_created_at rows).
Proof. apply StronglySorted_merge_sort; apply _. Qed.

Lemma elem_of_filter_by_dataset_id r did rows :
  r ∈ filter_by_dataset_id did rows <-> dataset_id r = did /\ r ∈ rows.
Proof. unfold filter_by_dataset_id. now rewrite list_elem_of_filter. Qed.

(** Of two records in the history, the one created strictly earlier comes
    first. *)
Lemma history_order did rows r1 r2 :
  r1 ∈ rows -> r2 ∈ rows -> dataset_id r1 = did -> dataset_id r2 = did ->
  created_at r1 < created_at r2 ->
  exists i j, (i < j)%nat /\
    order_by_created_at (filter_by_dataset_id did rows) !! i = Some r1 /\
    order_by_created_at (filter_by_dataset_id did rows) !! j = Some r2.
Proof.
  intros H1 H2 E1 E2 Hlt.
  set (h := order_by_created_at (filter_by_dataset_id did rows)).
  assert (r1 ∈ h) as Hin1
      by (apply elem_of_order_by_created_at, elem_of_filter_by_dataset_id; auto).
  assert (r2 ∈ h) as Hin2
      by (apply elem_of_order_by_created_at, elem_of_filter_by_dataset_id; auto).
  apply list_elem_of_lookup in Hin1 as [i Hi].
  apply list_elem_of_lookup in Hin2 as [j Hj].
  exists i, j. split; [|split; assumption].
  destruct (lt_eq_lt_dec i j) as [[Hij|Hij]|Hij]; [exact Hij| |].
  - subst j. rewrite Hi in Hj. injection Hj as <-. lia.
  - pose proof (StronglySorted_lookup created_le h j i r2 r1
                  (order_by_created_at_sorted _) Hj Hi Hij) as Hle.
    unfold created_le in Hle. lia.
Qed.

Lemma filter_by_dataset_id_snoc did rows r :
  dataset_id r = did ->
  filter_by_dataset_id did (rows ++ [r]) = filter_by_dataset_id did rows ++ [r].
Proof.
  intros E. unfold filter_by_dataset_id.
  rewrite filter_app. f_equal. now rewrite filter_cons_True.
Qed.

Lemma StronglySorted_history_entry rows :
  StronglySorted created_le rows ->
  StronglySorted entry_le (map Routes.history_entry rows).
Proof.
  induction 1 as [|r rows Hs IH Hall]; [constructor|].
  cbn. constructor; [exact IH|].
  apply Forall_fmap. eapply Forall_impl; [exact Hall|].
  intros r' Hle. exact Hle.
Qed.

(** ** C6: re-running appends to the history *)

(** C6, counterexample. Refine the sample dataset twice, the clock reading
    the same at both commits. Both runs succeed, the two records have
    different ids and both are in the history, but the second is not
    timestamped later than the first: the two timestamps are equal. *)
Lemma C6_second_stamp_not_later :
  exists r1 w1 r2 w2,
    RefinementService.refine_dataset first_insert "ds-1" 0.5 (session sample_db)
    = (Ok r1, w1) /\
    RefinementService.refine_dataset same_clock_insert "ds-1" 0.5 w1
    = (Ok r2, w2) /\
    id r1 <> id r2 /\
    (exists h,
        Routes.get_refinement_history "ds-1" w2
        = (Routes.Json ("ds-1", h) 200, w2) /\
        Routes.history_entry r1 ∈ h /\ Routes.history_entry r2 ∈ h) /\
    created_at r1 = created_at r2 /\
    ~ created_at r1 < created_at r2.
Proof.
  eexists _, _, _, _.
  split; [apply (refine_dataset_run _ _ _ _ sample_dataset); reflexivity|].
  split.
  { apply (refine_dataset_run _ _ _ _
             (with_quality_score placeholder_overall
                (with_stage (value REFINED) sample_dataset))).
    reflexivity. }
  split; [discriminate|]. split.
  { eexists. split; [vm_compute; reflexivity|].
    split; [apply elem_of_cons; left; reflexivity|].
    apply elem_of_cons; right. apply elem_of_cons; left. reflexivity. }
  split; [reflexivity|]. cbn. lia.
Qed.

(** C6, as amended. Run [refine_dataset] twice on the same existing dataset,
    the second run in the world the first one left. Both runs succeed, and
    each appends one record whose id and timestamp are the values [uuid4()]
    and [utcnow()] returned at its own insert: the table after the second run
    is the table before the first with the two records appended, so no
    earlier row, the first record included, has changed in any field. The
    history handler lists the earlier entries of the dataset and the two new
    ones, in order of timestamp. Nothing orders the two timestamps: the
    second record is timestamped later exactly when the clock read later at
    the second commit, and then the history lists the first record before
    the second. *)
Theorem C6_rerun_appends_two_records env1 env2 did th1 th2 w d :
  datasets (db w) !! did = Some d ->
  exists r1 w1 r2 w2,
    RefinementService.refine_dataset env1 did th1 w = (Ok r1, w1) /\
    RefinementService.refine_dataset env2 did th2 w1 = (Ok r2, w2) /\
    id r1 = uuid4 env1 /\ id r2 = uuid4 env2 /\
    created_at r1 = utcnow env1 /\ created_at r2 = utcnow env2 /\
    refinement_records (db w1) = refinement_records (db w) ++ [r1] /\
    refinement_records (db w2) = refinement_records (db w) ++ [r1; r2] /\
    exists h,
      Routes.get_refinement_history did w2 = (Routes.Json (did, h) 200, w2) /\
      h ≡ₚ map Routes.history_entry
             (filter_by_dataset_id did (refinement_records (db w)))
           ++ [Routes.history_entry r1; Routes.history_entry r2] /\
      StronglySorted entry_le h /\
      (utcnow env1 < utcnow env2 ->
       exists i j, (i < j)%nat /\
                   h !! i = Some (Routes.history_entry r1) /\
                   h !! j = Some (Routes.history_entry r2)).
Proof.
  intros Hd.
  pose proof (refined_world_dataset env1 did d w Hd) as Hd1.
  eexists _, _, _, _.
  split; [apply (refine_dataset_run _ _ _ _ d Hd)|].
  split; [apply (refine_dataset_run _ _ _ _ _ Hd1)|].
  do 5 (split; [reflexivity|]).
  split; [cbn; now rewrite <- app_assoc|].
  match goal with
  | |- context [Routes.get_refinement_history did ?w2] => set (wf := w2)
  end.
  set (r1 := refined_record env1 did d).
  set (r2 := refined_record env2 did
               (with_quality_score placeholder_overall
                  (with_stage (value REFINED) d))).
  eexists. split; [reflexivity|]. split; [|split].
  - unfold order_by_created_at. rewrite merge_sort_Permutation.
    change (refinement_records (db wf))
      with ((refinement_records (db w) ++ [r1]) ++ [r2]).
    rewrite !filter_by_dataset_id_snoc by reflexivity.
    rewrite !map_app, <- app_assoc. reflexivity.
  - apply StronglySorted_history_entry, order_by_created_at_sorted.
  - intros Ht.
    destruct (history_order did (refinement_records (db wf)) r1 r2)
      as (i & j & Hij & Hi & Hj); try reflexivity; try exact Ht.
    + cbn. rewrite !elem_of_app, !list_elem_of_singleton. auto.
    + cbn. rewrite !elem_of_app, !list_elem_of_singleton. auto.
    + exists i, j. split; [exact Hij|].
      rewrite !list_lookup_fmap, Hi, Hj. split; reflexivity.
Qed.

Lemma C6_rerun_appends_two_records_witness :
  exists r1 w1 r2 w2,
    RefinementService.refine_dataset first_insert "ds-1" 0.5 (session sample_db)
    = (Ok r1, w1) /\
    RefinementService.refine_dataset second_insert "ds-1" 0.7 w1 = (Ok r2, w2) /\
    id r1 = "rec-1" /\ id r2 = "rec-2" /\
    created_at r1 = 200 /\ created_at r2 = 300 /\
    refinement_records (db w2) = [r1; r2] /\
    exists h,
      Routes.get_refinement_history "ds-1" w2
      = (Routes.Json ("ds-1", h) 200, w2) /\
      exists i j, (i < j)%nat /\
                  h !! i = Some (Routes.history_entry r1) /\
                  h !! j = Some (Routes.history_entry r2).
Proof.
  destruct (C6_rerun_appends_two_records first_insert second_insert "ds-1"
              0.5 0.7 (session sample_db) sample_dataset)
    as (r1 & w1 & r2 & w2 & H1 & H2 & I1 & I2 & T1 & T2 & _ & Hrows
        & h & Hh & _ & _ & Horder); [reflexivity|].
  exists r1, w1, r2, w2.
  split; [exact H1|]. split; [exact H2|].
  split; [exact I1|]. split; [exact I2|].
  split; [exact T1|]. split; [exact T2|].
  split; [exact Hrows|].
  exists h. split; [exact Hh|]. apply Horder. reflexivity.
Defined.

(** ** The latest record *)

Lemma first_by_created_at_desc_None rows :
  first_by_created_at_desc rows = None <-> rows = [].
Proof.
  unfold first_by_created_at_desc. rewrite head_None. split.
  - intros E. apply Permutation_nil_r. rewrite <- E.
    symmetry. apply merge_sort_Permutation.
  - intros ->. reflexivity.
Qed.

Lemma first_by_created_at_desc_Some rows r :
  first_by_created_at_desc rows = Some r ->
  r ∈ rows /\ forall r', r' ∈ rows -> created_at r' <= created_at r.
Proof.
  unfold first_by_created_at_desc. intros E.
  pose proof (StronglySorted_merge_sort created_ge rows) as Hs.
  pose proof (merge_sort_Permutation created_ge rows) as Hp.
  destruct (merge_sort created_ge rows) as [|r0 tl]; [discriminate|].
  injection E as ->. split.
  - rewrite <- Hp. apply elem_of_cons. now left.
  - intros r' Hin. rewrite <- Hp in Hin.
    apply elem_of_cons in Hin as [->|Hin]; [lia|].
    apply StronglySorted_inv in Hs as [_ Hall].
    rewrite Forall_forall in Hall. exact (Hall r' Hin).
Qed.

Lemma first_by_created_at_desc_latest did rows r :
  first_by_created_at_desc (filter_by_dataset_id did rows) = Some r ->
  is_latest_record did rows r.
Proof.
  intros E. apply first_by_created_at_desc_Some in E as [Hin Hmax].
  apply elem_of_filter_by_dataset_id in Hin as [Hd Hin].
  split; [exact Hin|]. split; [exact Hd|].
  intros r' Hin' Hd'. apply Hmax. now apply elem_of_filter_by_dataset_id.
Qed.

(** ** C7: packaging *)

Lemma create_package_not_refined env now did name description version
      license_type w d :
  datasets (db w) !! did = Some d ->
  stage d <> value REFINED ->
  PackageService.create_package env now did name description version
                                license_type w
  = (Raise (ValueError
              ("Dataset must be refined before packaging. Current stage: "
               +:+ stage d)), w).
Proof.
  intros Hd Hs. unfold PackageService.create_package.
  rewrite (bind_ok _ _ _ _ _ (query_get_run did w)), Hd.
  now rewrite bool_decide_eq_true_2.
Qed.

Lemma create_package_refined env now did name description version
      license_type w d :
  datasets (db w) !! did = Some d ->
  stage d = value REFINED ->
  exists p w',
    PackageService.create_package env now did name description version
                                  license_type w = (Ok p, w') /\
    data_packages (db w') = data_packages (db w) ++ [p] /\
    refinement_records (db w') = refinement_records (db w) /\
    datasets (db w') = alter (with_stage (value PACKAGED)) did (datasets (db w)) /\
    pkg_id p = uuid4 env /\ source_dataset_id p = did /\
    match first_by_created_at_desc
            (filter_by_dataset_id did (refinement_records (db w))) with
    | Some latest =>
        pkg_quality_score p = overall_quality latest /\
        items_count p = items_passed latest /\
        quality_metrics p
        = mkQualityMetrics (overall_quality latest) (items_passed latest)
                           (quality_scores latest) /\
        md_classifications (pkg_metadata p) = classifications latest
    | None =>
        pkg_quality_score p = quality_score d /\
        items_count p = file_count d /\
        quality_metrics p
        = mkQualityMetrics (quality_score d) (file_count d) [] /\
        md_classifications (pkg_metadata p) = []
    end.
Proof.
  intros Hd Hs. unfold PackageService.create_package.
  rewrite (bind_ok _ _ _ _ _ (query_get_run did w)), Hd.
  rewrite bool_decide_eq_false_2 by (intros H; exact (H Hs)).
  destruct w as [dbw jw].
  cbv [mbind M_bind mret M_ret get_db PackageService._generate_provenance_log
       session_add_package session_commit set_stage log modify_db].
  cbn [db journal fst snd].
  eexists _, _. split; [reflexivity|]. cbn.
  repeat (split; [reflexivity|]).
  destruct (first_by_created_at_desc _); repeat split; reflexivity.
Qed.

Lemma create_package_missing env now did name description version license_type
      w :
  datasets (db w) !! did = None ->
  PackageService.create_package env now did name description version
                                license_type w
  = (Raise (ValueError ("Dataset " +:+ did +:+ " not found")), w).
Proof.
  intros Hd. unfold PackageService.create_package.
  now rewrite (bind_ok _ _ _ _ _ (query_get_run did w)), Hd.
Qed.

(** C7, counterexample. A dataset whose stage is REFINED and whose id no
    refinement record carries: [create_package] succeeds, and with no record
    to read it takes the package's item count and quality score from the
    dataset row, with an empty quality breakdown. *)
Lemma C7_packaging_succeeds_without_record :
  exists p w',
    PackageService.create_package package_insert 400 "ds-2" "pack" "cut" "1.0"
                                  "proprietary" (session orphan_db)
    = (Ok p, w') /\
    datasets (db (session orphan_db)) !! "ds-2" = Some orphan_dataset /\
    stage orphan_dataset = value REFINED /\
    refinement_records (db (session orphan_db)) = [] /\
    (forall latest,
        ~ is_latest_record "ds-2" (refinement_records (db (session orphan_db)))
            latest) /\
    items_count p = file_count orphan_dataset /\
    pkg_quality_score p = quality_score orphan_dataset /\
    quality_metrics p
    = mkQualityMetrics (quality_score orphan_dataset)
                       (file_count orphan_dataset) [].
Proof.
  eexists _, _. split; [vm_compute; reflexivity|].
  do 3 (split; [reflexivity|]). split.
  - intros latest [Hin _]. cbn in Hin. now apply elem_of_nil in Hin.
  - repeat split; reflexivity.
Qed.

(** C7, as amended. [create_package] raises [ValueError] for every existing
    dataset whose stage is not REFINED, with the message of its stage guard,
    and changes nothing; it is the exception class it also raises for an
    unknown dataset, and no other error type is defined. When the stage is
    REFINED it succeeds. If the dataset has a refinement record, the
    package's quality score, item count, quality metrics and classifications
    are those of a record of that dataset that no other record of the
    dataset was created after; if it has none, the quality score and the
    item count are [quality_score] and [file_count] of the dataset row, and
    the quality breakdown and the classifications are empty. *)
Theorem C7_packaging_reads_latest_or_dataset_row
        env now did name description version license_type w d :
  datasets (db w) !! did = Some d ->
  (stage d <> value REFINED ->
   PackageService.create_package env now did name description version
                                 license_type w
   = (Raise (ValueError
               ("Dataset must be refined before packaging. Current stage: "
                +:+ stage d)), w)) /\
  (forall did', datasets (db w) !! did' = None ->
     PackageService.create_package env now did' name description version
                                   license_type w
     = (Raise (ValueError ("Dataset " +:+ did' +:+ " not found")), w)) /\
  (stage d = value REFINED ->
   exists p w',
     PackageService.create_package env now did name description version
                                   license_type w = (Ok p, w') /\
     p ∈ data_packages (db w') /\
     (forall r, r ∈ refinement_records (db w) -> dataset_id r = did ->
        exists latest,
          is_latest_record did (refinement_records (db w)) latest /\
          pkg_quality_score p = overall_quality latest /\
          items_count p = items_passed latest /\
          quality_metrics p
          = mkQualityMetrics (overall_quality latest) (items_passed latest)
                             (quality_scores latest) /\
          md_classifications (pkg_metadata p) = classifications latest) /\
     ((forall r, r ∈ refinement_records (db w) -> dataset_id r <> did) ->
        pkg_quality_score p = quality_score d /\
        items_count p = file_count d /\
        quality_metrics p
        = mkQualityMetrics (quality_score d) (file_count d) [] /\
        md_classifications (pkg_metadata p) = [])).
Proof.
  intros Hd. split; [now apply create_package_not_refined|].
  split; [intros did' Hnone; now apply create_package_missing|].
  intros Hs.
  destruct (create_package_refined env now did name description version
              license_type w d Hd Hs)
    as (p & w' & Hrun & Hpk & _ & _ & _ & _ & Hread).
  exists p, w'. split; [exact Hrun|]. split.
  { rewrite Hpk. apply elem_of_app. right. now apply list_elem_of_singleton. }
  destruct (first_by_created_at_desc
              (filter_by_dataset_id did (refinement_records (db w))))
    as [latest|] eqn:E.
  - split.
    + intros _ _ _. exists latest.
      split; [now apply first_by_created_at_desc_latest|]. exact Hread.
    + intros Hnone. apply first_by_created_at_desc_latest in E.
      destruct E as (Hin & Hr & _). now destruct (Hnone latest Hin).
  - split; [|intros _; exact Hread].
    intros r Hin Hr. apply first_by_created_at_desc_None in E.
    assert (r ∈ filter_by_dataset_id did (refinement_records (db w))) as Hf
        by now apply elem_of_filter_by_dataset_id.
    rewrite E in Hf. now apply elem_of_nil in Hf.
Qed.

Lemma C7_packaging_reads_latest_or_dataset_row_witness :
  (PackageService.create_package package_insert 400 "ds-1" "pack" "first cut"
                                 "1.0" "proprietary" (session sample_db)
   = (Raise (ValueError
               "Dataset must be refined before packaging. Current stage: stored"),
      session sample_db)) /\
  (PackageService.create_package package_insert 400 "ds-9" "pack" "first cut"
                                 "1.0" "proprietary" (session sample_db)
   = (Raise (ValueError "Dataset ds-9 not found"), session sample_db)) /\
  (exists p w' latest,
     PackageService.create_package package_insert 400 "ds-1" "pack" "first cut"
                                   "1.0" "proprietary" twice_refined
     = (Ok p, w') /\
     is_latest_record "ds-1" (refinement_records (db twice_refined)) latest /\
     pkg_quality_score p = overall_quality latest /\
     items_count p = items_passed latest) /\
  (exists p w',
     PackageService.create_package package_insert 400 "ds-2" "pack" "first cut"
                                   "1.0" "proprietary" (session orphan_db)
     = (Ok p, w') /\
     pkg_quality_score p = quality_score orphan_dataset /\
     items_count p = file_count orphan_dataset).
Proof.
  split; [|split; [|split]].
  - apply (C7_packaging_reads_latest_or_dataset_row
             package_insert 400 "ds-1" "pack" "first cut" "1.0" "proprietary"
             (session sample_db) sample_dataset).
    + reflexivity.
    + discriminate.
  - apply (C7_packaging_reads_latest_or_dataset_row
             package_insert 400 "ds-1" "pack" "first cut" "1.0" "proprietary"
             (session sample_db) sample_dataset).
    + reflexivity.
    + reflexivity.
  - destruct (C7_packaging_reads_latest_or_dataset_row
                package_insert 400 "ds-1" "pack" "first cut" "1.0"
                "proprietary" twice_refined refined_sample_dataset)
      as (_ & _ & Hok); [reflexivity|].
    destruct (Hok eq_refl) as (p & w' & Hrun & _ & Hlatest & _).
    destruct (Hlatest (refined_record first_insert "ds-1" sample_dataset))
      as (latest & Hl & Hq & Hc & _).
    + apply elem_of_cons. left. reflexivity.
    + reflexivity.
    + exists p, w', latest. split; [exact Hrun|]. split; [exact Hl|].
      split; assumption.
  - destruct (C7_packaging_reads_latest_or_dataset_row
                package_insert 400 "ds-2" "pack" "first cut" "1.0"
                "proprietary" (session orphan_db) orphan_dataset)
      as (_ & _ & Hok); [reflexivity|].
    destruct (Hok eq_refl) as (p & w' & Hrun & _ & _ & Hrow).
    destruct Hrow as (Hq & Hc & _).
    + intros r Hin. now apply elem_of_nil in Hin.
    + exists p, w'. repeat split; assumption.
Defined.

(** On the twice refined sample the record that is read is the second one. *)
Example package_of_twice_refined :
  exists p w',
    PackageService.create_package package_insert 400 "ds-1" "pack" "first cut"
                                  "1.0" "proprietary" twice_refined
    = (Ok p, w') /\
    items_count p = 19 /\
    within_tolerance (pkg_quality_score p) 0.82 /\
    provenance_log p
    = [ IngestionStep 100 "Data ingested from crowd" 20;
        RefinementStep 200 "full_refinement" 19 1;
        RefinementStep 300 "full_refinement" 19 1;
        PackagingStep 400 "Data packaged for delivery" ] /\
    total_files (manifest p) = 20 /\
    map filename (files (manifest p))
    = ["file_0.dat"; "file_1.dat"; "file_2.dat"; "file_3.dat"; "file_4.dat"] /\
    (exists d', datasets (db w') !! "ds-1" = Some d' /\ stage d' = value PACKAGED).
Proof.
  eexists _, _. split; [vm_compute; reflexivity|].
  split; [reflexivity|].
  split; [unfold within_tolerance; vm_compute; discriminate|].
  repeat split; try reflexivity.
  eexists. split; reflexivity.
Qed.

(** ** A REFINED dataset has a record

    The stage REFINED is written by [refine_dataset] only, together with the
    record it commits, and [create_package] moves the dataset on to PACKAGED
    without touching the records: in every world reached by these two
    operations from one where the property holds, packaging a REFINED
    dataset finds a latest record to read. *)

Lemma refine_dataset_keeps_refined_has_record env did th w res w' :
  refined_has_record w ->
  RefinementService.refine_dataset env did th w = (res, w') ->
  refined_has_record w'.
Proof.
  intros Hinv Hrun. destruct (datasets (db w) !! did) as [d|] eqn:Hd.
  - rewrite (refine_dataset_run _ _ _ _ d Hd) in Hrun.
    injection Hrun as _ <-. intros did' d' Hl Hs.
    destruct (decide (did' = did)) as [->|Hne].
    + exists (refined_record env did d). split; [|reflexivity].
      cbn. apply elem_of_app. right. now apply list_elem_of_singleton.
    + cbn in Hl. rewrite !lookup_alter_ne in Hl by congruence.
      destruct (Hinv did' d' Hl Hs) as (r & Hin & Hr).
      exists r. split; [|exact Hr]. cbn. apply elem_of_app. now left.
  - rewrite (refine_dataset_missing _ _ _ _ Hd) in Hrun.
    injection Hrun as _ <-. exact Hinv.
Qed.

Lemma create_package_keeps_refined_has_record
      env now did name description version license_type w res w' :
  refined_has_record w ->
  PackageService.create_package env now did name description version
                                license_type w = (res, w') ->
  refined_has_record w'.
Proof.
  intros Hinv Hrun. destruct (datasets (db w) !! did) as [d|] eqn:Hd.
  - destruct (decide (stage d = value REFINED)) as [Hs|Hs].
    + destruct (create_package_refined env now did name description version
                  license_type w d Hd Hs)
        as (p & w1 & Hrun1 & _ & Hrec & Hds & _).
      rewrite Hrun1 in Hrun. injection Hrun as _ <-.
      intros did' d' Hl Hs'. rewrite Hds in Hl. rewrite Hrec.
      destruct (decide (did' = did)) as [->|Hne].
      * rewrite lookup_alter_eq, Hd in Hl. injection Hl as <-. discriminate Hs'.
      * rewrite lookup_alter_ne in Hl by congruence. exact (Hinv did' d' Hl Hs').
    + rewrite (create_package_not_refined _ _ _ _ _ _ _ _ d Hd Hs) in Hrun.
      injection Hrun as _ <-. exact Hinv.
  - unfold PackageService.create_package in Hrun.
    rewrite (bind_ok _ _ _ _ _ (query_get_run did w)), Hd in Hrun.
    injection Hrun as _ <-. exact Hinv.
Qed.

Lemma packaging_after_refinement
      env now did name description version license_type w d :
  refined_has_record w ->
  datasets (db w) !! did = Some d ->
  stage d = value REFINED ->
  exists p w' latest,
    PackageService.create_package env now did name description version
                                  license_type w = (Ok p, w') /\
    is_latest_record did (refinement_records (db w)) latest /\
    pkg_quality_score p = overall_quality latest /\
    items_count p = items_passed latest.
Proof.
  intros Hinv Hd Hs.
  destruct (create_package_refined env now did name description version
              license_type w d Hd Hs)
    as (p & w' & Hrun & _ & _ & _ & _ & _ & Hread).
  destruct (Hinv did d Hd Hs) as (r & Hin & Hr).
  destruct (first_by_created_at_desc
              (filter_by_dataset_id did (refinement_records (db w))))
    as [latest|] eqn:E.
  - exists p, w', latest. split; [exact Hrun|].
    split; [now apply first_by_created_at_desc_latest|].
    destruct Hread as (Hq & Hc & _). now split.
  - apply first_by_created_at_desc_None in E.
    assert (r ∈ filter_by_dataset_id did (refinement_records (db w))) as Hf
        by now apply elem_of_filter_by_dataset_id.
    rewrite E in Hf. now apply elem_of_nil in Hf.
Qed.

(** ** C8: the deduplication method *)

(** C8, counterexample. [find_duplicates] called with the method ["md5"]
    raises nothing: it returns its result, with ["md5"] as [method_used]. *)
Lemma C8_find_duplicates_accepts_unknown_method :
  ("md5" ∉ ["hash"; "semantic"; "hybrid"]) /\
  Deduplicator.find_duplicates Deduplicator.init ["a.txt"; "b.txt"] "md5"
  = (Ok (Deduplicator.mkDuplicates [] 0 "md5"), Deduplicator.init).
Proof.
  split; [|reflexivity].
  intros H. repeat (apply elem_of_cons in H as [H|H]; [discriminate H|]).
  now apply elem_of_nil in H.
Qed.

(** C8, as amended. [Deduplicator.find_duplicates] checks nothing: for every
    method it returns an empty list of groups with the method echoed back.
    The check is made by the HTTP handler [deduplication]: for an existing
    dataset and every method outside {hash, semantic, hybrid} it answers 400
    at once and leaves the database and the journal as they were. *)
Theorem C8_method_is_checked_by_the_route did method w self item_paths :
  (method ∉ ["hash"; "semantic"; "hybrid"]) ->
  is_Some (datasets (db w) !! did) ->
  Routes.deduplication did (Some method) w
  = (Routes.Error "Invalid deduplication method" 400, w) /\
  Deduplicator.find_duplicates self item_paths method
  = (Ok (Deduplicator.mkDuplicates [] 0 method), self).
Proof.
  intros Hm [d Hd]. split; [|reflexivity].
  unfold Routes.deduplication. rewrite Hd. cbn [default].
  now rewrite bool_decide_eq_true_2.
Qed.

Lemma C8_method_is_checked_by_the_route_witness :
  Routes.deduplication "ds-1" (Some "md5") (session sample_db)
  = (Routes.Error "Invalid deduplication method" 400, session sample_db) /\
  Deduplicator.find_duplicates Deduplicator.init ["a.txt"; "b.txt"] "md5"
  = (Ok (Deduplicator.mkDuplicates [] 0 "md5"), Deduplicator.init).
Proof.
  apply (C8_method_is_checked_by_the_route "ds-1" "md5" (session sample_db)
           Deduplicator.init ["a.txt"; "b.txt"]).
  - intros H. repeat (apply elem_of_cons in H as [H|H]; [discriminate H|]).
    now apply elem_of_nil in H.
  - exists sample_dataset. reflexivity.
Defined.

(** The three known methods pass the handler. *)
Example deduplication_known_methods :
  Forall (fun m => Routes.status_of
                     (Routes.deduplication "ds-1" (Some m) (session sample_db)).1
                   = 200)
         ["hash"; "semantic"; "hybrid"].
Proof. repeat constructor. Qed.

(** ** C9: hash deduplication run twice *)

(** C9. Call [find_duplicates(items, 'hash')], then call it again on the
    same items with the deduplicator as the first call left it: both calls
    return, and they return the same duplicate groups (indeed the same
    result). *)
Theorem C9_hash_dedup_twice_same_groups
        (self : Deduplicator.t) (items : list string) :
  exists g1 self1 g2 self2,
    Deduplicator.find_duplicates self items "hash" = (Ok g1, self1) /\
    Deduplicator.find_duplicates self1 items "hash" = (Ok g2, self2) /\
    Deduplicator.duplicate_groups g1 = Deduplicator.duplicate_groups g2 /\
    g1 = g2 /\ self2 = self.
Proof.
  eexists _, _, _, _. repeat split; reflexivity.
Qed.

(** ** C10: exporting the metrics *)

Lemma truediv_pos (a : Q) (n : Z) :
  n > 0 -> truediv a (inject_Z n) = Ok (a / inject_Z n)%Q.
Proof.
  intros Hn. unfold truediv.
  destruct (Qeq_bool (inject_Z n) 0) eqn:E; [|reflexivity].
  apply Qeq_bool_iff in E. unfold Qeq in E. cbn in E. lia.
Qed.

(** [export_refinement_metrics] returns, never raises, and leaves the world
    alone. *)
Lemma export_refinement_metrics_total did w :
  exists o, RefinementService.export_refinement_metrics did w = (Ok o, w).
Proof.
  unfold RefinementService.export_refinement_metrics.
  cbv [mbind M_bind mret M_ret get_db lift].
  destruct (first_by_created_at_desc _) as [r|]; [|now eexists].
  destruct (bool_decide (items_processed r > 0)) eqn:E.
  - apply bool_decide_eq_true in E. rewrite (truediv_pos _ _ E). now eexists.
  - now eexists.
Qed.



(** An ordinary record: 19 of 20 items passed, the rate is 95 percent. *)
Example export_metrics_of_twice_refined :
  exists m,
    RefinementService.export_refinement_metrics "ds-1" twice_refined
    = (Ok (Some m), twice_refined) /\
    (RefinementService.pass_rate m == 95)%Q /\
    RefinementService.m_timestamp m = 300.
Proof.
  eexists. split; [vm_compute; reflexivity|]. split; reflexivity.
Qed.

(** * More of the code *)

(** ** The counts written by [refine_dataset] *)

Lemma int_95_percent (n : Z) :
  int (inject_Z n * 0.95)%Q = Z.quot (n * 95) 100.
Proof. reflexivity. Qed.

(** X1. For a dataset with [file_count = n], [0 <= n < 2^31],
    [refine_dataset] records [items_passed = floor(19 n / 20)]: between 0 and
    [n] items pass, and the number rejected is [n / 20] rounded up, so at
    least one item of every non-empty dataset is rejected whatever the
    threshold. The count is the one [int(n * 0.95)] yields in binary64
    arithmetic as well: below [2^31] the rounded product truncates to the
    same integer as the exact one. For counts from about [1.3e15] the two
    differ, and the statement is not made of them. *)
Theorem X1_refine_rejects_a_twentieth env did th w d :
  datasets (db w) !! did = Some d ->
  0 <= file_count d < 2 ^ 31 ->
  exists r w',
    RefinementService.refine_dataset env did th w = (Ok r, w') /\
    items_passed r = (file_count d * 19) `div` 20 /\
    items_passed r = int (float_mul_int (file_count d) 0.95) /\
    0 <= items_passed r <= file_count d /\
    file_count d <= 20 * items_rejected r < file_count d + 20 /\
    (1 <= file_count d -> 1 <= items_rejected r).
Proof.
  intros Hd Hn. eexists _, _.
  split; [apply (refine_dataset_run _ _ _ _ d Hd)|].
  cbn [items_passed items_rejected refined_record]. unfold passed_of.
  rewrite (int_095_binary64 (file_count d) Hn).
  rewrite int_95_percent, Z.quot_div_nonneg by lia.
  assert ((file_count d * 95) `div` 100 = (file_count d * 19) `div` 20) as ->.
  { pose proof (Z.div_mod (file_count d * 19) 20 ltac:(lia)) as Hdm.
    pose proof (Z.mod_pos_bound (file_count d * 19) 20 ltac:(lia)) as Hm.
    symmetry. apply (Z.div_unique _ _ _ (5 * ((file_count d * 19) `mod` 20)));
      lia. }
  pose proof (Z.div_mod (file_count d * 19) 20 ltac:(lia)) as Hdm.
  pose proof (Z.mod_pos_bound (file_count d * 19) 20 ltac:(lia)) as Hm.
  repeat split; lia.
Qed.

Lemma X1_refine_rejects_a_twentieth_witness :
  exists r w',
    RefinementService.refine_dataset first_insert "ds-1" 0.5 (session sample_db)
    = (Ok r, w') /\
    items_passed r = (file_count sample_dataset * 19) `div` 20 /\
    items_passed r = int (float_mul_int (file_count sample_dataset) 0.95) /\
    0 <= items_passed r <= file_count sample_dataset /\
    file_count sample_dataset <= 20 * items_rejected r
      < file_count sample_dataset + 20 /\
    (1 <= file_count sample_dataset -> 1 <= items_rejected r).
Proof.
  apply (X1_refine_rejects_a_twentieth first_insert "ds-1" 0.5
           (session sample_db) sample_dataset).
  - reflexivity.
  - vm_compute. split; [discriminate|reflexivity].
Defined.

(** Far above the bound the rounded product and the exact one part: of
    1346609285265521 files the binary64 count passes one more. *)
Example count_passing_items_beyond_the_bound :
  int (float_mul_int 1346609285265521 0.95) = 1279278821002245 /\
  int (inject_Z 1346609285265521 * 0.95)%Q = 1279278821002244.
Proof. split; vm_compute; reflexivity. Qed.

Lemma refined_record_counted env did d : counted (refined_record env did d).
Proof. split; reflexivity. Qed.

(** X2. The table invariant of the counts: if every row satisfies
    [items_passed = int(items_processed * 0.95)] and
    [items_rejected = items_processed - items_passed], so does every row
    after [refine_dataset], whether the call returned or raised. *)
Theorem X2_refine_keeps_rows_counted env did th w res w' :
  Forall counted (refinement_records (db w)) ->
  RefinementService.refine_dataset env did th w = (res, w') ->
  Forall counted (refinement_records (db w')).
Proof.
  intros Hinv Hrun. destruct (datasets (db w) !! did) as [d|] eqn:Hd.
  - rewrite (refine_dataset_run _ _ _ _ d Hd) in Hrun.
    injection Hrun as _ <-. cbn. apply Forall_app. split; [exact Hinv|].
    apply Forall_singleton. apply refined_record_counted.
  - rewrite (refine_dataset_missing _ _ _ _ Hd) in Hrun.
    injection Hrun as _ <-. exact Hinv.
Qed.

Lemma X2_refine_keeps_rows_counted_witness :
  Forall counted (refinement_records (db twice_refined)).
Proof.
  apply (X2_refine_keeps_rows_counted second_insert "ds-1" 0.7 once_refined
           (Ok (refined_record second_insert "ds-1" refined_sample_dataset))
           twice_refined).
  - apply (X2_refine_keeps_rows_counted first_insert "ds-1" 0.5
             (session sample_db)
             (Ok (refined_record first_insert "ds-1" sample_dataset))
             once_refined).
    + constructor.
    + reflexivity.
  - reflexivity.
Defined.

Lemma pass_rate_bounds (p : Z) (n : Z) :
  n > 0 -> p = int (inject_Z n * 0.95)%Q ->
  (0 <= inject_Z p / inject_Z n * 100 <= 95)%Q.
Proof.
  intros Hn ->. rewrite int_95_percent, Z.quot_div_nonneg by lia.
  pose proof (Z.div_mod (n * 95) 100 ltac:(lia)) as Hdm.
  pose proof (Z.mod_pos_bound (n * 95) 100 ltac:(lia)) as Hm.
  set (q := (n * 95) `div` 100) in *.
  destruct n as [|np|np]; try lia.
  unfold Qle, Qdiv, Qmult, Qinv, inject_Z. cbn. lia.
Qed.

(** X3. On a table whose rows satisfy the counts invariant,
    [export_refinement_metrics] reports a [pass_rate] between 0 and 95
    percent, whatever record is the latest. *)
Theorem X3_exported_pass_rate_at_most_95 did w m :
  Forall counted (refinement_records (db w)) ->
  RefinementService.export_refinement_metrics did w = (Ok (Some m), w) ->
  (0 <= RefinementService.pass_rate m <= 95)%Q.
Proof.
  intros Hinv Hrun.
  unfold RefinementService.export_refinement_metrics in Hrun.
  cbv [mbind M_bind mret M_ret get_db lift] in Hrun.
  destruct (first_by_created_at_desc _) as [r|] eqn:E; [|discriminate].
  apply first_by_created_at_desc_latest in E as (Hin & _ & _).
  rewrite Forall_forall in Hinv. destruct (Hinv r Hin) as [Hp _].
  destruct (bool_decide (items_processed r > 0)) eqn:Hpos.
  - apply bool_decide_eq_true in Hpos. rewrite (truediv_pos _ _ Hpos) in Hrun.
    injection Hrun as <-. cbn [RefinementService.pass_rate].
    now apply pass_rate_bounds.
  - injection Hrun as <-. cbn. split; discriminate.
Qed.

Lemma X3_exported_pass_rate_at_most_95_witness :
  exists m,
    RefinementService.export_refinement_metrics "ds-1" twice_refined
    = (Ok (Some m), twice_refined) /\
    (0 <= RefinementService.pass_rate m <= 95)%Q.
Proof.
  eexists. split; [vm_compute; reflexivity|].
  eapply (X3_exported_pass_rate_at_most_95 "ds-1" twice_refined).
  - repeat constructor.
  - vm_compute. reflexivity.
Defined.

(** ** What [refine_dataset] leaves alone *)

(** X4. A successful [refine_dataset] touches one dataset row and only two
    of its columns: every other dataset is as it was, the refined dataset
    keeps its id, name, source type, path, file count and size, and no
    package is added, removed or changed. *)
Theorem X4_refine_frame env did th w r w' :
  RefinementService.refine_dataset env did th w = (Ok r, w') ->
  (forall did', did' <> did ->
                datasets (db w') !! did' = datasets (db w) !! did') /\
  (exists d d',
      datasets (db w) !! did = Some d /\ datasets (db w') !! did = Some d' /\
      ds_id d' = ds_id d /\ ds_created_at d' = ds_created_at d /\
      ds_name d' = ds_name d /\ source_type d' = source_type d /\
      file_path d' = file_path d /\ file_count d' = file_count d /\
      total_size_bytes d' = total_size_bytes d) /\
  data_packages (db w') = data_packages (db w).
Proof.
  intros Hrun. destruct (datasets (db w) !! did) as [d|] eqn:Hd.
  - rewrite (refine_dataset_run _ _ _ _ d Hd) in Hrun.
    injection Hrun as _ <-. split; [|split].
    + intros did' Hne. cbn. now rewrite !lookup_alter_ne by congruence.
    + exists d, (with_quality_score placeholder_overall
                   (with_stage (value REFINED) d)).
      split; [reflexivity|].
      split; [apply (refined_world_dataset _ _ _ _ Hd)|].
      repeat split; reflexivity.
    + reflexivity.
  - rewrite (refine_dataset_missing _ _ _ _ Hd) in Hrun. discriminate.
Qed.

Lemma X4_refine_frame_witness :
  (forall did', did' <> "ds-1" ->
                datasets (db once_refined) !! did'
                = datasets (db (session sample_db)) !! did') /\
  (exists d d',
      datasets (db (session sample_db)) !! "ds-1" = Some d /\
      datasets (db once_refined) !! "ds-1" = Some d' /\
      ds_id d' = ds_id d /\ ds_created_at d' = ds_created_at d /\
      ds_name d' = ds_name d /\ source_type d' = source_type d /\
      file_path d' = file_path d /\ file_count d' = file_count d /\
      total_size_bytes d' = total_size_bytes d) /\
  data_packages (db once_refined) = data_packages (db (session sample_db)).
Proof.
  apply (X4_refine_frame first_insert "ds-1" 0.5 (session sample_db)
           (refined_record first_insert "ds-1" sample_dataset) once_refined).
  reflexivity.
Defined.

(** X5. Re-running [refine_dataset] on the dataset it has just refined
    changes no dataset row: the second run only appends its record, whatever
    the two thresholds are. *)
Theorem X5_second_refine_keeps_datasets env1 env2 did th1 th2 w r1 w1 :
  RefinementService.refine_dataset env1 did th1 w = (Ok r1, w1) ->
  exists r2 w2,
    RefinementService.refine_dataset env2 did th2 w1 = (Ok r2, w2) /\
    datasets (db w2) = datasets (db w1) /\
    data_packages (db w2) = data_packages (db w1) /\
    refinement_records (db w2) = refinement_records (db w1) ++ [r2].
Proof.
  intros Hrun. destruct (datasets (db w) !! did) as [d|] eqn:Hd.
  - rewrite (refine_dataset_run _ _ _ _ d Hd) in Hrun.
    injection Hrun as _ <-.
    pose proof (refined_world_dataset env1 did d w Hd) as Hd1.
    eexists _, _. split; [apply (refine_dataset_run _ _ _ _ _ Hd1)|].
    split; [|split; reflexivity].
    apply map_eq. intros k. cbn.
    destruct (decide (k = did)) as [->|Hne].
    + rewrite !lookup_alter_eq, Hd. reflexivity.
    + now rewrite !lookup_alter_ne by congruence.
  - rewrite (refine_dataset_missing _ _ _ _ Hd) in Hrun. discriminate.
Qed.

Lemma X5_second_refine_keeps_datasets_witness :
  exists r2 w2,
    RefinementService.refine_dataset second_insert "ds-1" 0.9 once_refined
    = (Ok r2, w2) /\
    datasets (db w2) = datasets (db once_refined) /\
    data_packages (db w2) = data_packages (db once_refined) /\
    refinement_records (db w2) = refinement_records (db once_refined) ++ [r2].
Proof.
  apply (X5_second_refine_keeps_datasets first_insert second_insert "ds-1"
           0.5 0.9 (session sample_db)
           (refined_record first_insert "ds-1" sample_dataset) once_refined).
  reflexivity.
Defined.

(** ** The three readers of the latest record *)

Lemma first_by_created_at_desc_newest rows r :
  (forall r0, r0 ∈ rows -> created_at r0 < created_at r) ->
  first_by_created_at_desc (rows ++ [r]) = Some r.
Proof.
  intros Hlate.
  destruct (first_by_created_at_desc (rows ++ [r])) as [r'|] eqn:E.
  - apply first_by_created_at_desc_Some in E as [Hin Hmax].
    apply elem_of_app in Hin as [Hin|Hin].
    + specialize (Hlate r' Hin).
      assert (created_at r <= created_at r') as Hle
          by (apply Hmax, elem_of_app; right; now apply list_elem_of_singleton).
      lia.
    + apply list_elem_of_singleton in Hin. now subst.
  - apply first_by_created_at_desc_None in E. now destruct rows.
Qed.

Lemma get_refinement_status_run did w :
  RefinementService.get_refinement_status did w
  = (Ok match last (filter_by_dataset_id did (refinement_records (db w))) with
        | None => RefinementService.NotRefined
        | Some latest =>
            RefinementService.Refined
              (RefinementService.mkRefinedStatus
                 (overall_quality latest) (items_processed latest)
                 (items_passed latest) (items_rejected latest)
                 (duplicates_found latest) (classifications latest)
                 (created_at latest))
        end, w).
Proof.
  unfold RefinementService.get_refinement_status.
  cbv [mbind M_bind mret M_ret get_db].
  now destruct (last _).
Qed.

Lemma export_refinement_metrics_of_latest did w r :
  first_by_created_at_desc
    (filter_by_dataset_id did (refinement_records (db w))) = Some r ->
  exists m,
    RefinementService.export_refinement_metrics did w = (Ok (Some m), w) /\
    RefinementService.m_timestamp m = created_at r /\
    RefinementService.m_items_processed m = items_processed r /\
    RefinementService.m_items_passed m = items_passed r /\
    RefinementService.m_items_rejected m = items_rejected r /\
    RefinementService.m_quality_scores m = quality_scores r /\
    RefinementService.m_classifications m = classifications r.
Proof.
  intros E. unfold RefinementService.export_refinement_metrics.
  cbv [mbind M_bind mret M_ret get_db lift]. rewrite E.
  destruct (bool_decide (items_processed r > 0)) eqn:Hpos.
  - apply bool_decide_eq_true in Hpos. rewrite (truediv_pos _ _ Hpos).
    eexists. split; [reflexivity|]. repeat split; reflexivity.
  - eexists. split; [reflexivity|]. repeat split; reflexivity.
Qed.

(** X6. After a run of [refine_dataset] whose timestamp is later than that
    of every earlier record of the dataset, the three readers agree on the
    record of that run: [get_refinement_status] (the row inserted last),
    [export_refinement_metrics] (the row with the greatest [created_at]) and
    [create_package] all report its counts and its quality. *)
Theorem X6_readers_agree_after_refine
        env penv now did th name description version license_type w d :
  datasets (db w) !! did = Some d ->
  (forall r0, r0 ∈ refinement_records (db w) -> dataset_id r0 = did ->
              created_at r0 < utcnow env) ->
  exists r w',
    RefinementService.refine_dataset env did th w = (Ok r, w') /\
    (exists s,
        RefinementService.get_refinement_status did w'
        = (Ok (RefinementService.Refined s), w') /\
        RefinementService.last_refined_at s = created_at r /\
        RefinementService.st_items_processed s = items_processed r /\
        RefinementService.st_items_passed s = items_passed r /\
        RefinementService.st_items_rejected s = items_rejected r /\
        RefinementService.st_overall_quality s = overall_quality r) /\
    (exists m,
        RefinementService.export_refinement_metrics did w' = (Ok (Some m), w') /\
        RefinementService.m_timestamp m = created_at r /\
        RefinementService.m_items_processed m = items_processed r /\
        RefinementService.m_items_passed m = items_passed r /\
        RefinementService.m_items_rejected m = items_rejected r) /\
    (exists p w'',
        PackageService.create_package penv now did name description version
                                      license_type w' = (Ok p, w'') /\
        items_count p = items_passed r /\
        pkg_quality_score p = overall_quality r /\
        quality_breakdown (quality_metrics p) = quality_scores r).
Proof.
  intros Hd Hlate.
  set (r := refined_record env did d).
  set (w' := refined_world env did d w).
  assert (filter_by_dataset_id did (refinement_records (db w'))
          = filter_by_dataset_id did (refinement_records (db w)) ++ [r]) as Hf
      by (apply filter_by_dataset_id_snoc; reflexivity).
  assert (first_by_created_at_desc
            (filter_by_dataset_id did (refinement_records (db w'))) = Some r)
    as Hfirst.
  { rewrite Hf. apply first_by_created_at_desc_newest. intros r0 Hin.
    apply elem_of_filter_by_dataset_id in Hin as [E Hin]. now apply Hlate. }
  exists r, w'. split; [apply (refine_dataset_run _ _ _ _ d Hd)|].
  split; [|split].
  - eexists. rewrite get_refinement_status_run, Hf, last_snoc.
    split; [reflexivity|]. repeat split; reflexivity.
  - destruct (export_refinement_metrics_of_latest did w' r Hfirst)
      as (m & Hm & H1 & H2 & H3 & H4 & _).
    exists m. repeat split; assumption.
  - destruct (create_package_refined penv now did name description version
                license_type w' _ (refined_world_dataset env did d w Hd)
                eq_refl)
      as (p & w'' & Hrun & _ & _ & _ & _ & _ & Hread).
    rewrite Hfirst in Hread. destruct Hread as (Hq & Hc & Hm & _).
    exists p, w''. split; [exact Hrun|]. split; [exact Hc|].
    split; [exact Hq|]. now rewrite Hm.
Qed.

Lemma X6_readers_agree_after_refine_witness :
  exists r w',
    RefinementService.refine_dataset second_insert "ds-1" 0.5 once_refined
    = (Ok r, w') /\
    (exists s,
        RefinementService.get_refinement_status "ds-1" w'
        = (Ok (RefinementService.Refined s), w') /\
        RefinementService.last_refined_at s = created_at r /\
        RefinementService.st_items_processed s = items_processed r /\
        RefinementService.st_items_passed s = items_passed r /\
        RefinementService.st_items_rejected s = items_rejected r /\
        RefinementService.st_overall_quality s = overall_quality r) /\
    (exists m,
        RefinementService.export_refinement_metrics "ds-1" w'
        = (Ok (Some m), w') /\
        RefinementService.m_timestamp m = created_at r /\
        RefinementService.m_items_processed m = items_processed r /\
        RefinementService.m_items_passed m = items_passed r /\
        RefinementService.m_items_rejected m = items_rejected r) /\
    (exists p w'',
        PackageService.create_package package_insert 400 "ds-1" "pack"
                                      "first cut" "1.0" "proprietary" w'
        = (Ok p, w'') /\
        items_count p = items_passed r /\
        pkg_quality_score p = overall_quality r /\
        quality_breakdown (quality_metrics p) = quality_scores r).
Proof.
  apply (X6_readers_agree_after_refine second_insert package_insert 400 "ds-1"
           0.5 "pack" "first cut" "1.0" "proprietary" once_refined
           refined_sample_dataset).
  - reflexivity.
  - intros r0 Hin _. cbn in Hin. apply list_elem_of_singleton in Hin.
    subst r0. reflexivity.
Defined.

(** Without the hypothesis on the clock the readers part: here the second
    run is stamped earlier than the first, the status shows the second run
    and the metrics show the first. *)
Example readers_part_when_clock_steps_back :
  exists s m,
    RefinementService.get_refinement_status "ds-1" clock_stepped_back
    = (Ok (RefinementService.Refined s), clock_stepped_back) /\
    RefinementService.export_refinement_metrics "ds-1" clock_stepped_back
    = (Ok (Some m), clock_stepped_back) /\
    RefinementService.last_refined_at s = 200 /\
    RefinementService.m_timestamp m = 300.
Proof.
  eexists _, _. split; [vm_compute; reflexivity|].
  split; [vm_compute; reflexivity|]. split; reflexivity.
Qed.

(** ** Status codes of the refinement routes *)

Lemma Qltb_false (a b : Q) : Qltb a b = false <-> (b <= a)%Q.
Proof.
  unfold Qltb. rewrite negb_false_iff. apply Qle_bool_iff.
Qed.

(** X7. The refine handler, on a request whose body is a JSON object (or
    JSON [null], which the handler reads as the empty object) in which
    [quality_threshold], when present, is a finite number. It answers such a
    request with 200, 400 or 404: with 200 exactly when the
    dataset exists and the threshold (0.5 when the body has none) lies in
    [0,1]; the table then holds one more record, the one the body describes.
    With any other answer the world is as it was. Nothing is stated of other
    bodies: a threshold that is [null] or a string fails in the comparison
    that stands in front of the [try], and NaN passes it. *)
Theorem X7_refine_route_statuses env did body w :
  let th := default 0.5%Q body in
  let answer := Routes.refine_dataset env did body w in
  let status := Routes.status_of (fst answer) in
  (status = 200 \/ status = 400 \/ status = 404) /\
  (status = 200 <->
   is_Some (datasets (db w) !! did) /\ (0 <= th)%Q /\ (th <= 1)%Q) /\
  (status = 200 ->
   exists r,
     refinement_records (db (snd answer)) = refinement_records (db w) ++ [r] /\
     fst answer
     = Routes.Json
         (Routes.mkRefineBody did (pipeline_stage r) (quality_scores r)
            (overall_quality r) (items_processed r) (items_passed r)
            (items_rejected r) (duplicates_found r) (classifications r)
            (created_at r)) 200) /\
  (status <> 200 -> snd answer = w).
Proof.
  cbv zeta. unfold Routes.refine_dataset.
  destruct (datasets (db w) !! did) as [d|] eqn:Hd.
  - destruct (Qltb (default 0.5%Q body) 0) eqn:Hlo;
      [|destruct (Qgtb (default 0.5%Q body) 1) eqn:Hhi].
    + cbn. apply Qltb_lt in Hlo. repeat split; try (intros; lia); auto.
      intros (_ & Hle & _). exfalso. exact (Qlt_not_le _ _ Hlo Hle).
    + cbn. unfold Qgtb in Hhi. apply Qltb_lt in Hhi.
      repeat split; try (intros; lia); auto.
      intros (_ & _ & Hle). exfalso. exact (Qlt_not_le _ _ Hhi Hle).
    + cbn [orb]. rewrite (refine_dataset_run _ _ _ _ d Hd). cbn.
      apply Qltb_false in Hlo. unfold Qgtb in Hhi. apply Qltb_false in Hhi.
      repeat split; auto; try (intros; lia).
      intros _. eexists. split; reflexivity.
  - cbn. repeat split; try (intros; lia); auto.
    intros ([d' Hd'] & _). discriminate.
Qed.

Lemma X7_refine_route_statuses_witness :
  Routes.status_of
    (fst (Routes.refine_dataset first_insert "ds-1" (Some 0.3%Q)
            (session sample_db))) = 200 /\
  exists r,
    refinement_records
      (db (snd (Routes.refine_dataset first_insert "ds-1" (Some 0.3%Q)
                  (session sample_db))))
    = refinement_records (db (session sample_db)) ++ [r] /\
    items_passed r = 19.
Proof.
  pose proof (X7_refine_route_statuses first_insert "ds-1" (Some 0.3%Q)
                (session sample_db)) as H.
  cbv zeta in H. destruct H as (_ & Hiff & H200 & _).
  assert (Routes.status_of
            (fst (Routes.refine_dataset first_insert "ds-1" (Some 0.3%Q)
                    (session sample_db))) = 200) as Hs.
  { apply Hiff. split; [exists sample_dataset; reflexivity|].
    split; discriminate. }
  split; [exact Hs|].
  destruct (H200 Hs) as (r & Hrows & Hbody).
  exists r. split; [exact Hrows|].
  vm_compute in Hrows. injection Hrows as Hr. subst r. reflexivity.
Defined.


(** X8. The two read-only handlers differ on what they check. The status
    handler answers 404 exactly when the dataset does not exist, and for an
    existing dataset 200, with [not_refined] exactly when the dataset has no
    record. The metrics handler never looks the dataset up: it answers 404
    exactly when no record carries the dataset id, and 200 otherwise.
    Neither changes the world. *)
Theorem X8_status_and_metrics_routes did w :
  let no_record :=
    forall r, r ∈ refinement_records (db w) -> dataset_id r <> did in
  let status_answer := Routes.get_refinement_status did w in
  let metrics_answer := Routes.get_refinement_metrics did w in
  snd status_answer = w /\ snd metrics_answer = w /\
  (datasets (db w) !! did = None ->
   fst status_answer = Routes.Error "Dataset not found" 404) /\
  (is_Some (datasets (db w) !! did) ->
   exists status, fst status_answer = Routes.Json status 200 /\
                  (status = RefinementService.NotRefined <-> no_record)) /\
  (no_record ->
   fst metrics_answer
   = Routes.Error "No refinement records found for dataset" 404) /\
  (~ no_record -> exists m, fst metrics_answer = Routes.Json m 200).
Proof.
  cbv zeta.
  assert ((forall r, r ∈ refinement_records (db w) -> dataset_id r <> did)
          <-> filter_by_dataset_id did (refinement_records (db w)) = [])
    as Hnone.
  { split.
    - intros H.
      destruct (filter_by_dataset_id did (refinement_records (db w)))
        as [|r l] eqn:E; [reflexivity|].
      assert (r ∈ filter_by_dataset_id did (refinement_records (db w))) as Hin
          by (rewrite E; apply elem_of_cons; now left).
      apply elem_of_filter_by_dataset_id in Hin as [Hr Hin].
      now destruct (H r Hin).
    - intros E r Hin Hr.
      assert (r ∈ filter_by_dataset_id did (refinement_records (db w))) as Hf
          by now apply elem_of_filter_by_dataset_id.
      rewrite E in Hf. now apply elem_of_nil in Hf. }
  unfold Routes.get_refinement_status, Routes.get_refinement_metrics.
  rewrite get_refinement_status_run.
  destruct (export_refinement_metrics_total did w) as [o Ho]. rewrite Ho.
  split; [now destruct (datasets (db w) !! did)|].
  split; [now destruct o|].
  split; [now intros ->|].
  split; [|split].
  - intros [d ->]. eexists. split; [reflexivity|].
    rewrite Hnone. destruct (last _) as [r|] eqn:El.
    + split; [discriminate|]. intros E. rewrite E in El. discriminate.
    + apply last_None in El. split; auto.
  - intros H. apply Hnone in H.
    destruct (first_by_created_at_desc
                (filter_by_dataset_id did (refinement_records (db w))))
      as [r|] eqn:E.
    + apply first_by_created_at_desc_Some in E as [Hin _].
      rewrite H in Hin. now apply elem_of_nil in Hin.
    + unfold RefinementService.export_refinement_metrics in Ho.
      cbv [mbind M_bind mret M_ret get_db lift] in Ho. rewrite E in Ho.
      injection Ho as <-. reflexivity.
  - intros H. destruct o as [m|]; [now exists m|]. exfalso. apply H.
    apply Hnone. apply first_by_created_at_desc_None.
    unfold RefinementService.export_refinement_metrics in Ho.
    cbv [mbind M_bind mret M_ret get_db lift] in Ho.
    destruct (first_by_created_at_desc _) as [r|]; [|reflexivity].
    destruct (bool_decide (items_processed r > 0)) eqn:Hpos.
    + apply bool_decide_eq_true in Hpos.
      rewrite (truediv_pos _ _ Hpos) in Ho. discriminate.
    + discriminate.
Qed.

Lemma X8_status_and_metrics_routes_witness :
  fst (Routes.get_refinement_status "ds-1" (session sample_db))
  = Routes.Json RefinementService.NotRefined 200 /\
  fst (Routes.get_refinement_metrics "ds-1" (session sample_db))
  = Routes.Error "No refinement records found for dataset" 404 /\
  fst (Routes.get_refinement_status "ds-9" once_refined)
  = Routes.Error "Dataset not found" 404 /\
  exists m, fst (Routes.get_refinement_metrics "ds-1" once_refined)
            = Routes.Json m 200.
Proof.
  pose proof (X8_status_and_metrics_routes "ds-1" (session sample_db)) as H0.
  pose proof (X8_status_and_metrics_routes "ds-9" once_refined) as H9.
  pose proof (X8_status_and_metrics_routes "ds-1" once_refined) as H1.
  cbv zeta in H0, H9, H1.
  destruct H0 as (_ & _ & _ & Hs0 & Hm0 & _).
  destruct H9 as (_ & _ & Hs9 & _).
  destruct H1 as (_ & _ & _ & _ & _ & Hm1).
  assert (forall r, r ∈ refinement_records (db (session sample_db)) ->
                    dataset_id r <> "ds-1") as Hnone
      by (intros r Hin; now apply elem_of_nil in Hin).
  split.
  - destruct Hs0 as (status & -> & Hiff); [exists sample_dataset; reflexivity|].
    apply Hiff in Hnone. now subst.
  - split; [exact (Hm0 Hnone)|]. split; [now apply Hs9|].
    apply Hm1. intros H.
    apply (H (refined_record first_insert "ds-1" sample_dataset));
      [|reflexivity].
    cbn. apply list_elem_of_singleton. reflexivity.
Defined.


(** X9. The stand-alone quality check and classification handlers answer,
    for an existing dataset, with the very dimension scores and
    classifications that [refine_dataset] would commit for it, and unlike
    [refine_dataset] they write nothing. The aggregate of the quality check
    is the literal [0.82], written out in the handler; it is within [1e-9] of
    the aggregate [refine_dataset] computes and commits, in the exact
    evaluation and in binary64 arithmetic, where the two need not be the
    same float (see [stored_aggregate_in_binary64]). *)
Theorem X9_quick_checks_agree_with_pipeline env did th w d :
  datasets (db w) !! did = Some d ->
  exists r w' q,
    RefinementService.refine_dataset env did th w = (Ok r, w') /\
    Routes.quality_check did w
    = (Routes.Json (Routes.mkQualityCheckBody did (quality_scores r) q) 200,
       w) /\
    q = 0.82%Q /\
    within_tolerance q (overall_quality r) /\
    within_tolerance (binary64 q)
                     (rounded_mean binary64 float_sum (quality_scores r)) /\
    Routes.classify_data did w = (Routes.Json (did, classifications r) 200, w).
Proof.
  intros Hd. eexists _, _, _.
  split; [apply (refine_dataset_run _ _ _ _ d Hd)|].
  unfold Routes.quality_check, Routes.classify_data. rewrite Hd.
  split; [reflexivity|]. split; [reflexivity|].
  split; [unfold within_tolerance; vm_compute; discriminate|].
  split; [unfold within_tolerance; vm_compute; discriminate|reflexivity].
Qed.

Lemma X9_quick_checks_agree_with_pipeline_witness :
  exists r w' q,
    RefinementService.refine_dataset first_insert "ds-1" 0.5 (session sample_db)
    = (Ok r, w') /\
    Routes.quality_check "ds-1" (session sample_db)
    = (Routes.Json (Routes.mkQualityCheckBody "ds-1" (quality_scores r) q) 200,
       session sample_db) /\
    q = 0.82%Q /\
    within_tolerance q (overall_quality r) /\
    within_tolerance (binary64 q)
                     (rounded_mean binary64 float_sum (quality_scores r)) /\
    Routes.classify_data "ds-1" (session sample_db)
    = (Routes.Json ("ds-1", classifications r) 200, session sample_db).
Proof.
  apply (X9_quick_checks_agree_with_pipeline first_insert "ds-1" 0.5
           (session sample_db) sample_dataset).
  reflexivity.
Defined.

(** ** What one run of [create_package] does *)

Lemma create_package_run env now did name description version license_type
      w d :
  datasets (db w) !! did = Some d ->
  stage d = value REFINED ->
  PackageService.create_package env now did name description version
                                license_type w
  = (Ok (package_of env now did name description version license_type d
           (refinement_records (db w))),
     packaged_world did
       (package_of env now did name description version license_type d
          (refinement_records (db w))) w).
Proof.
  intros Hd Hs. unfold PackageService.create_package.
  rewrite (bind_ok _ _ _ _ _ (query_get_run did w)), Hd.
  rewrite bool_decide_eq_false_2 by (intros H; exact (H Hs)).
  destruct w as [dbw jw].
  cbv [mbind M_bind mret M_ret get_db PackageService._generate_provenance_log
       session_add_package session_commit set_stage log modify_db
       packaged_world package_of provenance_of].
  cbn [db journal fst snd pkg_id alter_dataset datasets refinement_records
       data_packages].
  rewrite <- !app_assoc. reflexivity.
Qed.

Lemma packaged_world_dataset did p w d :
  datasets (db w) !! did = Some d ->
  datasets (db (packaged_world did p w)) !! did
  = Some (with_stage (value PACKAGED) d).
Proof. intros Hd. cbn. now rewrite lookup_alter_eq, Hd. Qed.

(** ** Packaging: composition, fallback and frame *)

(** X10. A dataset can be packaged once per refinement: after a successful
    [create_package] the stage is PACKAGED, so a second call, whatever its
    arguments, raises the [ValueError] of the stage guard and leaves the
    world as the first call left it. *)
Theorem X10_second_packaging_is_refused
        env now did name description version license_type
        env' now' name' description' version' license_type' w p w1 :
  PackageService.create_package env now did name description version
                                license_type w = (Ok p, w1) ->
  PackageService.create_package env' now' did name' description' version'
                                license_type' w1
  = (Raise (ValueError
              "Dataset must be refined before packaging. Current stage: packaged"),
     w1).
Proof.
  intros Hrun. destruct (datasets (db w) !! did) as [d|] eqn:Hd.
  - destruct (decide (stage d = value REFINED)) as [Hs|Hs].
    + rewrite (create_package_run _ _ _ _ _ _ _ _ d Hd Hs) in Hrun.
      injection Hrun as _ <-.
      apply (create_package_not_refined _ _ _ _ _ _ _ _
               (with_stage (value PACKAGED) d)).
      * now apply packaged_world_dataset.
      * discriminate.
    + rewrite (create_package_not_refined _ _ _ _ _ _ _ _ d Hd Hs) in Hrun.
      discriminate.
  - rewrite (create_package_missing _ _ _ _ _ _ _ _ Hd) in Hrun. discriminate.
Qed.

Lemma X10_second_packaging_is_refused_witness :
  PackageService.create_package second_insert 600 "ds-1" "again" "second cut"
                                "2.0" "CC-BY" packaged_sample
  = (Raise (ValueError
              "Dataset must be refined before packaging. Current stage: packaged"),
     packaged_sample).
Proof.
  apply (X10_second_packaging_is_refused
           package_insert 400 "ds-1" "pack" "first cut" "1.0" "proprietary"
           second_insert 600 "again" "second cut" "2.0" "CC-BY"
           twice_refined sample_package packaged_sample).
  reflexivity.
Defined.

(** X11. [refine_dataset] has no guard on the stage: it brings a PACKAGED
    dataset back to REFINED. Refining, packaging, refining again and
    packaging again all succeed, and leave two packages of the dataset, two
    more records, and the stage PACKAGED. *)
Theorem X11_refine_reopens_packaging
        env1 env2 penv1 penv2 now1 now2 did th1 th2
        name description version license_type w d :
  datasets (db w) !! did = Some d ->
  exists r1 w1 p1 w2 r2 w3 p2 w4 d4,
    RefinementService.refine_dataset env1 did th1 w = (Ok r1, w1) /\
    PackageService.create_package penv1 now1 did name description version
                                  license_type w1 = (Ok p1, w2) /\
    RefinementService.refine_dataset env2 did th2 w2 = (Ok r2, w3) /\
    PackageService.create_package penv2 now2 did name description version
                                  license_type w3 = (Ok p2, w4) /\
    data_packages (db w4) = data_packages (db w) ++ [p1; p2] /\
    refinement_records (db w4) = refinement_records (db w) ++ [r1; r2] /\
    datasets (db w4) !! did = Some d4 /\ stage d4 = value PACKAGED.
Proof.
  intros Hd.
  set (d1 := with_quality_score placeholder_overall
               (with_stage (value REFINED) d)).
  set (w1 := refined_world env1 did d w).
  set (p1 := package_of penv1 now1 did name description version license_type
               d1 (refinement_records (db w1))).
  set (w2 := packaged_world did p1 w1).
  set (d2 := with_stage (value PACKAGED) d1).
  set (d3 := with_quality_score placeholder_overall
               (with_stage (value REFINED) d2)).
  set (w3 := refined_world env2 did d2 w2).
  set (p2 := package_of penv2 now2 did name description version license_type
               d3 (refinement_records (db w3))).
  assert (datasets (db w1) !! did = Some d1) as Hd1
      by apply (refined_world_dataset env1 did d w Hd).
  assert (datasets (db w2) !! did = Some d2) as Hd2
      by apply (packaged_world_dataset did p1 w1 d1 Hd1).
  assert (datasets (db w3) !! did = Some d3) as Hd3
      by apply (refined_world_dataset env2 did d2 w2 Hd2).
  exists (refined_record env1 did d), w1, p1, w2,
         (refined_record env2 did d2), w3, p2, (packaged_world did p2 w3),
         (with_stage (value PACKAGED) d3).
  split; [apply (refine_dataset_run _ _ _ _ d Hd)|].
  split; [apply (create_package_run _ _ _ _ _ _ _ _ d1 Hd1 eq_refl)|].
  split; [apply (refine_dataset_run _ _ _ _ d2 Hd2)|].
  split; [apply (create_package_run _ _ _ _ _ _ _ _ d3 Hd3 eq_refl)|].
  split; [cbn; now rewrite <- app_assoc|].
  split; [cbn; now rewrite <- app_assoc|].
  split; [apply (packaged_world_dataset _ _ _ _ Hd3)|]. reflexivity.
Qed.

Lemma X11_refine_reopens_packaging_witness :
  exists r1 w1 p1 w2 r2 w3 p2 w4 d4,
    RefinementService.refine_dataset first_insert "ds-1" 0.5 (session sample_db)
    = (Ok r1, w1) /\
    PackageService.create_package package_insert 400 "ds-1" "pack" "cut" "1.0"
                                  "proprietary" w1 = (Ok p1, w2) /\
    RefinementService.refine_dataset second_insert "ds-1" 0.5 w2 = (Ok r2, w3) /\
    PackageService.create_package (mkInsertDefaults "pkg-2" 700) 600 "ds-1"
                                  "pack" "cut" "1.0" "proprietary" w3
    = (Ok p2, w4) /\
    data_packages (db w4) = data_packages (db (session sample_db)) ++ [p1; p2] /\
    refinement_records (db w4)
    = refinement_records (db (session sample_db)) ++ [r1; r2] /\
    datasets (db w4) !! "ds-1" = Some d4 /\ stage d4 = value PACKAGED.
Proof.
  apply (X11_refine_reopens_packaging
           first_insert second_insert package_insert
           (mkInsertDefaults "pkg-2" 700) 400 600 "ds-1" 0.5 0.5
           "pack" "cut" "1.0" "proprietary" (session sample_db) sample_dataset).
  reflexivity.
Defined.

(** X12. The fallback of [create_package]: for a dataset whose stage is
    REFINED while no record carries its id, the package takes its quality
    score from [dataset.quality_score] and its item count from
    [dataset.file_count], with an empty quality breakdown and empty
    classifications; its provenance log has the ingestion and the packaging
    step only. *)
Theorem X12_packaging_without_record
        env now did name description version license_type w d :
  datasets (db w) !! did = Some d ->
  stage d = value REFINED ->
  ds_id d = did ->
  (forall r, r ∈ refinement_records (db w) -> dataset_id r <> did) ->
  exists p w',
    PackageService.create_package env now did name description version
                                  license_type w = (Ok p, w') /\
    pkg_quality_score p = quality_score d /\
    items_count p = file_count d /\
    quality_metrics p = mkQualityMetrics (quality_score d) (file_count d) [] /\
    md_classifications (pkg_metadata p) = [] /\
    provenance_log p
    = [ IngestionStep (ds_created_at d)
                      ("Data ingested from " +:+ source_type d) (file_count d);
        PackagingStep now "Data packaged for delivery" ].
Proof.
  intros Hd Hs Hid Hnone.
  assert (filter_by_dataset_id did (refinement_records (db w)) = []) as E.
  { destruct (filter_by_dataset_id did (refinement_records (db w)))
      as [|r l] eqn:E; [reflexivity|].
    assert (r ∈ filter_by_dataset_id did (refinement_records (db w))) as Hin
        by (rewrite E; apply elem_of_cons; now left).
    apply elem_of_filter_by_dataset_id in Hin as [Hr Hin].
    now destruct (Hnone r Hin). }
  eexists _, _. split; [apply (create_package_run _ _ _ _ _ _ _ _ d Hd Hs)|].
  unfold package_of, provenance_of. rewrite Hid, E. cbn.
  repeat split; reflexivity.
Qed.

Lemma X12_packaging_without_record_witness :
  exists p w',
    PackageService.create_package package_insert 400 "ds-2" "pack" "cut" "1.0"
                                  "proprietary" (session orphan_db)
    = (Ok p, w') /\
    pkg_quality_score p = quality_score orphan_dataset /\
    items_count p = file_count orphan_dataset /\
    quality_metrics p
    = mkQualityMetrics (quality_score orphan_dataset)
                       (file_count orphan_dataset) [] /\
    md_classifications (pkg_metadata p) = [] /\
    provenance_log p
    = [ IngestionStep (ds_created_at orphan_dataset)
                      ("Data ingested from " +:+ source_type orphan_dataset)
                      (file_count orphan_dataset);
        PackagingStep 400 "Data packaged for delivery" ].
Proof.
  apply (X12_packaging_without_record package_insert 400 "ds-2" "pack" "cut"
           "1.0" "proprietary" (session orphan_db) orphan_dataset).
  - reflexivity.
  - reflexivity.
  - reflexivity.
  - intros r Hin. now apply elem_of_nil in Hin.
Defined.

(** X13. What a successful [create_package] changes: it appends one package,
    available, not for sale and without a price, that carries the call's
    name, description, version and license, the dataset's id and size and
    the insert defaults; it moves that dataset to PACKAGED and changes no
    other column of it; every other dataset and the records table are as
    they were. *)
Theorem X13_create_package_frame
        env now did name description ver license_type w p w' :
  PackageService.create_package env now did name description ver
                                license_type w = (Ok p, w') ->
  data_packages (db w') = data_packages (db w) ++ [p] /\
  refinement_records (db w') = refinement_records (db w) /\
  (forall did', did' <> did ->
                datasets (db w') !! did' = datasets (db w) !! did') /\
  (exists d, datasets (db w) !! did = Some d /\
             stage d = value REFINED /\
             datasets (db w') !! did = Some (with_stage (value PACKAGED) d) /\
             package_size_bytes p = total_size_bytes d /\
             manifest p = PackageService._generate_manifest d) /\
  pkg_id p = uuid4 env /\ pkg_created_at p = utcnow env /\
  source_dataset_id p = did /\ pkg_name p = name /\
  pkg_description p = description /\ version p = ver /\
  pkg_license_type p = license_type /\
  is_available p = true /\ is_for_sale p = false /\ price_usd p = None.
Proof.
  intros Hrun. destruct (datasets (db w) !! did) as [d|] eqn:Hd.
  - destruct (decide (stage d = value REFINED)) as [Hs|Hs].
    + rewrite (create_package_run _ _ _ _ _ _ _ _ d Hd Hs) in Hrun.
      injection Hrun as <- <-.
      split; [reflexivity|]. split; [reflexivity|]. split.
      { intros did' Hne. cbn. now rewrite lookup_alter_ne by congruence. }
      split.
      { exists d. split; [reflexivity|]. split; [exact Hs|].
        split; [now apply packaged_world_dataset|]. split; reflexivity. }
      repeat split; reflexivity.
    + rewrite (create_package_not_refined _ _ _ _ _ _ _ _ d Hd Hs) in Hrun.
      discriminate.
  - rewrite (create_package_missing _ _ _ _ _ _ _ _ Hd) in Hrun. discriminate.
Qed.

Lemma X13_create_package_frame_witness :
  data_packages (db packaged_sample)
  = data_packages (db twice_refined) ++ [sample_package] /\
  refinement_records (db packaged_sample)
  = refinement_records (db twice_refined) /\
  is_available sample_package = true /\
  is_for_sale sample_package = false /\
  price_usd sample_package = None.
Proof.
  destruct (X13_create_package_frame package_insert 400 "ds-1" "pack"
              "first cut" "1.0" "proprietary" twice_refined sample_package
              packaged_sample)
    as (H1 & H2 & _ & _ & _ & _ & _ & _ & _ & _ & _ & H3 & H4 & H5).
  - reflexivity.
  - repeat split; assumption.
Defined.

(** ** The manifest *)

Lemma sample_files_names (sz : Z) (k : Z) :
  0 <= k <= 5 ->
  map filename
      (map (fun i => mkManifestFile ("file_" +:+ pretty i +:+ ".dat") sz
                       "binary" (PackageService.str_mul ("sha256_" +:+ pretty i) 8))
           (PackageService.range k))
  = take (Z.to_nat k) sample_filenames.
Proof.
  intros Hk.
  assert (k = 0 \/ k = 1 \/ k = 2 \/ k = 3 \/ k = 4 \/ k = 5) as Hc by lia.
  destruct Hc as [->|[->|[->|[->|[->| ->]]]]]; reflexivity.
Qed.

Lemma listed_size_const {A : Type} (f : A -> ManifestFile) (q : Z) (l : list A) :
  (forall a, size_bytes (f a) = q) ->
  foldr Z.add 0 (map size_bytes (map f l)) = Z.of_nat (length l) * q.
Proof.
  intros Hf. induction l as [|a l IH]; [reflexivity|].
  cbn [map foldr length]. rewrite IH, Hf. lia.
Qed.

(** X14. The manifest lists a sample of the files, never more than five:
    for a dataset of [n] files it has [min(5, n)] entries (none when
    [n <= 0]), named [file_0.dat], [file_1.dat], ... in order, hence all
    different. Each entry carries the same size,
    [total_size_bytes // max(1, file_count)], a division whose divisor is at
    least 1 also for an empty dataset; and when the total size is not
    negative, the sizes listed add up to no more than the total. *)
Theorem X14_manifest_sample d :
  let m := PackageService._generate_manifest d in
  let k := Z.to_nat (Z.min 5 (file_count d)) in
  total_files m = file_count d /\
  length (files m) = k /\ (k <= 5)%nat /\
  map filename (files m) = take k sample_filenames /\
  NoDup (map filename (files m)) /\
  Forall (fun f => size_bytes f
                   = total_size_bytes d `div` Z.max 1 (file_count d) /\
                   format f = "binary") (files m) /\
  1 <= Z.max 1 (file_count d) /\
  (0 <= total_size_bytes d -> 0 <= listed_size m <= total_size_bytes d).
Proof.
  cbv zeta. unfold PackageService._generate_manifest, listed_size.
  cbn [total_files files].
  set (q := total_size_bytes d `div` Z.max 1 (file_count d)).
  set (k := Z.min 5 (file_count d)).
  assert (map filename
            (map (fun i => mkManifestFile ("file_" +:+ pretty i +:+ ".dat") q
                    "binary"
                    (PackageService.str_mul ("sha256_" +:+ pretty i) 8))
               (PackageService.range k))
          = take (Z.to_nat k) sample_filenames) as Hnames.
  { destruct (decide (k <= 0)) as [Hk|Hk].
    - unfold PackageService.range. rewrite seqZ_nil by exact Hk.
      replace (Z.to_nat k) with 0%nat by lia. reflexivity.
    - apply sample_files_names. lia. }
  split; [reflexivity|].
  split; [rewrite length_map; unfold PackageService.range; apply length_seqZ|].
  split; [lia|]. split; [exact Hnames|]. split.
  { rewrite Hnames.
    apply (sublist_NoDup _ sample_filenames); [|apply sublist_take].
    apply (bool_decide_unpack _). vm_compute. exact I. }
  split.
  { apply Forall_forall. intros f Hin. apply list_elem_of_fmap in Hin
      as (i & -> & _). split; reflexivity. }
  split; [lia|].
  intros Htot.
  rewrite (listed_size_const _ q) by reflexivity.
  unfold PackageService.range. rewrite length_seqZ.
  assert (0 <= q) as Hq by (apply Z.div_pos; lia).
  pose proof (Z.mul_div_le (total_size_bytes d) (Z.max 1 (file_count d))
                ltac:(lia)) as Hmul.
  fold q in Hmul. split; [nia|].
  assert (Z.of_nat (Z.to_nat k) <= Z.max 1 (file_count d)) by lia.
  nia.
Qed.

Lemma X14_manifest_sample_witness :
  map filename (files (PackageService._generate_manifest sample_dataset))
  = sample_filenames /\
  0 <= listed_size (PackageService._generate_manifest sample_dataset) <= 4096.
Proof.
  pose proof (X14_manifest_sample sample_dataset) as H. cbv zeta in H.
  destruct H as (_ & _ & _ & Hnames & _ & _ & _ & Hsize).
  split; [exact Hnames|]. apply Hsize. discriminate.
Defined.

(** X15. The format breakdown of the manifest (50, 30 and 20 percent of the
    file count, each truncated) of a dataset with [file_count = n],
    [0 <= n < 2^31], never counts more files than the dataset has, and misses
    at most two of them: the three counts are not negative and add up to
    [n - 2], [n - 1] or [n]. The counts are the ones [int(n * 0.5)],
    [int(n * 0.3)] and [int(n * 0.2)] yield in binary64 arithmetic as well:
    below [2^31] each rounded product truncates to the same integer as the
    exact one. For counts near [2^53] the binary64 counts can add up to
    [n + 1], and the statement is not made of them. *)
Theorem X15_format_breakdown_total d :
  0 <= file_count d < 2 ^ 31 ->
  let m := PackageService._generate_manifest d in
  map fst (format_breakdown m) = ["text"; "images"; "other"] /\
  Forall (fun kv => 0 <= snd kv) (format_breakdown m) /\
  file_count d - 2 <= breakdown_total m <= file_count d /\
  format_breakdown m
  = [ ("text", int (float_mul_int (file_count d) 0.5));
      ("images", int (float_mul_int (file_count d) 0.3));
      ("other", int (float_mul_int (file_count d) 0.2)) ].
Proof.
  intros Hn. cbv zeta. unfold breakdown_total, PackageService._generate_manifest.
  cbn [format_breakdown map fst snd foldr].
  rewrite (int_05_binary64 _ Hn), (int_03_binary64 _ Hn),
    (int_02_binary64 _ Hn).
  set (n := file_count d) in *.
  assert (int (inject_Z n * 0.5)%Q = (n * 5) `div` 10) as ->
      by (change (int (inject_Z n * 0.5)%Q) with (Z.quot (n * 5) 10);
          apply Z.quot_div_nonneg; lia).
  assert (int (inject_Z n * 0.3)%Q = (n * 3) `div` 10) as ->
      by (change (int (inject_Z n * 0.3)%Q) with (Z.quot (n * 3) 10);
          apply Z.quot_div_nonneg; lia).
  assert (int (inject_Z n * 0.2)%Q = (n * 2) `div` 10) as ->
      by (change (int (inject_Z n * 0.2)%Q) with (Z.quot (n * 2) 10);
          apply Z.quot_div_nonneg; lia).
  pose proof (Z.div_mod (n * 5) 10 ltac:(lia)).
  pose proof (Z.mod_pos_bound (n * 5) 10 ltac:(lia)).
  pose proof (Z.div_mod (n * 3) 10 ltac:(lia)).
  pose proof (Z.mod_pos_bound (n * 3) 10 ltac:(lia)).
  pose proof (Z.div_mod (n * 2) 10 ltac:(lia)).
  pose proof (Z.mod_pos_bound (n * 2) 10 ltac:(lia)).
  split; [reflexivity|]. split; [|split].
  - repeat constructor; cbn; lia.
  - lia.
  - reflexivity.
Qed.

Lemma X15_format_breakdown_total_witness :
  map fst (format_breakdown (PackageService._generate_manifest sample_dataset))
  = ["text"; "images"; "other"] /\
  Forall (fun kv => 0 <= snd kv)
         (format_breakdown (PackageService._generate_manifest sample_dataset)) /\
  file_count sample_dataset - 2
  <= breakdown_total (PackageService._generate_manifest sample_dataset)
  <= file_count sample_dataset.
Proof.
  destruct (X15_format_breakdown_total sample_dataset) as (H1 & H2 & H3 & _).
  - vm_compute. split; [discriminate|reflexivity].
  - cbv zeta in H1, H2, H3. split; [exact H1|]. split; [exact H2|exact H3].
Defined.

(** Near [2^53] the [int] is rounded when it is converted, and the three
    binary64 counts of 9007199254740999 files add up to one file more. *)
Example format_breakdown_beyond_the_bound :
  int (float_mul_int 9007199254740999 0.5)
  + int (float_mul_int 9007199254740999 0.3)
  + int (float_mul_int 9007199254740999 0.2)
  = 9007199254740999 + 1.
Proof. vm_compute. reflexivity. Qed.

(** A dataset of nine files: the breakdown counts 4 + 2 + 1 = 7 of them. *)
Example breakdown_of_nine_files :
  breakdown_total
    (PackageService._generate_manifest
       (mkDataset "ds-9" 0 "nine" "crowd" "/data/ds-9" 9 900 (value REFINED) 0%Q))
  = 7.
Proof. reflexivity. Qed.

(** ** The provenance log *)

Lemma StronglySorted_step_of rows :
  StronglySorted created_le rows ->
  StronglySorted timestamp_le (map step_of rows).
Proof.
  induction 1 as [|r rows Hs IH Hall]; [constructor|].
  cbn. constructor; [exact IH|].
  apply Forall_fmap. eapply Forall_impl; [exact Hall|].
  intros r' Hle. exact Hle.
Qed.

(** X16. The provenance log that [_generate_provenance_log] builds opens with
    the ingestion step of the dataset and closes with the packaging step
    stamped [now]; between them it has one refinement step for each record
    of the dataset and none for any other, ordered by creation time. The
    call changes nothing. *)
Theorem X16_provenance_log_shape now d w :
  exists steps,
    PackageService._generate_provenance_log now d w
    = (Ok ([ IngestionStep (ds_created_at d)
                           ("Data ingested from " +:+ source_type d)
                           (file_count d) ]
           ++ steps ++ [ PackagingStep now "Data packaged for delivery" ]), w) /\
    steps ≡ₚ map step_of
               (filter_by_dataset_id (ds_id d) (refinement_records (db w))) /\
    StronglySorted timestamp_le steps /\
    (forall e, e ∈ steps <->
               exists r, r ∈ refinement_records (db w) /\
                         dataset_id r = ds_id d /\ e = step_of r).
Proof.
  exists (map step_of
            (order_by_created_at
               (filter_by_dataset_id (ds_id d) (refinement_records (db w))))).
  split; [reflexivity|]. split; [|split].
  - unfold order_by_created_at. now rewrite merge_sort_Permutation.
  - apply StronglySorted_step_of, order_by_created_at_sorted.
  - intros e. rewrite list_elem_of_fmap. split.
    + intros (r & -> & Hin). exists r.
      apply elem_of_order_by_created_at, elem_of_filter_by_dataset_id in Hin
        as [Hr Hin]. auto.
    + intros (r & Hin & Hr & ->). exists r. split; [reflexivity|].
      apply elem_of_order_by_created_at, elem_of_filter_by_dataset_id. auto.
Qed.

(** ** Looking packages up *)

Lemma create_package_appends
      env now did name description ver license_type w p w' :
  PackageService.create_package env now did name description ver
                                license_type w = (Ok p, w') ->
  data_packages (db w') = data_packages (db w) ++ [p] /\ pkg_id p = uuid4 env.
Proof.
  intros Hrun. destruct (datasets (db w) !! did) as [d|] eqn:Hd.
  - destruct (decide (stage d = value REFINED)) as [Hs|Hs].
    + rewrite (create_package_run _ _ _ _ _ _ _ _ d Hd Hs) in Hrun.
      injection Hrun as <- <-. split; reflexivity.
    + rewrite (create_package_not_refined _ _ _ _ _ _ _ _ d Hd Hs) in Hrun.
      discriminate.
  - rewrite (create_package_missing _ _ _ _ _ _ _ _ Hd) in Hrun. discriminate.
Qed.


Lemma find_package_snoc_other (pid : string) rows p :
  pkg_id p <> pid ->
  List.find (fun p0 => bool_decide (pkg_id p0 = pid)) (rows ++ [p])
  = List.find (fun p0 => bool_decide (pkg_id p0 = pid)) rows.
Proof.
  intros Hne. induction rows as [|p0 rows IH]; cbn.
  - now rewrite bool_decide_eq_false_2.
  - destruct (bool_decide (pkg_id p0 = pid)); [reflexivity|exact IH].
Qed.

Lemma find_package_snoc_fresh rows p :
  (forall p0, p0 ∈ rows -> pkg_id p0 <> pkg_id p) ->
  List.find (fun p0 => bool_decide (pkg_id p0 = pkg_id p)) (rows ++ [p])
  = Some p.
Proof.
  intros Hfresh. induction rows as [|p0 rows IH]; cbn.
  - now rewrite bool_decide_eq_true_2.
  - rewrite bool_decide_eq_false_2
      by (apply Hfresh, elem_of_cons; now left).
    apply IH. intros p1 Hin. apply Hfresh, elem_of_cons. now right.
Qed.

Lemma find_package_unique rows p :
  NoDup (map pkg_id rows) -> p ∈ rows ->
  List.find (fun p0 => bool_decide (pkg_id p0 = pkg_id p)) rows = Some p.
Proof.
  induction rows as [|p0 rows IH]; intros Hnd Hin.
  - now apply elem_of_nil in Hin.
  - cbn in Hnd. apply NoDup_cons in Hnd as [Hnotin Hnd]. cbn.
    apply elem_of_cons in Hin as [->|Hin].
    + now rewrite bool_decide_eq_true_2.
    + rewrite bool_decide_eq_false_2; [now apply IH|].
      intros E. apply Hnotin. rewrite E. apply list_elem_of_fmap.
      now exists p.
Qed.

Lemma find_package_Some (pid : string) rows p :
  List.find (fun p0 => bool_decide (pkg_id p0 = pid)) rows = Some p ->
  p ∈ rows /\ pkg_id p = pid.
Proof.
  intros E. apply List.find_some in E as [Hin Hb].
  apply bool_decide_eq_true in Hb. split; [|exact Hb].
  now apply list_elem_of_In.
Qed.

Lemma get_package_details_run pid w :
  PackageService.get_package_details pid w
  = (Ok (PackageService.details_of <$> DataPackage_query_get pid (db w)), w).
Proof.
  unfold PackageService.get_package_details.
  cbv [mbind M_bind mret M_ret get_db].
  now destruct (DataPackage_query_get pid (db w)).
Qed.

(** X17. Insert and look up: when the id given to a new package is not yet
    in the table, the package that [create_package] returns can be read
    back under its id. [get_package_details] returns its details, the
    manifest and provenance handlers answer 200 with the manifest, quality
    metrics and provenance log it was created with, and every other id
    resolves as it did before. *)
Theorem X17_created_package_reads_back
        env now did name description ver license_type w p w' :
  PackageService.create_package env now did name description ver
                                license_type w = (Ok p, w') ->
  fresh_package_id (uuid4 env) w ->
  PackageService.get_package_details (pkg_id p) w'
  = (Ok (Some (PackageService.details_of p)), w') /\
  PackageRoutes.get_package (pkg_id p) w'
  = (Routes.Json (PackageService.details_of p) 200, w') /\
  PackageRoutes.get_manifest (pkg_id p) w'
  = (Routes.Json (pkg_id p, manifest p, quality_metrics p) 200, w') /\
  PackageRoutes.get_provenance (pkg_id p) w'
  = (Routes.Json (pkg_id p, pkg_name p, provenance_log p) 200, w') /\
  (forall pid, pid <> pkg_id p ->
               DataPackage_query_get pid (db w')
               = DataPackage_query_get pid (db w)).
Proof.
  intros Hrun Hfresh.
  destruct (create_package_appends env now did name description ver
              license_type w p w' Hrun) as (Hrows & Hid).
  assert (DataPackage_query_get (pkg_id p) (db w') = Some p) as Hget.
  { unfold DataPackage_query_get. rewrite Hrows.
    apply find_package_snoc_fresh. intros p0 Hin. rewrite Hid.
    now apply Hfresh. }
  split; [now rewrite get_package_details_run, Hget|].
  split; [unfold PackageRoutes.get_package;
          now rewrite get_package_details_run, Hget|].
  split; [unfold PackageRoutes.get_manifest; now rewrite Hget|].
  split; [unfold PackageRoutes.get_provenance; now rewrite Hget|].
  intros pid Hne. unfold DataPackage_query_get. rewrite Hrows.
  apply find_package_snoc_other. congruence.
Qed.

Lemma X17_created_package_reads_back_witness :
  PackageService.get_package_details (pkg_id sample_package) packaged_sample
  = (Ok (Some (PackageService.details_of sample_package)), packaged_sample) /\
  PackageRoutes.get_package (pkg_id sample_package) packaged_sample
  = (Routes.Json (PackageService.details_of sample_package) 200,
     packaged_sample) /\
  PackageRoutes.get_manifest (pkg_id sample_package) packaged_sample
  = (Routes.Json (pkg_id sample_package, manifest sample_package,
                  quality_metrics sample_package) 200, packaged_sample) /\
  PackageRoutes.get_provenance (pkg_id sample_package) packaged_sample
  = (Routes.Json (pkg_id sample_package, pkg_name sample_package,
                  provenance_log sample_package) 200, packaged_sample) /\
  (forall pid, pid <> pkg_id sample_package ->
               DataPackage_query_get pid (db packaged_sample)
               = DataPackage_query_get pid (db twice_refined)).
Proof.
  apply (X17_created_package_reads_back package_insert 400 "ds-1" "pack"
           "first cut" "1.0" "proprietary" twice_refined).
  - reflexivity.
  - intros p0 Hin. now apply elem_of_nil in Hin.
Defined.

Lemma for_each_pure {A B : Type} (f : A -> M B) (g : A -> B) (l : list A) w :
  (forall a, a ∈ l -> f a w = (Ok (g a), w)) ->
  PackageService.for_each f l w = (Ok (map g l), w).
Proof.
  induction l as [|a l IH]; intros Hf; [reflexivity|].
  cbn [PackageService.for_each map].
  rewrite (bind_ok _ _ _ _ _ (Hf a ltac:(apply elem_of_cons; now left))).
  rewrite (bind_ok _ _ _ _ _
             (IH (fun a' Hin => Hf a' ltac:(apply elem_of_cons; now right)))).
  reflexivity.
Qed.

(** X18. When the package ids in the table are pairwise different,
    [list_packages_by_dataset] returns the details of exactly the packages
    made from the dataset, one entry each, in table order, and no entry is
    [None]. (Each entry is looked up again by id, so the listing depends on
    the ids being different.) *)
Theorem X18_listing_packages_of_a_dataset did w :
  NoDup (map pkg_id (data_packages (db w))) ->
  PackageService.list_packages_by_dataset did w
  = (Ok (map (fun p => Some (PackageService.details_of p))
            (filter_by_source_dataset_id did (data_packages (db w)))), w).
Proof.
  intros Hnd. unfold PackageService.list_packages_by_dataset.
  cbv [mbind M_bind get_db]. apply for_each_pure.
  intros p Hin. rewrite get_package_details_run.
  unfold DataPackage_query_get. rewrite find_package_unique; [reflexivity| |].
  - exact Hnd.
  - unfold filter_by_source_dataset_id in Hin.
    now apply list_elem_of_filter in Hin as [_ Hin].
Qed.

Lemma X18_listing_packages_of_a_dataset_witness :
  PackageService.list_packages_by_dataset "ds-1" packaged_sample
  = (Ok [Some (PackageService.details_of sample_package)], packaged_sample).
Proof.
  apply (X18_listing_packages_of_a_dataset "ds-1" packaged_sample).
  apply (bool_decide_unpack _). vm_compute. exact I.
Defined.

(** ** Putting a package up for sale *)

Lemma find_update_package (pid pid' : string) f rows :
  (forall p, pkg_id (f p) = pkg_id p) ->
  List.find (fun p0 => bool_decide (pkg_id p0 = pid'))
            (update_package pid f rows)
  = if bool_decide (pid' = pid)
    then f <$> List.find (fun p0 => bool_decide (pkg_id p0 = pid)) rows
    else List.find (fun p0 => bool_decide (pkg_id p0 = pid')) rows.
Proof.
  intros Hf. induction rows as [|p rows IH]; cbn.
  - now destruct (bool_decide (pid' = pid)).
  - destruct (decide (pkg_id p = pid)) as [Hp|Hp].
    + rewrite (bool_decide_eq_true_2 _ Hp). cbn. rewrite Hf.
      destruct (decide (pid' = pid)) as [->|Hne].
      * rewrite (bool_decide_eq_true_2 (pkg_id p = pid) Hp).
        now rewrite (bool_decide_eq_true_2 (pid = pid) eq_refl).
      * rewrite (bool_decide_eq_false_2 (pid' = pid) Hne).
        assert (pkg_id p <> pid') as Hp' by congruence.
        now rewrite (bool_decide_eq_false_2 (pkg_id p = pid') Hp').
    + rewrite (bool_decide_eq_false_2 _ Hp). cbn. rewrite IH.
      destruct (decide (pid' = pid)) as [->|Hne].
      * rewrite (bool_decide_eq_true_2 (pid = pid) eq_refl).
        now rewrite (bool_decide_eq_false_2 (pkg_id p = pid) Hp).
      * rewrite (bool_decide_eq_false_2 (pid' = pid) Hne).
        now destruct (bool_decide (pkg_id p = pid')).
Qed.

(** X19. [update_package_for_sale]. For an unknown package id it raises
    [ValueError] and changes nothing. For a known one it sets the price
    and the flag on that package and on no other, whatever the price;
    with [is_for_sale] true it also moves the package's source dataset to
    LISTED, whatever stage it was in, and with [is_for_sale] false it leaves
    every dataset alone. The records table is never touched, and the
    package read back under its id is the updated one. *)
Theorem X19_update_package_for_sale pid price flag w :
  (DataPackage_query_get pid (db w) = None ->
   PackageService.update_package_for_sale pid price flag w
   = (PackageService.Raises
        (ValueError ("Package " +:+ pid +:+ " not found")), w)) /\
  (forall p,
      DataPackage_query_get pid (db w) = Some p ->
      (flag = true -> is_Some (datasets (db w) !! source_dataset_id p)) ->
      exists w',
        PackageService.update_package_for_sale pid price flag w
        = (PackageService.Returns (with_sale flag (Some price) p), w') /\
        DataPackage_query_get pid (db w')
        = Some (with_sale flag (Some price) p) /\
        (forall pid', pid' <> pid ->
                      DataPackage_query_get pid' (db w')
                      = DataPackage_query_get pid' (db w)) /\
        refinement_records (db w') = refinement_records (db w) /\
        datasets (db w')
        = (if flag
           then alter (with_stage (value LISTED)) (source_dataset_id p)
                      (datasets (db w))
           else datasets (db w))).
Proof.
  unfold PackageService.update_package_for_sale. split.
  - now intros ->.
  - intros p Hp Hfk. rewrite Hp.
    assert (forall pid',
               List.find (fun p0 => bool_decide (pkg_id p0 = pid'))
                 (update_package pid (with_sale flag (Some price))
                    (data_packages (db w)))
               = if bool_decide (pid' = pid)
                 then with_sale flag (Some price)
                      <$> DataPackage_query_get pid (db w)
                 else DataPackage_query_get pid' (db w)) as Hfind
        by (intros pid'; now apply find_update_package).
    destruct flag.
    + destruct (Hfk eq_refl) as [d Hd]. rewrite Hd.
      destruct w as [dbw jw]. eexists. split; [reflexivity|].
      unfold DataPackage_query_get. cbn.
      split; [now rewrite Hfind, bool_decide_eq_true_2, Hp|].
      split; [|split; reflexivity].
      intros pid' Hne. now rewrite Hfind, bool_decide_eq_false_2.
    + destruct w as [dbw jw]. eexists. split; [reflexivity|].
      unfold DataPackage_query_get. cbn.
      split; [now rewrite Hfind, bool_decide_eq_true_2, Hp|].
      split; [|split; reflexivity].
      intros pid' Hne. now rewrite Hfind, bool_decide_eq_false_2.
Qed.

Lemma X19_update_package_for_sale_witness :
  PackageService.update_package_for_sale "pkg-7" 49.99 true packaged_sample
  = (PackageService.Raises (ValueError "Package pkg-7 not found"),
     packaged_sample) /\
  exists w',
    PackageService.update_package_for_sale "pkg-1" 49.99 true packaged_sample
    = (PackageService.Returns listed_package, w') /\
    DataPackage_query_get "pkg-1" (db w') = Some listed_package /\
    datasets (db w')
    = alter (with_stage (value LISTED)) "ds-1" (datasets (db packaged_sample)).
Proof.
  split.
  - apply (X19_update_package_for_sale "pkg-7" 49.99%Q true packaged_sample).
    reflexivity.
  - destruct (proj2 (X19_update_package_for_sale "pkg-1" 49.99%Q true
                       packaged_sample) sample_package)
      as (w' & Hrun & Hget & _ & _ & Hds).
    + reflexivity.
    + intros _. eexists. reflexivity.
    + exists w'. split; [exact Hrun|]. split; [exact Hget|exact Hds].
Defined.

(** Closes the cases of a status-code characterisation. *)
Ltac status_cases :=
  repeat split; intros;
  repeat match goal with
         | H : _ /\ _ |- _ => destruct H
         | H : exists _, _ |- _ => destruct H
         | H : is_Some None |- _ => destruct H as [? H]; discriminate H
         | H : Some _ = Some _ |- _ => injection H as H; subst
         end;
  try discriminate; try lia; try congruence;
  try (left; reflexivity); try (right; left; reflexivity);
  try (right; right; left; reflexivity); try (right; right; right; reflexivity);
  try (eexists; repeat split; first [reflexivity | eassumption]); eauto.

Lemma update_package_for_sale_unknown pid price flag w :
  DataPackage_query_get pid (db w) = None ->
  PackageService.update_package_for_sale pid price flag w
  = (PackageService.Raises
       (ValueError ("Package " +:+ pid +:+ " not found")), w).
Proof. unfold PackageService.update_package_for_sale. now intros ->. Qed.

(** X20. The sell handler, on a request whose body is a JSON object in
    which [price_usd], when present, is a number and [is_for_sale], when
    present, is a boolean. It answers such a request with 400 exactly when
    the body has no price, with 404 exactly when it has one and the package
    is unknown, and with 500 exactly when the package is known, the flag
    ([true] when the body has none) is set and the package's source dataset
    does not exist; in these three cases the world is unchanged. Otherwise it
    answers 200 and echoes the package's id and name with the new price and
    flag. Nothing is stated of other bodies: for a body that is not an
    object, JSON [null] for one, the membership test that stands in front of
    the [try] fails. *)
Theorem X20_sell_route_statuses pid body_price body_flag w :
  let answer := PackageRoutes.update_for_sale pid body_price body_flag w in
  let status := Routes.status_of (fst answer) in
  let flag := default true body_flag in
  (status = 400 <-> body_price = None) /\
  (status = 404 <->
   is_Some body_price /\ DataPackage_query_get pid (db w) = None) /\
  (status = 500 <->
   is_Some body_price /\
   exists p, DataPackage_query_get pid (db w) = Some p /\ flag = true /\
             datasets (db w) !! source_dataset_id p = None) /\
  (status <> 200 -> snd answer = w) /\
  (status = 200 \/ status = 400 \/ status = 404 \/ status = 500) /\
  (status = 200 ->
   exists price p,
     body_price = Some price /\ DataPackage_query_get pid (db w) = Some p /\
     fst answer
     = Routes.Json
         (PackageRoutes.mkSaleBody (pkg_id p) (pkg_name p) (Some price) flag)
         200).
Proof.
  cbv zeta. unfold PackageRoutes.update_for_sale.
  destruct body_price as [price|]; [|cbn; status_cases].
  destruct (DataPackage_query_get pid (db w)) as [p|] eqn:Hp.
  2:{ rewrite (update_package_for_sale_unknown pid price
                 (default true body_flag) w Hp).
      cbn. status_cases. }
  unfold PackageService.update_package_for_sale. rewrite Hp.
  destruct (default true body_flag) eqn:Hflag.
  - destruct (datasets (db w) !! source_dataset_id p) as [d|] eqn:Hd;
      destruct w as [dbw jw];
      cbv [mbind M_bind mret M_ret modify_db set_stage session_commit log
           PackageService.outcome_of];
      cbn in *; status_cases.
  - destruct w as [dbw jw].
    cbv [mbind M_bind mret M_ret modify_db set_stage session_commit log
         PackageService.outcome_of].
    cbn. status_cases.
Qed.

Lemma X20_sell_route_statuses_witness :
  PackageRoutes.update_for_sale "pkg-1" None None packaged_sample
  = (Routes.Error "Missing required field: price_usd" 400, packaged_sample) /\
  Routes.status_of
    (fst (PackageRoutes.update_for_sale "pkg-7" (Some 10%Q) None
            packaged_sample)) = 404 /\
  fst (PackageRoutes.update_for_sale "pkg-1" (Some 10%Q) None packaged_sample)
  = Routes.Json (PackageRoutes.mkSaleBody "pkg-1" "pack" (Some 10%Q) true) 200.
Proof.
  pose proof (X20_sell_route_statuses "pkg-1" None None packaged_sample) as H0.
  pose proof (X20_sell_route_statuses "pkg-7" (Some 10%Q) None packaged_sample)
    as H7.
  pose proof (X20_sell_route_statuses "pkg-1" (Some 10%Q) None packaged_sample)
    as H1.
  cbv zeta in H0, H7, H1.
  destruct H0 as (H400 & _). destruct H7 as (_ & H404 & _).
  destruct H1 as (_ & _ & _ & _ & _ & H200).
  split; [reflexivity|]. split.
  - apply H404. split; [eexists; reflexivity|reflexivity].
  - destruct H200 as (price & p & Hprice & Hp & Hbody); [reflexivity|].
    injection Hprice as <-. vm_compute in Hp. injection Hp as <-.
    exact Hbody.
Defined.

(** ** From refinement to the marketplace *)

Lemma length_update_package (pid : string) f rows :
  length (update_package pid f rows) = length rows.
Proof.
  induction rows as [|p rows IH]; [reflexivity|]. cbn.
  destruct (bool_decide _); cbn; [reflexivity|now rewrite IH].
Qed.

(** The world a successful listing leaves. *)
Lemma update_package_for_sale_listed pid price w p :
  DataPackage_query_get pid (db w) = Some p ->
  forall d, datasets (db w) !! source_dataset_id p = Some d ->
  PackageService.update_package_for_sale pid price true w
  = (PackageService.Returns (with_sale true (Some price) p),
     mkWorld
       (mkDB (alter (with_stage (value LISTED)) (source_dataset_id p)
                (datasets (db w)))
             (refinement_records (db w))
             (update_package pid (with_sale true (Some price))
                (data_packages (db w))))
       (journal w ++ [SetStage (source_dataset_id p) (value LISTED); Commit])).
Proof.
  intros Hp d Hd. unfold PackageService.update_package_for_sale.
  rewrite Hp, Hd. destruct w as [dbw jw].
  cbv [mbind M_bind mret M_ret modify_db set_stage session_commit log
       PackageService.outcome_of alter_dataset].
  cbn. now rewrite <- app_assoc.
Qed.


Lemma stage_writes_app did l1 l2 :
  stage_writes did (l1 ++ l2) = stage_writes did l1 ++ stage_writes did l2.
Proof.
  induction l1 as [|e l1 IH]; [reflexivity|].
  destruct e; cbn; try exact IH.
  destruct (bool_decide _); cbn; now rewrite IH.
Qed.

(** X21. The three services in a row. Starting from an existing dataset in
    any stage, [refine_dataset], then [create_package] under an id not yet
    in the table, then [update_package_for_sale] on that package all
    succeed; the stage of the dataset is written three times, REFINED,
    PACKAGED and LISTED in that order, and at the end the dataset is LISTED
    with its file count unchanged, the table has one more record and one
    more package, and the package is for sale at the given price. *)
Theorem X21_refine_package_sell
        env penv now did th name description ver license_type price w d :
  datasets (db w) !! did = Some d ->
  fresh_package_id (uuid4 penv) w ->
  exists r w1 p w2 w3 d3,
    RefinementService.refine_dataset env did th w = (Ok r, w1) /\
    PackageService.create_package penv now did name description ver
                                  license_type w1 = (Ok p, w2) /\
    PackageService.update_package_for_sale (pkg_id p) price true w2
    = (PackageService.Returns (with_sale true (Some price) p), w3) /\
    stage_writes did (journal w3)
    = stage_writes did (journal w)
      ++ [value REFINED; value PACKAGED; value LISTED] /\
    datasets (db w3) !! did = Some d3 /\
    stage d3 = value LISTED /\ file_count d3 = file_count d /\
    refinement_records (db w3) = refinement_records (db w) ++ [r] /\
    DataPackage_query_get (pkg_id p) (db w3)
    = Some (with_sale true (Some price) p) /\
    length (data_packages (db w3)) = S (length (data_packages (db w))).
Proof.
  intros Hd Hfresh.
  set (d1 := with_quality_score placeholder_overall
               (with_stage (value REFINED) d)).
  set (w1 := refined_world env did d w).
  set (p := package_of penv now did name description ver license_type d1
              (refinement_records (db w1))).
  set (w2 := packaged_world did p w1).
  assert (datasets (db w1) !! did = Some d1) as Hd1
      by apply (refined_world_dataset env did d w Hd).
  assert (datasets (db w2) !! did = Some (with_stage (value PACKAGED) d1))
    as Hd2 by apply (packaged_world_dataset did p w1 d1 Hd1).
  assert (DataPackage_query_get (pkg_id p) (db w2) = Some p) as Hget.
  { unfold DataPackage_query_get. cbn [w2 packaged_world db data_packages].
    apply find_package_snoc_fresh. intros p0 Hin. now apply Hfresh. }
  assert (source_dataset_id p = did) as Hsrc by reflexivity.
  pose proof (update_package_for_sale_listed (pkg_id p) price w2 p Hget
                (with_stage (value PACKAGED) d1)) as Hrun.
  rewrite Hsrc in Hrun. specialize (Hrun Hd2).
  eexists (refined_record env did d), w1, p, w2, _, _.
  split; [apply (refine_dataset_run _ _ _ _ d Hd)|].
  split; [apply (create_package_run _ _ _ _ _ _ _ _ d1 Hd1 eq_refl)|].
  split; [exact Hrun|]. clear Hrun.
  split.
  { cbn [journal w2 w1 packaged_world refined_world refine_events].
    rewrite !stage_writes_app. cbn.
    rewrite !bool_decide_eq_true_2 by reflexivity.
    cbn. now rewrite <- !app_assoc. }
  split.
  { cbn. rewrite !lookup_alter_eq, Hd. reflexivity. }
  split; [reflexivity|]. split; [reflexivity|]. split; [reflexivity|].
  split.
  { unfold DataPackage_query_get. cbn [db data_packages].
    rewrite find_update_package by reflexivity.
    rewrite bool_decide_eq_true_2 by reflexivity.
    unfold DataPackage_query_get in Hget. now rewrite Hget. }
  cbn. rewrite length_update_package, length_app. cbn. lia.
Qed.

Lemma X21_refine_package_sell_witness :
  exists r w1 p w2 w3 d3,
    RefinementService.refine_dataset first_insert "ds-1" 0.5 (session sample_db)
    = (Ok r, w1) /\
    PackageService.create_package package_insert 400 "ds-1" "pack" "cut" "1.0"
                                  "proprietary" w1 = (Ok p, w2) /\
    PackageService.update_package_for_sale (pkg_id p) 49.99 true w2
    = (PackageService.Returns (with_sale true (Some 49.99%Q) p), w3) /\
    stage_writes "ds-1" (journal w3)
    = stage_writes "ds-1" (journal (session sample_db))
      ++ [value REFINED; value PACKAGED; value LISTED] /\
    datasets (db w3) !! "ds-1" = Some d3 /\
    stage d3 = value LISTED /\ file_count d3 = file_count sample_dataset /\
    refinement_records (db w3)
    = refinement_records (db (session sample_db)) ++ [r] /\
    DataPackage_query_get (pkg_id p) (db w3)
    = Some (with_sale true (Some 49.99%Q) p) /\
    length (data_packages (db w3))
    = S (length (data_packages (db (session sample_db)))).
Proof.
  apply (X21_refine_package_sell first_insert package_insert 400 "ds-1" 0.5
           "pack" "cut" "1.0" "proprietary" 49.99%Q (session sample_db)
           sample_dataset).
  - reflexivity.
  - intros p0 Hin. now apply elem_of_nil in Hin.
Defined.

(** ** Status codes of the packaging route *)

(** X22. The packaging handler answers 201 exactly when the body has the
    three required fields and names an existing dataset whose stage is
    REFINED; it then has appended one package that carries the name of the
    body, and version ["1.0"] and license ["proprietary"] unless the body
    gives others. In every other case it answers 400, never 500, and leaves
    the world as it was. *)
Theorem X22_packaging_route_statuses env now data w :
  let answer := PackageRoutes.create_package env now data w in
  let status := Routes.status_of (fst answer) in
  let packageable :=
    exists did name description d,
      data !! "dataset_id" = Some did /\ data !! "name" = Some name /\
      data !! "description" = Some description /\
      datasets (db w) !! did = Some d /\ stage d = value REFINED in
  (status = 201 \/ status = 400) /\
  (status = 201 <-> packageable) /\
  (status <> 201 -> snd answer = w) /\
  (status = 201 ->
   exists p,
     data_packages (db (snd answer)) = data_packages (db w) ++ [p] /\
     data !! "dataset_id" = Some (source_dataset_id p) /\
     data !! "name" = Some (pkg_name p) /\
     version p = default "1.0" (data !! "version") /\
     pkg_license_type p = default "proprietary" (data !! "license_type")).
Proof.
  cbv zeta. unfold PackageRoutes.create_package. cbn [forallb].
  destruct (data !! "dataset_id") as [did|] eqn:E1;
    [|rewrite bool_decide_eq_false_2 by (intros [? ?]; discriminate);
      cbn; status_cases].
  destruct (data !! "name") as [name|] eqn:E2;
    [|rewrite (bool_decide_eq_false_2 (is_Some None))
        by (intros [? ?]; discriminate);
      rewrite andb_false_r; cbn; status_cases].
  destruct (data !! "description") as [description|] eqn:E3;
    [|rewrite (bool_decide_eq_false_2 (is_Some None))
        by (intros [? ?]; discriminate);
      rewrite !andb_false_r; cbn; status_cases].
  rewrite !bool_decide_eq_true_2 by (eexists; reflexivity). cbn [andb negb default].
  destruct (datasets (db w) !! did) as [d|] eqn:Hd.
  - destruct (decide (stage d = value REFINED)) as [Hs|Hs].
    + rewrite (create_package_run _ _ _ _ _ _ _ _ d Hd Hs). cbn.
      status_cases.
      exists did, name, description, d. repeat split; assumption.
    + rewrite (create_package_not_refined _ _ _ _ _ _ _ _ d Hd Hs). cbn.
      status_cases.
      match goal with
      | H2 : datasets (db w) !! _ = Some ?x2, H3 : stage ?x2 = _ |- _ =>
          assert (x2 = d) by congruence; subst; exfalso; exact (Hs H3)
      end.
  - rewrite (create_package_missing _ _ _ _ _ _ _ _ Hd). cbn. status_cases.
Qed.

Lemma X22_packaging_route_statuses_witness :
  Routes.status_of
    (fst (PackageRoutes.create_package package_insert 400
            sample_package_request twice_refined)) = 201 /\
  Routes.status_of
    (fst (PackageRoutes.create_package package_insert 400
            sample_package_request (session sample_db))) = 400 /\
  snd (PackageRoutes.create_package package_insert 400
         sample_package_request (session sample_db)) = session sample_db.
Proof.
  pose proof (X22_packaging_route_statuses package_insert 400
                sample_package_request twice_refined) as H1.
  pose proof (X22_packaging_route_statuses package_insert 400
                sample_package_request (session sample_db)) as H0.
  cbv zeta in H1, H0.
  destruct H1 as (_ & Hiff & _). destruct H0 as (Hor & _ & Hsame & _).
  split.
  - apply Hiff. exists "ds-1", "pack", "first cut", refined_sample_dataset.
    repeat split; reflexivity.
  - assert (Routes.status_of
              (fst (PackageRoutes.create_package package_insert 400
                      sample_package_request (session sample_db))) = 400) as E
        by reflexivity.
    split; [exact E|]. apply Hsame. rewrite E. discriminate.
Defined.

(** ** Batches of the scorer and the classifier *)

Section DictComprehension.
Context {V : Type}.
Implicit Types (d : list (string * V)) (k p : string) (v : V).

Lemma dict_get_set d k p v :
  dict_get p (Classifier.dict_set k v d)
  = if String.eqb p k then Some v else dict_get p d.
Proof.
  induction d as [|[k' v'] d IH]; cbn.
  - reflexivity.
  - destruct (String.eqb k k') eqn:Ek; cbn.
    + apply String.eqb_eq in Ek as ->.
      now destruct (String.eqb p k').
    + rewrite IH. destruct (String.eqb p k') eqn:Ep; [|reflexivity].
      apply String.eqb_eq in Ep as ->.
      rewrite String.eqb_sym in Ek. now rewrite Ek.
Qed.

Lemma dict_set_keys d k v :
  map fst (Classifier.dict_set k v d)
  = if bool_decide (k ∈ map fst d) then map fst d else map fst d ++ [k].
Proof.
  induction d as [|[k' v'] d IH]; cbn.
  - rewrite bool_decide_eq_false_2; [reflexivity|]. apply not_elem_of_nil.
  - destruct (String.eqb k k') eqn:Ek; cbn.
    + apply String.eqb_eq in Ek as ->.
      rewrite bool_decide_eq_true_2; [reflexivity|]. apply elem_of_cons.
      now left.
    + apply String.eqb_neq in Ek. rewrite IH.
      destruct (decide (k ∈ map fst d)) as [Hin|Hin].
      * rewrite !bool_decide_eq_true_2; [reflexivity| |exact Hin].
        apply elem_of_cons. now right.
      * rewrite !bool_decide_eq_false_2; [reflexivity| |exact Hin].
        intros [?|?]%elem_of_cons; [congruence|contradiction].
Qed.

Variable f : string -> V.

Lemma dict_comprehension_get paths d p :
  dict_get p (fold_left (fun d path => Classifier.dict_set path (f path) d)
                        paths d)
  = if bool_decide (p ∈ paths) then Some (f p) else dict_get p d.
Proof.
  revert d. induction paths as [|path paths IH]; intros d; cbn.
  - rewrite bool_decide_eq_false_2; [reflexivity|]. apply not_elem_of_nil.
  - rewrite IH, dict_get_set.
    destruct (decide (p ∈ paths)) as [Hin|Hin].
    + rewrite !bool_decide_eq_true_2; [reflexivity| |exact Hin].
      apply elem_of_cons. now right.
    + rewrite (bool_decide_eq_false_2 _ Hin).
      destruct (String.eqb p path) eqn:Ep.
      * apply String.eqb_eq in Ep as ->.
        rewrite bool_decide_eq_true_2; [reflexivity|].
        apply elem_of_cons. now left.
      * apply String.eqb_neq in Ep.
        rewrite bool_decide_eq_false_2; [reflexivity|].
        intros [?|?]%elem_of_cons; [congruence|contradiction].
Qed.

Lemma dict_comprehension_keys paths d :
  NoDup (map fst d) ->
  NoDup (map fst (fold_left
                    (fun d path => Classifier.dict_set path (f path) d)
                    paths d)) /\
  (length (fold_left (fun d path => Classifier.dict_set path (f path) d)
                     paths d)
   <= length d + length paths)%nat.
Proof.
  revert d. induction paths as [|path paths IH]; intros d Hnd; cbn.
  - split; [exact Hnd|lia].
  - assert (NoDup (map fst (Classifier.dict_set path (f path) d))) as Hnd'.
    { rewrite dict_set_keys. case_bool_decide; [exact Hnd|].
      apply NoDup_app. split; [exact Hnd|]. split.
      - intros x Hx Hx'. apply list_elem_of_singleton in Hx'. now subst.
      - apply NoDup_singleton. }
    destruct (IH _ Hnd') as [H1 H2]. split; [exact H1|].
    assert (length (Classifier.dict_set path (f path) d) <= S (length d))%nat.
    { rewrite <- (length_map fst (Classifier.dict_set _ _ _)),
              <- (length_map fst d), dict_set_keys.
      case_bool_decide; [lia|]. rewrite length_app. cbn. lia. }
    lia.
Qed.
End DictComprehension.

Lemma scorer_dict_set k v d :
  QualityScorer.dict_set k v d = Classifier.dict_set k v d.
Proof.
  induction d as [|[k' v'] d IH]; cbn; [reflexivity|].
  now rewrite IH.
Qed.

Lemma score_batch_as_comprehension self paths :
  QualityScorer.score_batch self paths
  = fold_left (fun d path =>
                 Classifier.dict_set path (QualityScorer.score_item self path) d)
              paths [].
Proof.
  unfold QualityScorer.score_batch. generalize (@nil (string * Q)).
  induction paths as [|path paths IH]; intros d; cbn; [reflexivity|].
  now rewrite scorer_dict_set, IH.
Qed.

(** X23. [score_batch] returns a dict with one entry for each different
    path of the batch: a path of the batch maps to its [score_item] score,
    any other path is absent, no key occurs twice, and the dict is no longer
    than the batch (shorter when a path is repeated). *)
Theorem X23_score_batch_is_a_dict self paths :
  (forall p,
      dict_get p (QualityScorer.score_batch self paths)
      = if bool_decide (p ∈ paths)
        then Some (QualityScorer.score_item self p) else None) /\
  NoDup (map fst (QualityScorer.score_batch self paths)) /\
  (length (QualityScorer.score_batch self paths) <= length paths)%nat.
Proof.
  rewrite score_batch_as_comprehension. split; [|split].
  - intros p. apply (dict_comprehension_get _ paths [] p).
  - apply dict_comprehension_keys. constructor.
  - apply (dict_comprehension_keys
             (fun path => QualityScorer.score_item self path) paths []).
    constructor.
Qed.

(** X24. [classify_batch] returns a dict with one entry for each different
    path of the batch, each the classification [classify_item] gives (its
    modality is ["unknown"]); a path outside the batch is absent and no key
    occurs twice. *)
Theorem X24_classify_batch_is_a_dict self paths :
  (forall p,
      dict_get p (Classifier.classify_batch self paths)
      = if bool_decide (p ∈ paths)
        then Some (Classifier.classify_item self p) else None) /\
  NoDup (map fst (Classifier.classify_batch self paths)) /\
  (length (Classifier.classify_batch self paths) <= length paths)%nat /\
  Forall (fun kv => Classifier.modality (snd kv) = "unknown")
         (Classifier.classify_batch self paths).
Proof.
  unfold Classifier.classify_batch. split; [|split; [|split]].
  - intros p. apply (dict_comprehension_get _ paths [] p).
  - apply dict_comprehension_keys. constructor.
  - apply (dict_comprehension_keys
             (fun path => Classifier.classify_item self path) paths []).
    constructor.
  - assert (forall d : list (string * Classifier.Classification),
               Forall (fun kv => Classifier.modality (snd kv) = "unknown") d ->
               Forall (fun kv => Classifier.modality (snd kv) = "unknown")
                 (fold_left
                    (fun d path =>
                       Classifier.dict_set path
                         (Classifier.classify_item self path) d) paths d))
      as Hall; [|apply Hall; constructor].
    induction paths as [|path paths IH]; intros d Hd; cbn; [exact Hd|].
    apply IH. clear IH.
    induction d as [|[k' v'] d IHd]; cbn.
    + constructor; [reflexivity|constructor].
    + apply Forall_cons in Hd as [Hv Hd].
      destruct (String.eqb path k'); constructor; auto.
Qed.

Example score_batch_with_a_repeated_path :
  QualityScorer.score_batch QualityScorer.init ["a.txt"; "b.txt"; "a.txt"]
  = [("a.txt", 0.85%Q); ("b.txt", 0.85%Q)].
Proof. reflexivity. Qed.

(** ** The deduplicator's placeholders *)

(** X25. [calculate_hash] separates items exactly by their path: two calls
    return the same hash if and only if the paths are equal, whatever the
    algorithm names and the deduplicators are. Grouping items by this hash
    therefore never puts two different paths in one group. *)
Theorem X25_calculate_hash_separates_paths
        self1 self2 path1 path2 algorithm1 algorithm2 :
  Deduplicator.calculate_hash self1 path1 algorithm1
  = Deduplicator.calculate_hash self2 path2 algorithm2
  <-> path1 = path2.
Proof.
  unfold Deduplicator.calculate_hash. split.
  - apply (String.app_inj "hash_").
  - now intros ->.
Qed.



(** ** The history handler *)

(** X27. The history handler always answers 200 and writes nothing; it does
    not look the dataset up. Its list has one entry for each record that
    carries the dataset id and no other entry, in order of creation time, so
    for an id without records, known or unknown, the list is empty. *)
Theorem X27_history_route did w :
  exists h,
    Routes.get_refinement_history did w = (Routes.Json (did, h) 200, w) /\
    h ≡ₚ map Routes.history_entry
           (filter_by_dataset_id did (refinement_records (db w))) /\
    StronglySorted entry_le h /\
    ((forall r, r ∈ refinement_records (db w) -> dataset_id r <> did) ->
     h = []).
Proof.
  eexists. split; [reflexivity|]. split; [|split].
  - unfold order_by_created_at. now rewrite merge_sort_Permutation.
  - apply StronglySorted_history_entry, order_by_created_at_sorted.
  - intros Hnone.
    assert (filter_by_dataset_id did (refinement_records (db w)) = []) as ->.
    { destruct (filter_by_dataset_id did (refinement_records (db w)))
        as [|r l] eqn:E; [reflexivity|].
      assert (r ∈ filter_by_dataset_id did (refinement_records (db w))) as Hin
          by (rewrite E; apply elem_of_cons; now left).
      apply elem_of_filter_by_dataset_id in Hin as [Hr Hin].
      now destruct (Hnone r Hin). }
    reflexivity.
Qed.

Lemma X27_history_route_witness :
  Routes.get_refinement_history "ds-9" twice_refined
  = (Routes.Json ("ds-9", []) 200, twice_refined).
Proof.
  destruct (X27_history_route "ds-9" twice_refined) as (h & Hrun & _ & _ & Hnil).
  rewrite Hrun, Hnil; [reflexivity|].
  intros r Hin.
  repeat (apply elem_of_cons in Hin as [->|Hin]; [discriminate|]).
  now apply elem_of_nil in Hin.
Defined.
